(** * Price recalculation of orders and checkouts

    A shallow embedding of [saleor/order/calculations.py] and
    [saleor/checkout/calculations.py].

    Conventions of the embedding.
    - A Python [Decimal] is the rational it denotes ([Qc], canonical
      fractions, so that numeric equality is Leibniz equality).  A division
      is rounded as the default context of the [decimal] module rounds it,
      to 28 significant digits with [ROUND_HALF_EVEN].  Sums and differences
      are exact, as they are in Python while the result has at most 28
      significant digits; the exponent limits of the context are left
      out.
    - Every [Money] handled during one call is in the currency of the order
      (resp. checkout) it belongs to: the composite model fields rebuild
      [Money] values from the amount columns and the single [currency]
      column.  Amounts are therefore kept without a currency tag.
    - Model instances are mutated in place by the source; here every function
      takes the instance and returns the mutated one.  An iterable of lines
      is a list.  Database rows and the caches the functions touch are
      threaded through explicitly.
    - A Python exception is the [Raise] constructor of [result]; the state a
      raising call leaves behind is not described.
    - Functions, constants and tables imported from other modules of the
      repository ([base_calculations], [tax.utils], the plugins manager,
      babel's precision table, the settings) are parameters. *)

From Stdlib Require Import ZArith QArith Qcanon Qround Qabs Qpower.
From Stdlib Require Import List String Bool Lia Lqa.
Import ListNotations.

Set Implicit Arguments.

(** ** Exceptions *)

Inductive exn : Type :=
| TaxError
| DivisionByZero
| InvalidOperation
| KeyError.

Inductive result (A : Type) : Type :=
| Ok (a : A)
| Raise (e : exn).

Arguments Ok {A} a.
Arguments Raise {A} e.

Definition bind {A B : Type} (c : result A) (k : A -> result B) : result B :=
  match c with
  | Ok a => k a
  | Raise e => Raise e
  end.

Declare Scope result_scope.
Delimit Scope result_scope with result.
Notation "x <- c ;; k" := (bind c (fun x => k))
  (at level 61, c at next level, right associativity) : result_scope.
Notation "' p <- c ;; k" := (bind c (fun x => let p := x in k))
  (at level 61, p pattern, c at next level, right associativity) : result_scope.

Definition exn_eqb (a b : exn) : bool :=
  match a, b with
  | TaxError, TaxError => true
  | DivisionByZero, DivisionByZero => true
  | InvalidOperation, InvalidOperation => true
  | KeyError, KeyError => true
  | _, _ => false
  end.

(** [try: c except TaxError: pass], continuing with [k] on the value of [c]
    and with [fallback] when [c] raised [TaxError].  Any other exception
    propagates. *)
Definition except_TaxError {A B : Type}
    (c : result A) (k : A -> result B) (fallback : result B) : result B :=
  match c with
  | Ok a => k a
  | Raise TaxError => fallback
  | Raise e => Raise e
  end.

(** ** Decimal and money *)

Definition Decimal : Type := Qc.

(** A decimal literal [n / d], e.g. [dec 2460 100] for [Decimal("24.60")]. *)
Definition dec (n : Z) (d : positive) : Decimal := Q2Qc (n # d).

Definition decimal_eqb (a b : Decimal) : bool := Qc_eq_bool a b.

Definition decimal_ltb (a b : Decimal) : bool :=
  match (a ?= b)%Qc with
  | Lt => true
  | _ => false
  end.

(** The default context of the [decimal] module. *)
Module DecimalContext.

Local Open Scope Q_scope.

(** [getcontext().prec]. *)
Definition prec : Z := 28.

(** [ROUND_HALF_EVEN] to an integer: the nearest one, and the even one of
    the two when [x] lies half way. *)
Definition round_half_even (x : Q) : Z :=
  let f := Qfloor x in
  match (x - inject_Z f ?= 1 # 2)%Q with
  | Lt => f
  | Eq => if Z.even f then f else (f + 1)%Z
  | Gt => (f + 1)%Z
  end.

(** The exponent of the leading digit of [q > 0]: the first [k], counting
    down, with [10 ^ k <= q]. *)
Fixpoint leading_exponent_from (fuel : nat) (k : Z) (q : Q) : Z :=
  match fuel with
  | O => k
  | S fuel' =>
      if Qle_bool (10 ^ k)%Q q then k else leading_exponent_from fuel' (k - 1) q
  end.

Definition leading_exponent (q : Q) : Z :=
  let hi := Z.log2 (Qnum q) in
  let lo := (Z.log2 (Zpos (Qden q)) + 1)%Z in
  leading_exponent_from (S (Z.to_nat (hi + lo))) hi q.

(** The result of an operation whose exact value is [q]: [q] rounded to
    [prec] significant digits. *)
Definition round_to_context (q : Q) : Q :=
  if Qeq_bool q 0 then 0
  else
    let e := (leading_exponent (Qabs q) - (prec - 1))%Z in
    inject_Z (round_half_even (q / 10 ^ e)) * 10 ^ e.

(** Half a unit in the 28th significant digit, relative to the value. *)
Definition epsilon : Q := 5 # (10 ^ 28).

Lemma round_half_even_close : forall x,
  Qabs (inject_Z (round_half_even x) - x) <= 1 # 2.
Proof.
  intros x. unfold round_half_even.
  pose proof (Qfloor_le x) as Hlo. pose proof (Qlt_floor x) as Hhi.
  rewrite inject_Z_plus in Hhi. change (inject_Z 1) with 1 in Hhi.
  apply Qabs_Qle_condition.
  destruct (x - inject_Z (Qfloor x) ?= 1 # 2) eqn:E.
  - apply Qeq_alt in E.
    destruct (Z.even (Qfloor x)).
    + split; lra.
    + rewrite inject_Z_plus. change (inject_Z 1) with 1. split; lra.
  - apply Qlt_alt in E. split; lra.
  - apply Qgt_alt in E. rewrite inject_Z_plus. change (inject_Z 1) with 1. split; lra.
Qed.

Lemma leading_exponent_from_sound : forall fuel k q,
  (exists j, (0 <= j < Z.of_nat fuel)%Z /\ 10 ^ (k - j) <= q) ->
  10 ^ leading_exponent_from fuel k q <= q.
Proof.
  induction fuel as [|fuel IH]; intros k q [j [Hj Hq]].
  - simpl in Hj. lia.
  - simpl. destruct (Qle_bool (10 ^ k) q) eqn:E.
    + apply Qle_bool_iff. exact E.
    + apply IH. exists (j - 1)%Z.
      assert (Hj0 : j <> 0%Z).
      { intros ->. rewrite Z.sub_0_r in Hq. apply Qle_bool_iff in Hq. congruence. }
      split; [lia|].
      replace (k - 1 - (j - 1))%Z with (k - j)%Z by lia. exact Hq.
Qed.

Lemma power_of_ten_above : forall n, (0 < n)%Z -> inject_Z n < 10 ^ (Z.log2 n + 1).
Proof.
  intros n Hn.
  pose proof (Z.log2_nonneg n) as H0.
  rewrite <- (Zpower_Qpower 10 (Z.log2 n + 1)) by lia.
  rewrite <- Zlt_Qlt.
  destruct (Z.log2_spec n Hn) as [_ H2].
  apply Z.lt_le_trans with (1 := H2).
  replace (Z.succ (Z.log2 n)) with (Z.log2 n + 1)%Z by lia.
  apply Z.pow_le_mono_l. lia.
Qed.

Lemma leading_exponent_le : forall q, 0 < q -> 10 ^ leading_exponent q <= q.
Proof.
  intros [n d] Hq. unfold leading_exponent. cbn [Qnum Qden].
  assert (Hn : (0 < n)%Z) by (unfold Qlt in Hq; simpl in Hq; lia).
  pose proof (Z.log2_nonneg n) as Hn0.
  pose proof (Z.log2_nonneg (Z.pos d)) as Hd0.
  apply leading_exponent_from_sound.
  exists (Z.log2 n + (Z.log2 (Z.pos d) + 1))%Z. split; [lia|].
  replace (Z.log2 n - (Z.log2 n + (Z.log2 (Z.pos d) + 1)))%Z
    with (- (Z.log2 (Z.pos d) + 1))%Z by lia.
  rewrite Qpower_opp.
  pose proof (@power_of_ten_above (Z.pos d) eq_refl) as Hd.
  assert (Hp : 0 < inject_Z (Z.pos d)) by reflexivity.
  assert (Hp' : 0 < 10 ^ (Z.log2 (Z.pos d) + 1)) by (apply Qpower_0_lt; reflexivity).
  apply Qle_trans with (/ inject_Z (Z.pos d)).
  - apply Qlt_le_weak. apply -> Qinv_lt_contravar; assumption.
  - rewrite (Qmake_Qdiv n d). unfold Qdiv.
    rewrite <- (Qmult_1_l (/ inject_Z (Z.pos d))) at 1.
    apply Qmult_le_compat_r.
    + change 1 with (inject_Z 1). rewrite <- Zle_Qle. lia.
    + apply Qlt_le_weak. apply Qinv_lt_0_compat. exact Hp.
Qed.

(** Rounding to the context moves a value by at most half a unit in its
    28th significant digit. *)
Lemma round_to_context_close : forall q,
  Qabs (round_to_context q - q) <= Qabs q * epsilon.
Proof.
  intros q. unfold round_to_context.
  destruct (Qeq_bool q 0) eqn:E0.
  - apply Qeq_bool_iff in E0. rewrite E0. vm_compute. discriminate.
  - assert (Hq : ~ q == 0) by (intros H; apply Qeq_bool_iff in H; congruence).
    assert (Habs : 0 < Qabs q).
    { destruct (Qlt_le_dec 0 (Qabs q)) as [H|H]; [exact H|].
      exfalso. apply Hq. apply Qabs_Qle_condition in H. lra. }
    set (k := leading_exponent (Qabs q)).
    pose proof (@leading_exponent_le (Qabs q) Habs) as Hk. fold k in Hk.
    set (e := (k - (prec - 1))%Z).
    assert (He : 0 < 10 ^ e) by (apply Qpower_0_lt; reflexivity).
    set (x := q / 10 ^ e).
    assert (Hx : q == x * 10 ^ e) by (unfold x; field; lra).
    pose proof (round_half_even_close x) as Hr.
    assert (Hd : inject_Z (round_half_even x) * 10 ^ e - q ==
                 (inject_Z (round_half_even x) - x) * 10 ^ e) by (rewrite Hx at 1; ring).
    rewrite Hd, Qabs_Qmult, (Qabs_pos (10 ^ e)) by lra.
    apply Qle_trans with ((1 # 2) * 10 ^ e).
    + apply Qmult_le_compat_r; [exact Hr | lra].
    + assert (Hek : 10 ^ e == 10 ^ k * (1 # 10 ^ 27)).
      { unfold e, prec. rewrite Qpower_minus by discriminate.
        unfold Qdiv. apply Qmult_comp; [reflexivity|]. vm_compute. reflexivity. }
      rewrite Hek. unfold epsilon.
      assert (Hc : (1 # 2) * (10 ^ k * (1 # 10 ^ 27)) == 10 ^ k * (5 # 10 ^ 28)).
      { assert (Hn : (1 # 2) * (1 # 10 ^ 27) == 5 # 10 ^ 28) by (vm_compute; reflexivity).
        rewrite <- Hn. ring. }
      rewrite Hc. apply Qmult_le_compat_r; [exact Hk | discriminate].
Qed.

End DecimalContext.

(** [Decimal.__truediv__] by an [int]: the quotient, rounded to the context. *)
Definition decimal_div_int (a : Decimal) (n : Z) : result Decimal :=
  if (n =? 0)%Z then
    if decimal_eqb a 0%Qc then Raise InvalidOperation else Raise DivisionByZero
  else Ok (Q2Qc (DecimalContext.round_to_context (this a / inject_Z n))).

(** [prices.TaxedMoney]: a net and a gross amount. *)
Record TaxedMoney : Type := mkTaxedMoney {
  net : Decimal;
  gross : Decimal
}.

Definition zero_taxed_money : TaxedMoney := mkTaxedMoney 0%Qc 0%Qc.

Definition taxed_add (a b : TaxedMoney) : TaxedMoney :=
  mkTaxedMoney (net a + net b)%Qc (gross a + gross b)%Qc.

(** [TaxedMoney.__sub__] with a [Money] operand: the amount is taken off both
    components. *)
Definition taxed_sub_money (a : TaxedMoney) (m : Decimal) : TaxedMoney :=
  mkTaxedMoney (net a - m)%Qc (gross a - m)%Qc.

(** [TaxedMoney.__truediv__]: the net component is divided first. *)
Definition taxed_div_int (a : TaxedMoney) (n : Z) : result TaxedMoney :=
  (n' <- decimal_div_int (net a) n ;;
   g' <- decimal_div_int (gross a) n ;;
   Ok (mkTaxedMoney n' g'))%result.

(** [TaxedMoney.__lt__] compares the gross components only. *)
Definition taxed_ltb (a b : TaxedMoney) : bool := decimal_ltb (gross a) (gross b).

(** Python's [max(a, b)]: [b] replaces [a] only when [b > a]. *)
Definition taxed_max (a b : TaxedMoney) : TaxedMoney :=
  if taxed_ltb a b then b else a.

(** Closed goals on decimals and on records of decimals. *)
Ltac qc_closed :=
  cbn;
  solve [repeat first [ reflexivity
                      | apply Qc_is_canon; vm_compute; reflexivity
                      | progress f_equal ]].

(** Evaluate a call and name the instance, lines and state it returns. *)
Ltac returns_value c :=
  let r := eval vm_compute in c in
  lazymatch r with
  | Ok (?o, ?ls, ?w) => exists o, ls, w
  | Ok (?o, ?ls) => exists o, ls
  end.

Ltac returns_some_lines c :=
  let r := eval vm_compute in c in
  lazymatch r with
  | Ok (?o, Some ?ls, ?w) => exists o, ls, w
  end.

Ltac decimals_differ H :=
  apply (f_equal this) in H; vm_compute in H; discriminate H.

(** * Orders: [saleor/order/calculations.py] *)

Module OrderCalculations.

(** ** Data model *)

(** [OrderStatus], with the statuses the repository's sources refer to. *)
Inductive OrderStatus : Type :=
| DRAFT
| UNCONFIRMED
| UNFULFILLED
| FULFILLED
| CANCELED.

Definition OrderStatus_eqb (a b : OrderStatus) : bool :=
  match a, b with
  | DRAFT, DRAFT => true
  | UNCONFIRMED, UNCONFIRMED => true
  | UNFULFILLED, UNFULFILLED => true
  | FULFILLED, FULFILLED => true
  | CANCELED, CANCELED => true
  | _, _ => false
  end.

Inductive DiscountType : Type :=
| MANUAL
| VOUCHER.

Definition DiscountType_eqb (a b : DiscountType) : bool :=
  match a, b with
  | MANUAL, MANUAL => true
  | VOUCHER, VOUCHER => true
  | _, _ => false
  end.

Inductive DiscountValueType : Type :=
| FIXED
| PERCENTAGE.

Inductive TaxCalculationStrategy : Type :=
| FLAT_RATES
| TAX_APP.

Record TaxConfiguration : Type := mkTaxConfiguration {
  prices_entered_with_tax : bool
}.

Record Channel : Type := mkChannel {
  channel_id : Z;
  tax_configuration : TaxConfiguration
}.

Record VoucherChannelListing : Type := mkVoucherChannelListing {
  listing_channel : Z;
  discount_value : Decimal
}.

Record Voucher : Type := mkVoucher {
  voucher_pk : Z;
  voucher_name : string;
  discount_value_type : DiscountValueType;
  channel_listings : list VoucherChannelListing
}.

(** A row of [order.discounts]. *)
Record OrderDiscount : Type := mkOrderDiscount {
  discount_type : DiscountType;
  value_type : DiscountValueType;
  value : Decimal;
  reason : option string;
  discount_voucher : option Z;
  discount_voucher_code : option string
}.

Record ProductVariant : Type := mkProductVariant {
  variant_pk : Z;
  product : Z
}.

Record OrderLine : Type := mkOrderLine {
  pk : Z;
  variant : option ProductVariant;
  quantity : Z;
  unit_price : TaxedMoney;
  undiscounted_unit_price : TaxedMoney;
  total_price : TaxedMoney;
  undiscounted_total_price : TaxedMoney;
  tax_rate : option Decimal;
  unit_discount_amount : Decimal
}.

(** [order.voucher] is [None] exactly when [order.voucher_id] is unset. *)
Record Order : Type := mkOrder {
  id : Z;
  status : OrderStatus;
  should_refresh_prices : bool;
  currency : string;
  channel : Channel;
  tax_exemption : bool;
  voucher : option Voucher;
  voucher_code : option string;
  total : TaxedMoney;
  undiscounted_total : TaxedMoney;
  shipping_price : TaxedMoney;
  base_shipping_price : Decimal;
  shipping_tax_rate : option Decimal
}.

(** Attribute assignments. *)

Definition set_should_refresh_prices (o : Order) (b : bool) : Order :=
  mkOrder (id o) (status o) b (currency o) (channel o) (tax_exemption o)
          (voucher o) (voucher_code o) (total o) (undiscounted_total o)
          (shipping_price o) (base_shipping_price o) (shipping_tax_rate o).

Definition set_total (o : Order) (t : TaxedMoney) : Order :=
  mkOrder (id o) (status o) (should_refresh_prices o) (currency o) (channel o)
          (tax_exemption o) (voucher o) (voucher_code o) t (undiscounted_total o)
          (shipping_price o) (base_shipping_price o) (shipping_tax_rate o).

Definition set_undiscounted_total (o : Order) (t : TaxedMoney) : Order :=
  mkOrder (id o) (status o) (should_refresh_prices o) (currency o) (channel o)
          (tax_exemption o) (voucher o) (voucher_code o) (total o) t
          (shipping_price o) (base_shipping_price o) (shipping_tax_rate o).

Definition set_shipping_price (o : Order) (t : TaxedMoney) : Order :=
  mkOrder (id o) (status o) (should_refresh_prices o) (currency o) (channel o)
          (tax_exemption o) (voucher o) (voucher_code o) (total o)
          (undiscounted_total o) t (base_shipping_price o) (shipping_tax_rate o).

Definition set_shipping_tax_rate (o : Order) (r : option Decimal) : Order :=
  mkOrder (id o) (status o) (should_refresh_prices o) (currency o) (channel o)
          (tax_exemption o) (voucher o) (voucher_code o) (total o)
          (undiscounted_total o) (shipping_price o) (base_shipping_price o) r.

Definition set_unit_price (l : OrderLine) (t : TaxedMoney) : OrderLine :=
  mkOrderLine (pk l) (variant l) (quantity l) t (undiscounted_unit_price l)
              (total_price l) (undiscounted_total_price l) (tax_rate l)
              (unit_discount_amount l).

Definition set_undiscounted_unit_price (l : OrderLine) (t : TaxedMoney) : OrderLine :=
  mkOrderLine (pk l) (variant l) (quantity l) (unit_price l) t
              (total_price l) (undiscounted_total_price l) (tax_rate l)
              (unit_discount_amount l).

Definition set_total_price (l : OrderLine) (t : TaxedMoney) : OrderLine :=
  mkOrderLine (pk l) (variant l) (quantity l) (unit_price l)
              (undiscounted_unit_price l) t (undiscounted_total_price l)
              (tax_rate l) (unit_discount_amount l).

Definition set_undiscounted_total_price (l : OrderLine) (t : TaxedMoney) : OrderLine :=
  mkOrderLine (pk l) (variant l) (quantity l) (unit_price l)
              (undiscounted_unit_price l) (total_price l) t (tax_rate l)
              (unit_discount_amount l).

Definition set_tax_rate (l : OrderLine) (r : option Decimal) : OrderLine :=
  mkOrderLine (pk l) (variant l) (quantity l) (unit_price l)
              (undiscounted_unit_price l) (total_price l)
              (undiscounted_total_price l) r (unit_discount_amount l).

Definition set_unit_discount_amount (l : OrderLine) (d : Decimal) : OrderLine :=
  mkOrderLine (pk l) (variant l) (quantity l) (unit_price l)
              (undiscounted_unit_price l) (total_price l)
              (undiscounted_total_price l) (tax_rate l) d.

(** The amount columns behind the composite price fields. *)

Definition set_net (t : TaxedMoney) (d : Decimal) : TaxedMoney := mkTaxedMoney d (gross t).
Definition set_gross (t : TaxedMoney) (d : Decimal) : TaxedMoney := mkTaxedMoney (net t) d.

Definition total_net_amount (o : Order) : Decimal := net (total o).
Definition total_gross_amount (o : Order) : Decimal := gross (total o).
Definition undiscounted_total_net_amount (o : Order) : Decimal := net (undiscounted_total o).
Definition undiscounted_total_gross_amount (o : Order) : Decimal := gross (undiscounted_total o).
Definition shipping_price_net_amount (o : Order) : Decimal := net (shipping_price o).
Definition shipping_price_gross_amount (o : Order) : Decimal := gross (shipping_price o).

Definition unit_price_net_amount (l : OrderLine) : Decimal := net (unit_price l).
Definition unit_price_gross_amount (l : OrderLine) : Decimal := gross (unit_price l).
Definition undiscounted_unit_price_net_amount (l : OrderLine) : Decimal :=
  net (undiscounted_unit_price l).
Definition undiscounted_unit_price_gross_amount (l : OrderLine) : Decimal :=
  gross (undiscounted_unit_price l).
Definition total_price_net_amount (l : OrderLine) : Decimal := net (total_price l).
Definition total_price_gross_amount (l : OrderLine) : Decimal := gross (total_price l).
Definition undiscounted_total_price_net_amount (l : OrderLine) : Decimal :=
  net (undiscounted_total_price l).
Definition undiscounted_total_price_gross_amount (l : OrderLine) : Decimal :=
  gross (undiscounted_total_price l).

(** ** Tax data and the plugins manager *)

Record TaxLineData : Type := mkTaxLineData {
  tl_tax_rate : Decimal;
  tl_total_gross_amount : Decimal;
  tl_total_net_amount : Decimal
}.

Record TaxData : Type := mkTaxData {
  td_shipping_price_gross_amount : Decimal;
  td_shipping_price_net_amount : Decimal;
  td_shipping_tax_rate : Decimal;
  td_lines : list TaxLineData
}.

Record OrderTaxedPricesData : Type := mkOrderTaxedPricesData {
  undiscounted_price : TaxedMoney;
  price_with_discounts : TaxedMoney
}.

(** The calls [calculations.py] makes on [PluginsManager].  Each call either
    returns or raises; the arguments are the instances as they are at the
    time of the call. *)
Record PluginsManager : Type := mkPluginsManager {
  calculate_order_line_unit :
    Order -> OrderLine -> ProductVariant -> Z -> result OrderTaxedPricesData;
  calculate_order_line_total :
    Order -> OrderLine -> ProductVariant -> Z -> result OrderTaxedPricesData;
  get_order_line_tax_rate :
    Order -> Z -> ProductVariant -> TaxedMoney -> result Decimal;
  calculate_order_shipping : Order -> result TaxedMoney;
  get_order_shipping_tax_rate : Order -> TaxedMoney -> result Decimal;
  calculate_order_total : Order -> list OrderLine -> result TaxedMoney;
  get_taxes_for_order : Order -> result (option TaxData)
}.

(** ** Persistent state *)

(** What the functions read and write besides the instances they are given:
    the order's row, the rows of [order.lines] and of [order.discounts], the
    prefetch cache entry [order._prefetched_objects_cache["discounts"]] and
    the entry of [OrderLinesByOrderIdLoader] for the order. *)
Record World : Type := mkWorld {
  db_order : Order;
  db_lines : list OrderLine;
  db_discounts : list OrderDiscount;
  prefetched_discounts : option (list OrderDiscount);
  lines_loader_entry : option (list OrderLine)
}.

Definition set_db_order (w : World) (o : Order) : World :=
  mkWorld o (db_lines w) (db_discounts w) (prefetched_discounts w) (lines_loader_entry w).

Definition set_db_lines (w : World) (ls : list OrderLine) : World :=
  mkWorld (db_order w) ls (db_discounts w) (prefetched_discounts w) (lines_loader_entry w).

Definition set_discounts (w : World) (ds : list OrderDiscount) : World :=
  mkWorld (db_order w) (db_lines w) ds (Some ds) (lines_loader_entry w).

Definition clear_lines_loader (w : World) : World :=
  mkWorld (db_order w) (db_lines w) (db_discounts w) (prefetched_discounts w) None.

(** Column names accepted by [save(update_fields=...)] and [bulk_update]. *)
Inductive OrderField : Type :=
| F_total_net_amount
| F_total_gross_amount
| F_undiscounted_total_net_amount
| F_undiscounted_total_gross_amount
| F_shipping_price_net_amount
| F_shipping_price_gross_amount
| F_shipping_tax_rate
| F_should_refresh_prices.

Inductive OrderLineField : Type :=
| F_unit_price_net_amount
| F_unit_price_gross_amount
| F_undiscounted_unit_price_net_amount
| F_undiscounted_unit_price_gross_amount
| F_total_price_net_amount
| F_total_price_gross_amount
| F_undiscounted_total_price_net_amount
| F_undiscounted_total_price_gross_amount
| F_tax_rate
| F_unit_discount_amount.

Definition write_order_field (src : Order) (row : Order) (f : OrderField) : Order :=
  match f with
  | F_total_net_amount => set_total row (set_net (total row) (total_net_amount src))
  | F_total_gross_amount => set_total row (set_gross (total row) (total_gross_amount src))
  | F_undiscounted_total_net_amount =>
      set_undiscounted_total row
        (set_net (undiscounted_total row) (undiscounted_total_net_amount src))
  | F_undiscounted_total_gross_amount =>
      set_undiscounted_total row
        (set_gross (undiscounted_total row) (undiscounted_total_gross_amount src))
  | F_shipping_price_net_amount =>
      set_shipping_price row (set_net (shipping_price row) (shipping_price_net_amount src))
  | F_shipping_price_gross_amount =>
      set_shipping_price row (set_gross (shipping_price row) (shipping_price_gross_amount src))
  | F_shipping_tax_rate => set_shipping_tax_rate row (shipping_tax_rate src)
  | F_should_refresh_prices => set_should_refresh_prices row (should_refresh_prices src)
  end.

Definition write_line_field (src : OrderLine) (row : OrderLine) (f : OrderLineField)
    : OrderLine :=
  match f with
  | F_unit_price_net_amount =>
      set_unit_price row (set_net (unit_price row) (unit_price_net_amount src))
  | F_unit_price_gross_amount =>
      set_unit_price row (set_gross (unit_price row) (unit_price_gross_amount src))
  | F_undiscounted_unit_price_net_amount =>
      set_undiscounted_unit_price row
        (set_net (undiscounted_unit_price row) (undiscounted_unit_price_net_amount src))
  | F_undiscounted_unit_price_gross_amount =>
      set_undiscounted_unit_price row
        (set_gross (undiscounted_unit_price row) (undiscounted_unit_price_gross_amount src))
  | F_total_price_net_amount =>
      set_total_price row (set_net (total_price row) (total_price_net_amount src))
  | F_total_price_gross_amount =>
      set_total_price row (set_gross (total_price row) (total_price_gross_amount src))
  | F_undiscounted_total_price_net_amount =>
      set_undiscounted_total_price row
        (set_net (undiscounted_total_price row) (undiscounted_total_price_net_amount src))
  | F_undiscounted_total_price_gross_amount =>
      set_undiscounted_total_price row
        (set_gross (undiscounted_total_price row) (undiscounted_total_price_gross_amount src))
  | F_tax_rate => set_tax_rate row (tax_rate src)
  | F_unit_discount_amount => set_unit_discount_amount row (unit_discount_amount src)
  end.

(** [order.save(update_fields=...)]: the named columns of the order's row take
    the instance's values. *)
Definition save (order : Order) (update_fields : list OrderField) (w : World) : World :=
  set_db_order w (fold_left (write_order_field order) update_fields (db_order w)).

(** [order.lines.bulk_update(lines, fields)]: every row of [order.lines] whose
    primary key is the one of an instance in [lines] takes the named columns
    from the first such instance. *)
Definition bulk_update (lines : list OrderLine) (fields : list OrderLineField) (w : World)
    : World :=
  set_db_lines w
    (map (fun row =>
            match find (fun l => (pk l =? pk row)%Z) lines with
            | Some l => fold_left (write_line_field l) fields row
            | None => row
            end)
         (db_lines w)).

Definition option_string_eqb (a b : option string) : bool :=
  match a, b with
  | None, None => true
  | Some x, Some y => String.eqb x y
  | _, _ => false
  end.

(** Modelled from the spec: [payment.model_helpers.get_subtotal], imported
    by [calculations.py] for [order_subtotal], is defined in another module;
    the subtotal is the sum of the lines' total prices, starting from
    [zero_taxed_money]. *)
Definition get_subtotal (lines : list OrderLine) : TaxedMoney :=
  fold_left (fun acc l => taxed_add acc (total_price l)) lines zero_taxed_money.

(** ** The calculations *)

Section Calculations.

(** Collaborators that [calculations.py] imports from other modules. *)
Variable ORDER_EDITABLE_STATUS : list OrderStatus.
Variable get_tax_calculation_strategy_for_order : Order -> TaxCalculationStrategy.
Variable get_charge_taxes_for_order : Order -> bool.
Variable normalize_tax_rate_for_db : Decimal -> Decimal.
Variable apply_order_discounts :
  Order -> list OrderLine -> World -> result (Order * list OrderLine * World).
Variable update_order_prices_with_flat_rates :
  Order -> list OrderLine -> bool -> result (Order * list OrderLine).

Definition status_in (s : OrderStatus) (l : list OrderStatus) : bool :=
  existsb (OrderStatus_eqb s) l.

(** [_update_order_discount_for_voucher]: create or delete the voucher's
    [OrderDiscount] row, then refresh the prefetched discounts. *)
Definition _update_order_discount_for_voucher (order : Order) (w : World) : World :=
  let rows :=
    match voucher order with
    | None =>
        filter (fun d => negb (DiscountType_eqb (discount_type d) VOUCHER)) (db_discounts w)
    | Some v =>
        if negb (existsb (fun d => option_string_eqb (discount_voucher_code d)
                                                     (voucher_code order))
                         (db_discounts w))
        then
          match find (fun l => (listing_channel l =? channel_id (channel order))%Z)
                     (channel_listings v) with
          | Some voucher_channel_listing =>
              db_discounts w ++
              [mkOrderDiscount VOUCHER (discount_value_type v)
                               (discount_value voucher_channel_listing)
                               (Some ("Voucher: " ++ voucher_name v)%string)
                               (Some (voucher_pk v)) (voucher_code order)]
          | None => db_discounts w
          end
        else db_discounts w
    end in
  set_discounts w rows.

(** Body of the loop of [_apply_tax_data_from_plugins] for one line;
    [undiscounted_subtotal] is the running sum. *)
Definition _apply_tax_data_from_plugins_line
    (manager : PluginsManager) (order : Order) (line : OrderLine)
    (undiscounted_subtotal : TaxedMoney) : result (OrderLine * TaxedMoney) :=
  match variant line with
  | None => Ok (line, undiscounted_subtotal)
  | Some v =>
      let p := product v in
      except_TaxError (calculate_order_line_unit manager order line v p)
        (fun line_unit =>
           let line1 :=
             set_unit_price
               (set_undiscounted_unit_price line (undiscounted_price line_unit))
               (price_with_discounts line_unit) in
           except_TaxError (calculate_order_line_total manager order line1 v p)
             (fun line_total =>
                let line2 :=
                  set_undiscounted_total_price line1 (undiscounted_price line_total) in
                let subtotal2 :=
                  taxed_add undiscounted_subtotal (undiscounted_price line_total) in
                let line3 := set_total_price line2 (price_with_discounts line_total) in
                except_TaxError
                  (get_order_line_tax_rate manager order p v (undiscounted_price line_unit))
                  (fun r => Ok (set_tax_rate line3 (Some r), subtotal2))
                  (Ok (line3, subtotal2)))
             (Ok (line1, undiscounted_subtotal)))
        (Ok (line, undiscounted_subtotal))
  end.

Fixpoint _apply_tax_data_from_plugins_lines
    (manager : PluginsManager) (order : Order) (lines : list OrderLine)
    (undiscounted_subtotal : TaxedMoney) : result (list OrderLine * TaxedMoney) :=
  match lines with
  | [] => Ok ([], undiscounted_subtotal)
  | line :: rest =>
      ('(line', s1) <-
         _apply_tax_data_from_plugins_line manager order line undiscounted_subtotal ;;
       '(rest', s2) <- _apply_tax_data_from_plugins_lines manager order rest s1 ;;
       Ok (line' :: rest', s2))%result
  end.

(** The shipping block of [_apply_tax_data_from_plugins]. *)
Definition _apply_tax_data_from_plugins_shipping
    (manager : PluginsManager) (order : Order) : result Order :=
  except_TaxError (calculate_order_shipping manager order)
    (fun sp =>
       let order1 := set_shipping_price order sp in
       except_TaxError (get_order_shipping_tax_rate manager order1 (shipping_price order1))
         (fun r => Ok (set_shipping_tax_rate order1 (Some r)))
         (Ok order1))
    (Ok order).

Definition _apply_tax_data_from_plugins
    (manager : PluginsManager) (order : Order) (lines : list OrderLine)
    : result (Order * list OrderLine) :=
  ('(lines1, undiscounted_subtotal) <-
     _apply_tax_data_from_plugins_lines manager order lines zero_taxed_money ;;
   order1 <- _apply_tax_data_from_plugins_shipping manager order ;;
   let order2 :=
     set_undiscounted_total order1
       (taxed_add undiscounted_subtotal
                  (mkTaxedMoney (base_shipping_price order1) (base_shipping_price order1))) in
   t <- calculate_order_total manager order2 lines1 ;;
   Ok (set_total order2 t, lines1))%result.

(** The loop of [_apply_tax_data] over [zip(lines, tax_data.lines)]: lines
    beyond the shorter of the two lists are left as they are. *)
Fixpoint _apply_tax_data_lines
    (lines : list OrderLine) (tax_lines : list TaxLineData) (subtotal : TaxedMoney)
    : result (list OrderLine * TaxedMoney) :=
  match lines, tax_lines with
  | order_line :: lines', tax_line :: tax_lines' =>
      let line_total_price :=
        mkTaxedMoney (tl_total_net_amount tax_line) (tl_total_gross_amount tax_line) in
      let l1 := set_total_price order_line line_total_price in
      (u <- taxed_div_int line_total_price (quantity l1) ;;
       let l2 := set_unit_price l1 u in
       let l3 := set_tax_rate l2 (Some (normalize_tax_rate_for_db (tl_tax_rate tax_line))) in
       '(rest, s) <- _apply_tax_data_lines lines' tax_lines'
                                           (taxed_add subtotal line_total_price) ;;
       Ok (l3 :: rest, s))%result
  | _, _ => Ok (lines, subtotal)
  end.

Definition _apply_tax_data
    (order : Order) (lines : list OrderLine) (tax_data : option TaxData)
    : result (Order * list OrderLine) :=
  match tax_data with
  | None => Ok (order, lines)
  | Some td =>
      let shipping :=
        mkTaxedMoney (td_shipping_price_net_amount td) (td_shipping_price_gross_amount td) in
      let order1 := set_shipping_price order shipping in
      let order2 :=
        set_shipping_tax_rate order1
          (Some (normalize_tax_rate_for_db (td_shipping_tax_rate td))) in
      ('(lines1, subtotal) <- _apply_tax_data_lines lines (td_lines td) zero_taxed_money ;;
       Ok (set_total order2 (taxed_add shipping subtotal), lines1))%result
  end.

Definition _remove_tax_line (line : OrderLine) : OrderLine :=
  let total_price_net := total_price_net_amount line in
  let unit_price_net := unit_price_net_amount line in
  let undiscounted_unit_price_net := undiscounted_unit_price_net_amount line in
  let undiscounted_total_price_net := undiscounted_total_price_net_amount line in
  let l1 := set_unit_price line (set_gross (unit_price line) unit_price_net) in
  let l2 :=
    set_undiscounted_unit_price l1
      (set_gross (undiscounted_unit_price l1) undiscounted_unit_price_net) in
  let l3 := set_total_price l2 (set_gross (total_price l2) total_price_net) in
  let l4 :=
    set_undiscounted_total_price l3
      (set_gross (undiscounted_total_price l3) undiscounted_total_price_net) in
  set_tax_rate l4 (Some 0%Qc).

Definition _remove_tax (order : Order) (lines : list OrderLine)
    : Order * list OrderLine :=
  let o1 := set_total order (set_gross (total order) (total_net_amount order)) in
  let o2 :=
    set_undiscounted_total o1
      (set_gross (undiscounted_total o1) (undiscounted_total_net_amount o1)) in
  let o3 :=
    set_shipping_price o2 (set_gross (shipping_price o2) (shipping_price_net_amount o2)) in
  let o4 := set_shipping_tax_rate o3 (Some 0%Qc) in
  (o4, map _remove_tax_line lines).

Definition _calculate_and_add_tax
    (tax_calculation_strategy : TaxCalculationStrategy) (order : Order)
    (lines : list OrderLine) (manager : PluginsManager) (prices_entered_with_tax : bool)
    : result (Order * list OrderLine) :=
  match tax_calculation_strategy with
  | TAX_APP =>
      ('(order1, lines1) <- _apply_tax_data_from_plugins manager order lines ;;
       tax_data <- get_taxes_for_order manager order1 ;;
       _apply_tax_data order1 lines1 tax_data)%result
  | FLAT_RATES => update_order_prices_with_flat_rates order lines prices_entered_with_tax
  end.

Definition _calculate_taxes
    (order : Order) (manager : PluginsManager) (lines : list OrderLine)
    : result (Order * list OrderLine) :=
  let tax_calculation_strategy := get_tax_calculation_strategy_for_order order in
  let entered_with_tax := prices_entered_with_tax (tax_configuration (channel order)) in
  let charge_taxes := get_charge_taxes_for_order order in
  let should_charge_tax := charge_taxes && negb (tax_exemption order) in
  if entered_with_tax then
    ('(order1, lines1) <-
       _calculate_and_add_tax tax_calculation_strategy order lines manager entered_with_tax ;;
     if negb should_charge_tax then Ok (_remove_tax order1 lines1)
     else Ok (order1, lines1))%result
  else if should_charge_tax then
    _calculate_and_add_tax tax_calculation_strategy order lines manager entered_with_tax
  else Ok (order, lines).

Definition order_update_fields : list OrderField :=
  [F_total_net_amount; F_total_gross_amount;
   F_undiscounted_total_net_amount; F_undiscounted_total_gross_amount;
   F_shipping_price_net_amount; F_shipping_price_gross_amount;
   F_shipping_tax_rate; F_should_refresh_prices].

Definition line_update_fields : list OrderLineField :=
  [F_unit_price_net_amount; F_unit_price_gross_amount;
   F_undiscounted_unit_price_net_amount; F_undiscounted_unit_price_gross_amount;
   F_total_price_net_amount; F_total_price_gross_amount;
   F_undiscounted_total_price_net_amount; F_undiscounted_total_price_gross_amount;
   F_tax_rate; F_unit_discount_amount].

(** [fetch_order_prices_and_update_if_expired].  [info] only matters through
    being given or not. *)
Definition fetch_order_prices_and_update_if_expired
    (order : Order) (manager : PluginsManager) (lines : option (list OrderLine))
    (force_update : bool) (info : bool) (w : World)
    : result (Order * option (list OrderLine) * World) :=
  if negb (status_in (status order) ORDER_EDITABLE_STATUS) then Ok (order, lines, w)
  else if negb force_update && negb (should_refresh_prices order) then Ok (order, lines, w)
  else
    let lines0 :=
      match lines with
      | None => db_lines w
      | Some ls => ls
      end in
    let order0 := set_should_refresh_prices order false in
    let w1 := _update_order_discount_for_voucher order0 w in
    ('(order1, lines1, w2) <- apply_order_discounts order0 lines0 w1 ;;
     '(order2, lines2) <- _calculate_taxes order1 manager lines1 ;;
     let w3 := save order2 order_update_fields w2 in
     let w4 := bulk_update lines2 line_update_fields w3 in
     let w5 := if info then clear_lines_loader w4 else w4 in
     Ok (order2, Some lines2, w5))%result.

(** ** Properties of the voucher discount resolution *)

Definition records_for_code (code : option string) (ds : list OrderDiscount)
    : list OrderDiscount :=
  filter (fun d => option_string_eqb (discount_voucher_code d) code) ds.

Definition voucher_records (ds : list OrderDiscount) : list OrderDiscount :=
  filter (fun d => DiscountType_eqb (discount_type d) VOUCHER) ds.

Definition listing_for (order : Order) (v : Voucher) : option VoucherChannelListing :=
  find (fun l => (listing_channel l =? channel_id (channel order))%Z) (channel_listings v).

(** The row [_update_order_discount_for_voucher] creates. *)
Definition created_discount (order : Order) (v : Voucher) (l : VoucherChannelListing)
    : OrderDiscount :=
  mkOrderDiscount VOUCHER (discount_value_type v) (discount_value l)
                  (Some ("Voucher: " ++ voucher_name v)%string)
                  (Some (voucher_pk v)) (voucher_code order).

Lemma option_string_eqb_refl : forall c, option_string_eqb c c = true.
Proof.
  intros [s|]; simpl; [apply String.eqb_refl | reflexivity].
Qed.

Lemma existsb_records_for_code : forall code ds,
  existsb (fun d => option_string_eqb (discount_voucher_code d) code) ds = false <->
  records_for_code code ds = [].
Proof.
  intros code ds; unfold records_for_code.
  induction ds as [|d ds IH]; simpl.
  - split; reflexivity.
  - destruct (option_string_eqb (discount_voucher_code d) code); simpl.
    + split; discriminate.
    + exact IH.
Qed.

Lemma find_none_no_listing : forall order v,
  (forall l, In l (channel_listings v) -> listing_channel l <> channel_id (channel order)) ->
  listing_for order v = None.
Proof.
  intros order v H; unfold listing_for.
  induction (channel_listings v) as [|l ls IH]; simpl; [reflexivity|].
  destruct (Z.eqb_spec (listing_channel l) (channel_id (channel order))) as [E|_].
  - exfalso; apply (H l); [left; reflexivity | exact E].
  - apply IH; intros l' Hin; apply H; right; exact Hin.
Qed.

Lemma filter_idempotent : forall (A : Type) (f : A -> bool) (l : list A),
  filter f (filter f l) = filter f l.
Proof.
  intros A f l; induction l as [|a l IH]; simpl; [reflexivity|].
  destruct (f a) eqn:E; simpl; [rewrite E, IH | rewrite IH]; reflexivity.
Qed.

Lemma update_voucher_rows_created : forall order w v l,
  voucher order = Some v ->
  records_for_code (voucher_code order) (db_discounts w) = [] ->
  listing_for order v = Some l ->
  db_discounts (_update_order_discount_for_voucher order w) =
  db_discounts w ++ [created_discount order v l].
Proof.
  intros order w v l Hv Hnone Hl.
  apply existsb_records_for_code in Hnone.
  unfold _update_order_discount_for_voucher, listing_for in *.
  rewrite Hv, Hnone; simpl. rewrite Hl. reflexivity.
Qed.

Lemma update_voucher_rows_kept_when_present : forall order w v,
  voucher order = Some v ->
  records_for_code (voucher_code order) (db_discounts w) <> [] ->
  db_discounts (_update_order_discount_for_voucher order w) = db_discounts w.
Proof.
  intros order w v Hv Hsome.
  unfold _update_order_discount_for_voucher. rewrite Hv.
  destruct (existsb _ (db_discounts w)) eqn:E; simpl; [reflexivity|].
  apply existsb_records_for_code in E. contradiction.
Qed.

Lemma update_voucher_idempotent : forall order w,
  _update_order_discount_for_voucher order (_update_order_discount_for_voucher order w) =
  _update_order_discount_for_voucher order w.
Proof.
  intros order w. unfold _update_order_discount_for_voucher.
  destruct (voucher order) as [v|]; simpl.
  - destruct (existsb _ (db_discounts w)) eqn:E; simpl.
    + rewrite E; reflexivity.
    + destruct (find _ (channel_listings v)) as [l|] eqn:F; simpl.
      * rewrite existsb_app; simpl.
        rewrite option_string_eqb_refl, orb_true_r; reflexivity.
      * rewrite E; simpl. reflexivity.
  - rewrite filter_idempotent; reflexivity.
Qed.

(** C8: when the order references a voucher none of whose channel listings is
    for the order's channel, [_update_order_discount_for_voucher] returns (it
    cannot raise) and leaves the rows of [order.discounts] as they were: no
    discount record is created. *)
Theorem voucher_without_channel_listing_creates_nothing :
  forall order w v,
    voucher order = Some v ->
    (forall l, In l (channel_listings v) ->
               listing_channel l <> channel_id (channel order)) ->
    db_discounts (_update_order_discount_for_voucher order w) = db_discounts w.
Proof.
  intros order w v Hv Hno.
  pose proof (find_none_no_listing order v Hno) as Hfind.
  unfold _update_order_discount_for_voucher, listing_for in *.
  rewrite Hv, Hfind.
  destruct (negb _); reflexivity.
Qed.

(** C2 (amended): [_update_order_discount_for_voucher] is idempotent, so a
    second run with the same voucher code adds nothing and at most one record
    carries that code when none did before; when the order's voucher code is
    new and the voucher has a listing for the order's channel, exactly one
    record for the new code is appended and every existing record, the one of
    the old code included, is kept; voucher-type records are deleted only
    when the order has no voucher. *)
Theorem voucher_resolution_idempotent_and_additive :
  forall order w,
    _update_order_discount_for_voucher order (_update_order_discount_for_voucher order w) =
    _update_order_discount_for_voucher order w
    /\ (records_for_code (voucher_code order) (db_discounts w) = [] ->
        (List.length (records_for_code (voucher_code order)
                   (db_discounts
                      (_update_order_discount_for_voucher order
                         (_update_order_discount_for_voucher order w)))) <= 1)%nat)
    /\ (forall v l,
          voucher order = Some v ->
          records_for_code (voucher_code order) (db_discounts w) = [] ->
          listing_for order v = Some l ->
          db_discounts (_update_order_discount_for_voucher order w) =
          db_discounts w ++ [created_discount order v l])
    /\ (voucher order = None ->
        db_discounts (_update_order_discount_for_voucher order w) =
        filter (fun d => negb (DiscountType_eqb (discount_type d) VOUCHER)) (db_discounts w)).
Proof.
  intros order w. split; [apply update_voucher_idempotent|].
  split; [|split].
  - intros Hnone. rewrite update_voucher_idempotent.
    pose proof Hnone as Hex. apply existsb_records_for_code in Hex.
    unfold _update_order_discount_for_voucher.
    destruct (voucher order) as [v|]; simpl.
    + rewrite Hex; simpl.
      destruct (find _ (channel_listings v)) as [l|]; simpl.
      * unfold records_for_code in *. rewrite filter_app, Hnone; simpl.
        rewrite option_string_eqb_refl; simpl. lia.
      * rewrite Hnone; simpl; lia.
    + unfold records_for_code in *.
      assert (E : forall ds,
                 filter (fun d => option_string_eqb (discount_voucher_code d)
                                                    (voucher_code order)) ds = [] ->
                 filter (fun d => option_string_eqb (discount_voucher_code d)
                                                    (voucher_code order))
                        (filter (fun d => negb (DiscountType_eqb (discount_type d) VOUCHER))
                                ds) = []).
      { induction ds as [|d ds IH]; simpl; [reflexivity|].
        destruct (option_string_eqb (discount_voucher_code d) (voucher_code order)) eqn:Ed;
          [discriminate|].
        intros H. destruct (negb _); simpl; [rewrite Ed|]; apply IH; exact H. }
      rewrite (E _ Hnone); simpl; lia.
  - intros v l Hv Hnone Hl. apply update_voucher_rows_created; assumption.
  - intros Hv. unfold _update_order_discount_for_voucher. rewrite Hv. reflexivity.
Qed.

(** ** Frame properties of the tax calculation *)

Lemma plugins_line_keeps_identity : forall manager order line s line' s',
  _apply_tax_data_from_plugins_line manager order line s = Ok (line', s') ->
  pk line' = pk line /\ quantity line' = quantity line /\ variant line' = variant line.
Proof.
  intros manager order line s line' s'.
  unfold _apply_tax_data_from_plugins_line, except_TaxError.
  destruct (variant line) as [v|] eqn:Ev.
  - destruct (calculate_order_line_unit manager order line v (product v)) as [u|[]];
      try discriminate.
    + destruct (calculate_order_line_total _ _ _ _ _) as [t|[]]; try discriminate.
      * destruct (get_order_line_tax_rate _ _ _ _ _) as [r|[]]; try discriminate;
          intros H; inversion H; subst; simpl; auto.
      * intros H; inversion H; subst; simpl; auto.
    + intros H; inversion H; subst; auto.
  - intros H; inversion H; subst; auto.
Qed.

Lemma plugins_shipping_keeps_flag : forall manager order order',
  _apply_tax_data_from_plugins_shipping manager order = Ok order' ->
  should_refresh_prices order' = should_refresh_prices order /\
  status order' = status order.
Proof.
  intros manager order order'.
  unfold _apply_tax_data_from_plugins_shipping, except_TaxError.
  destruct (calculate_order_shipping manager order) as [sp|[]]; try discriminate.
  - destruct (get_order_shipping_tax_rate _ _ _) as [r|[]]; try discriminate;
      intros H; inversion H; subst; simpl; auto.
  - intros H; inversion H; subst; auto.
Qed.

Lemma plugins_keep_flag : forall manager order lines order' lines',
  _apply_tax_data_from_plugins manager order lines = Ok (order', lines') ->
  should_refresh_prices order' = should_refresh_prices order /\
  status order' = status order.
Proof.
  intros manager order lines order' lines'.
  unfold _apply_tax_data_from_plugins, bind.
  destruct (_apply_tax_data_from_plugins_lines _ _ _ _) as [[ls s]|]; [|discriminate].
  destruct (_apply_tax_data_from_plugins_shipping manager order) as [o1|] eqn:Es;
    [|discriminate].
  destruct (calculate_order_total _ _ _) as [t|]; [|discriminate].
  intros H; inversion H; subst; simpl.
  exact (plugins_shipping_keeps_flag _ _ Es).
Qed.

Lemma apply_tax_data_keeps_flag : forall order lines tax_data order' lines',
  _apply_tax_data order lines tax_data = Ok (order', lines') ->
  should_refresh_prices order' = should_refresh_prices order /\
  status order' = status order.
Proof.
  intros order lines [td|] order' lines'; unfold _apply_tax_data, bind.
  - destruct (_apply_tax_data_lines _ _ _) as [[ls s]|]; [|discriminate].
    intros H; inversion H; subst; simpl; auto.
  - intros H; inversion H; subst; auto.
Qed.

Lemma remove_tax_keeps_flag : forall order lines,
  should_refresh_prices (fst (_remove_tax order lines)) = should_refresh_prices order /\
  status (fst (_remove_tax order lines)) = status order.
Proof.
  intros; simpl; auto.
Qed.

(** What the properties below assume of the two collaborators that work on
    the order instance: they leave [should_refresh_prices] alone. *)
Definition discounts_keep_refresh_flag : Prop :=
  forall o ls w o' ls' w',
    apply_order_discounts o ls w = Ok (o', ls', w') ->
    should_refresh_prices o' = should_refresh_prices o.

Definition flat_rates_keep_refresh_flag : Prop :=
  forall o ls b o' ls',
    update_order_prices_with_flat_rates o ls b = Ok (o', ls') ->
    should_refresh_prices o' = should_refresh_prices o.

Lemma calculate_and_add_tax_keeps_flag : forall strategy order lines manager b order' lines',
  flat_rates_keep_refresh_flag ->
  _calculate_and_add_tax strategy order lines manager b = Ok (order', lines') ->
  should_refresh_prices order' = should_refresh_prices order.
Proof.
  intros strategy order lines manager b order' lines' Hflat.
  destruct strategy; simpl.
  - apply Hflat.
  - unfold bind.
    destruct (_apply_tax_data_from_plugins manager order lines) as [[o1 l1]|] eqn:E1;
      [|discriminate].
    destruct (get_taxes_for_order manager o1) as [td|]; [|discriminate].
    intros E2.
    apply plugins_keep_flag in E1. apply apply_tax_data_keeps_flag in E2.
    destruct E1 as [E1 _], E2 as [E2 _]. congruence.
Qed.

Lemma calculate_taxes_keeps_flag : forall order manager lines order' lines',
  flat_rates_keep_refresh_flag ->
  _calculate_taxes order manager lines = Ok (order', lines') ->
  should_refresh_prices order' = should_refresh_prices order.
Proof.
  intros order manager lines order' lines' Hflat.
  unfold _calculate_taxes, bind.
  destruct (prices_entered_with_tax _).
  - destruct (_calculate_and_add_tax _ _ _ _ _) as [[o1 l1]|] eqn:E; [|discriminate].
    apply calculate_and_add_tax_keeps_flag in E; [|exact Hflat].
    destruct (negb _); intros H; inversion H; subst; simpl; exact E.
  - destruct (_ && _).
    + apply calculate_and_add_tax_keeps_flag; exact Hflat.
    + intros H; inversion H; subst; reflexivity.
Qed.

Lemma status_in_spec : forall s l, status_in s l = true <-> In s l.
Proof.
  intros s l; unfold status_in. rewrite existsb_exists. split.
  - intros [x [Hin Heq]]. destruct s, x; try discriminate; exact Hin.
  - intros Hin. exists s. split; [exact Hin | destruct s; reflexivity].
Qed.

(** ** Properties of the gate *)

(** C6: for an order whose status is not in [ORDER_EDITABLE_STATUS],
    [fetch_order_prices_and_update_if_expired] returns the given order and
    lines as they are and leaves every row and cache untouched, whatever
    [should_refresh_prices] and [force_update] are. *)
Theorem fetch_noneditable_order_is_noop :
  forall order manager lines force_update info w,
    ~ In (status order) ORDER_EDITABLE_STATUS ->
    fetch_order_prices_and_update_if_expired order manager lines force_update info w =
    Ok (order, lines, w).
Proof.
  intros order manager lines force_update info w Hnot.
  unfold fetch_order_prices_and_update_if_expired.
  destruct (status_in (status order) ORDER_EDITABLE_STATUS) eqn:E; simpl.
  - apply status_in_spec in E. contradiction.
  - reflexivity.
Qed.

(** C7: when a recalculation of an editable order completes, the returned
    order has [should_refresh_prices = False] and so has the order's row
    (the column is among the saved ones); a following call with
    [force_update=False], on the returned instance or on the row read back,
    returns order, lines and state as they are. *)
Theorem recalculation_clears_refresh_flag :
  forall order manager lines force_update info w order' lines' w',
    discounts_keep_refresh_flag ->
    flat_rates_keep_refresh_flag ->
    In (status order) ORDER_EDITABLE_STATUS ->
    force_update = true \/ should_refresh_prices order = true ->
    fetch_order_prices_and_update_if_expired order manager lines force_update info w =
    Ok (order', lines', w') ->
    should_refresh_prices order' = false
    /\ In F_should_refresh_prices order_update_fields
    /\ should_refresh_prices (db_order w') = false
    /\ (forall manager2 info2,
          fetch_order_prices_and_update_if_expired order' manager2 lines' false info2 w' =
          Ok (order', lines', w'))
    /\ (forall manager2 lines2 info2,
          fetch_order_prices_and_update_if_expired (db_order w') manager2 lines2 false info2 w' =
          Ok (db_order w', lines2, w')).
Proof.
  intros order manager lines force_update info w order' lines' w' Hdisc Hflat Hed Hstale.
  unfold fetch_order_prices_and_update_if_expired at 1.
  apply status_in_spec in Hed. rewrite Hed; simpl.
  assert (Hgate : negb force_update && negb (should_refresh_prices order) = false).
  { destruct Hstale as [-> | ->]; [reflexivity | apply andb_false_r]. }
  rewrite Hgate. unfold bind.
  destruct (apply_order_discounts _ _ _) as [[[o1 l1] w2]|] eqn:Ed; [|discriminate].
  destruct (_calculate_taxes o1 manager l1) as [[o2 l2]|] eqn:Et; [|discriminate].
  intros H; inversion H; subst; clear H.
  apply Hdisc in Ed. simpl in Ed.
  apply calculate_taxes_keeps_flag in Et; [|exact Hflat].
  assert (Hflag : should_refresh_prices order' = false) by congruence.
  assert (Hrow : should_refresh_prices
                   (db_order (if info
                              then clear_lines_loader
                                     (bulk_update l2 line_update_fields
                                        (save order' order_update_fields w2))
                              else bulk_update l2 line_update_fields
                                     (save order' order_update_fields w2))) = false).
  { destruct info; simpl; exact Hflag. }
  split; [exact Hflag|].
  split; [simpl; tauto|].
  split; [exact Hrow|].
  split.
  - intros manager2 info2. unfold fetch_order_prices_and_update_if_expired.
    rewrite Hflag; simpl.
    match goal with |- (if ?c then _ else _) = _ => destruct c end; reflexivity.
  - intros manager2 lines2 info2. unfold fetch_order_prices_and_update_if_expired.
    rewrite Hrow; simpl.
    match goal with |- (if ?c then _ else _) = _ => destruct c end; reflexivity.
Qed.

(** ** Tax removal *)

Definition line_tax_free (l : OrderLine) : Prop :=
  unit_price_gross_amount l = unit_price_net_amount l
  /\ total_price_gross_amount l = total_price_net_amount l
  /\ undiscounted_unit_price_gross_amount l = undiscounted_unit_price_net_amount l
  /\ undiscounted_total_price_gross_amount l = undiscounted_total_price_net_amount l
  /\ tax_rate l = Some 0%Qc.

Definition order_tax_free (o : Order) : Prop :=
  total_gross_amount o = total_net_amount o
  /\ undiscounted_total_gross_amount o = undiscounted_total_net_amount o
  /\ shipping_price_gross_amount o = shipping_price_net_amount o
  /\ shipping_tax_rate o = Some 0%Qc.

Lemma remove_tax_strips : forall order lines,
  order_tax_free (fst (_remove_tax order lines))
  /\ Forall line_tax_free (snd (_remove_tax order lines)).
Proof.
  intros order lines. split.
  - unfold order_tax_free; simpl. repeat split; reflexivity.
  - simpl. apply Forall_forall. intros l Hin.
    apply in_map_iff in Hin. destruct Hin as [l0 [<- _]].
    unfold line_tax_free; simpl. repeat split; reflexivity.
Qed.

(** C5: when the channel's prices are entered with tax and taxes are not
    chargeable ([charge_taxes] disabled or the order tax-exempt), the order
    and lines [_calculate_taxes] returns have every gross amount (unit,
    total, undiscounted unit, undiscounted total; order total, undiscounted
    total and shipping) equal to the net amount, and every line's tax rate
    and the shipping tax rate equal to 0. *)
Theorem calculate_taxes_strips_tax_when_not_chargeable :
  forall order manager lines order' lines',
    prices_entered_with_tax (tax_configuration (channel order)) = true ->
    get_charge_taxes_for_order order = false \/ tax_exemption order = true ->
    _calculate_taxes order manager lines = Ok (order', lines') ->
    order_tax_free order' /\ Forall line_tax_free lines'.
Proof.
  intros order manager lines order' lines' Hentered Hnocharge.
  unfold _calculate_taxes, bind. rewrite Hentered.
  assert (Hc : get_charge_taxes_for_order order && negb (tax_exemption order) = false).
  { destruct Hnocharge as [-> | ->]; [reflexivity | apply andb_false_r]. }
  rewrite Hc; simpl.
  destruct (_calculate_and_add_tax _ _ _ _ _) as [[o1 l1]|]; [|discriminate].
  intros H; inversion H; subst; clear H.
  apply (remove_tax_strips o1 l1).
Qed.

(** ** Applying the tax data of a tax app *)

Lemma decimal_div_int_ok : forall a n,
  n <> 0%Z ->
  decimal_div_int a n =
  Ok (Q2Qc (DecimalContext.round_to_context (this a / inject_Z n))).
Proof.
  intros a n Hn. unfold decimal_div_int.
  destruct (Z.eqb_spec n 0); [contradiction | reflexivity].
Qed.

Lemma taxed_div_int_ok : forall t n,
  n <> 0%Z ->
  taxed_div_int t n =
  Ok (mkTaxedMoney (Q2Qc (DecimalContext.round_to_context (this (net t) / inject_Z n)))
                   (Q2Qc (DecimalContext.round_to_context (this (gross t) / inject_Z n)))).
Proof.
  intros t n Hn. unfold taxed_div_int, bind.
  rewrite !decimal_div_int_ok by exact Hn. reflexivity.
Qed.

(** A quotient [unit] of [total] by [n] that is off by the rounding of the
    division only: [unit * n] and [total] differ by at most half a unit in
    the 28th significant digit of [total]. *)
Definition within_context_rounding (unit total : Decimal) (n : Z) : Prop :=
  (Qabs (this unit * inject_Z n - this total) <= Qabs (this total) * (5 # 10 ^ 28))%Q.

Lemma decimal_div_int_close : forall a n u,
  decimal_div_int a n = Ok u -> within_context_rounding u a n.
Proof.
  intros a n u. unfold decimal_div_int, within_context_rounding.
  destruct (Z.eqb_spec n 0) as [->|Hn].
  - destruct (decimal_eqb a 0%Qc); discriminate.
  - intros H; inversion H; subst; clear H.
    set (q := (this a / inject_Z n)%Q).
    assert (Hz : ~ (inject_Z n == 0)%Q).
    { unfold Qeq, inject_Z; simpl. lia. }
    assert (Ha : (this a == q * inject_Z n)%Q) by (unfold q; field; exact Hz).
    pose proof (DecimalContext.round_to_context_close q) as Hc.
    change (this (Q2Qc (DecimalContext.round_to_context q)))
      with (Qred (DecimalContext.round_to_context q)).
    rewrite Qred_correct.
    assert (Hd : (DecimalContext.round_to_context q * inject_Z n - this a ==
                  (DecimalContext.round_to_context q - q) * inject_Z n)%Q)
      by (rewrite Ha at 1; ring).
    rewrite Hd, Qabs_Qmult.
    assert (Hab : (Qabs (this a) == Qabs q * Qabs (inject_Z n))%Q)
      by (rewrite <- Qabs_Qmult, <- Ha; reflexivity).
    rewrite Hab.
    assert (Hnn : (0 <= Qabs (inject_Z n))%Q) by apply Qabs_nonneg.
    apply Qle_trans
      with ((Qabs q * DecimalContext.epsilon) * Qabs (inject_Z n))%Q.
    + apply Qmult_le_compat_r; [exact Hc | exact Hnn].
    + unfold DecimalContext.epsilon. apply Qle_lteq. right. ring.
Qed.

(** For amounts up to [2 * 10 ^ 25] that is less than a hundredth. *)
Lemma context_rounding_below_a_hundredth : forall u t n,
  within_context_rounding u t n ->
  (Qabs (this t) <= inject_Z (2 * 10 ^ 25))%Q ->
  (Qabs (this u * inject_Z n - this t) <= 1 # 100)%Q.
Proof.
  intros u t n H Ht. unfold within_context_rounding in H.
  apply Qle_trans with (1 := H).
  apply Qle_trans with (inject_Z (2 * 10 ^ 25) * (5 # 10 ^ 28))%Q.
  - apply Qmult_le_compat_r; [exact Ht | discriminate].
  - vm_compute. discriminate.
Qed.

Lemma taxed_div_int_close : forall t n u,
  taxed_div_int t n = Ok u ->
  within_context_rounding (net u) (net t) n
  /\ within_context_rounding (gross u) (gross t) n.
Proof.
  intros [a b] n u. unfold taxed_div_int, bind; simpl.
  destruct (decimal_div_int a n) as [a'|] eqn:Ea; [|discriminate].
  destruct (decimal_div_int b n) as [b'|] eqn:Eb; [|discriminate].
  intros H; inversion H; subst; clear H. simpl.
  split; apply decimal_div_int_close; assumption.
Qed.

(** What [_apply_tax_data] does to a line paired with the tax line [t]: the
    total is the tax line's, the unit price is the total divided by the
    quantity, so that unit price times quantity is the total up to the
    rounding of that one division. *)
Definition line_priced_from (t : TaxLineData) (before after : OrderLine) : Prop :=
  pk after = pk before
  /\ quantity after = quantity before
  /\ total_price after = mkTaxedMoney (tl_total_net_amount t) (tl_total_gross_amount t)
  /\ taxed_div_int (total_price after) (quantity after) = Ok (unit_price after)
  /\ within_context_rounding (net (unit_price after)) (net (total_price after))
                             (quantity after)
  /\ within_context_rounding (gross (unit_price after)) (gross (total_price after))
                             (quantity after)
  /\ tax_rate after = Some (normalize_tax_rate_for_db (tl_tax_rate t)).

Lemma apply_tax_data_lines_paired : forall lines tax_lines s lines' s',
  _apply_tax_data_lines lines tax_lines s = Ok (lines', s') ->
  List.length lines' = List.length lines
  /\ forall i l' t,
       nth_error lines' i = Some l' ->
       nth_error tax_lines i = Some t ->
       exists l, nth_error lines i = Some l /\ line_priced_from t l l'.
Proof.
  induction lines as [|l lines IH]; intros tax_lines s lines' s' H.
  - simpl in H. inversion H; subst. split; [reflexivity|].
    intros [|i] l' t Hl; discriminate.
  - destruct tax_lines as [|t0 tax_lines].
    + simpl in H. inversion H; subst. split; [reflexivity|].
      intros [|i] l' t _ Ht; discriminate.
    + simpl in H. unfold bind in H.
      destruct (taxed_div_int _ (quantity l)) as [u|] eqn:Eu; [|discriminate].
      destruct (_apply_tax_data_lines lines tax_lines _) as [[rest s2]|] eqn:Er;
        [|discriminate].
      inversion H; subst; clear H.
      destruct (IH _ _ _ _ Er) as [Hlen Hnth].
      split; [simpl; rewrite Hlen; reflexivity|].
      intros [|i] l' t Hl Ht; simpl in *.
      * inversion Hl; inversion Ht; subst; clear Hl Ht.
        exists l. split; [reflexivity|].
        unfold line_priced_from; simpl.
        destruct (taxed_div_int_close _ _ Eu) as [Hnet Hgross].
        repeat split; try reflexivity; try exact Eu; assumption.
      * apply (Hnth i l' t Hl Ht).
Qed.

Lemma apply_tax_data_lines_returns : forall lines tax_lines s,
  (forall i l, nth_error lines i = Some l ->
               (i < List.length tax_lines)%nat -> quantity l <> 0%Z) ->
  exists lines' s', _apply_tax_data_lines lines tax_lines s = Ok (lines', s').
Proof.
  induction lines as [|l lines IH]; intros tax_lines s Hq.
  - exists [], s. reflexivity.
  - destruct tax_lines as [|t tax_lines].
    + exists (l :: lines), s. reflexivity.
    + assert (Hl : quantity l <> 0%Z) by (apply (Hq 0%nat l); simpl; [reflexivity | lia]).
      destruct (IH tax_lines
                   (taxed_add s (mkTaxedMoney (tl_total_net_amount t)
                                              (tl_total_gross_amount t))))
        as [rest [s2 Er]].
      { intros i l0 Hn Hi. apply (Hq (S i) l0); simpl; [exact Hn | lia]. }
      simpl. rewrite (taxed_div_int_ok _ Hl); simpl. rewrite Er; simpl.
      eexists; eexists; reflexivity.
Qed.


(** C9: when the quantity of every line paired with a tax line is not zero,
    [_apply_tax_data] returns, and every paired line ends with the tax
    line's total as [total_price] and with [unit_price = total_price /
    quantity], the division of [Decimal]; [unit_price * quantity] and
    [total_price] differ, net and gross, by at most the rounding of that
    division: half a unit in the 28th significant digit of the total. *)
Theorem apply_tax_data_unit_price_is_total_over_quantity :
  forall order lines td,
    (forall i l, nth_error lines i = Some l ->
                 (i < List.length (td_lines td))%nat -> quantity l <> 0%Z) ->
    exists order' lines',
      _apply_tax_data order lines (Some td) = Ok (order', lines')
      /\ List.length lines' = List.length lines
      /\ forall i l' t,
           nth_error lines' i = Some l' ->
           nth_error (td_lines td) i = Some t ->
           exists l, nth_error lines i = Some l /\ line_priced_from t l l'.
Proof.
  intros order lines td Hq.
  destruct (apply_tax_data_lines_returns lines (td_lines td) zero_taxed_money Hq)
    as [lines' [s' E]].
  unfold _apply_tax_data. rewrite E; simpl.
  eexists; exists lines'. split; [reflexivity|].
  exact (apply_tax_data_lines_paired _ _ _ E).
Qed.

(** ** The total after a recalculation *)

(** The order, lines and state at the time [_calculate_taxes] is called. *)
Definition discount_step (order : Order) (lines : option (list OrderLine)) (w : World)
    : result (Order * list OrderLine * World) :=
  let order0 := set_should_refresh_prices order false in
  apply_order_discounts order0
    (match lines with
     | None => db_lines w
     | Some ls => ls
     end)
    (_update_order_discount_for_voucher order0 w).

(** The writes at the end of a recalculation. *)
Definition persist_step (order : Order) (lines : list OrderLine) (info : bool) (w : World)
    : World :=
  let w4 := bulk_update lines line_update_fields (save order order_update_fields w) in
  if info then clear_lines_loader w4 else w4.

Lemma fetch_recalculates : forall order manager lines force_update info w,
  In (status order) ORDER_EDITABLE_STATUS ->
  force_update = true \/ should_refresh_prices order = true ->
  fetch_order_prices_and_update_if_expired order manager lines force_update info w =
  ('(order1, lines1, w2) <- discount_step order lines w ;;
   '(order2, lines2) <- _calculate_taxes order1 manager lines1 ;;
   Ok (order2, Some lines2, persist_step order2 lines2 info w2))%result.
Proof.
  intros order manager lines force_update info w Hed Hstale.
  unfold fetch_order_prices_and_update_if_expired.
  apply status_in_spec in Hed. rewrite Hed; simpl.
  assert (Hgate : negb force_update && negb (should_refresh_prices order) = false).
  { destruct Hstale as [-> | ->]; [reflexivity | apply andb_false_r]. }
  rewrite Hgate. reflexivity.
Qed.

Definition total_is_shipping_plus_subtotal (o : Order) (ls : list OrderLine) : Prop :=
  total o = taxed_add (shipping_price o) (get_subtotal ls).









(** ** A failing tax provider *)

Definition provider_fails_on_lines_and_shipping (manager : PluginsManager) : Prop :=
  (forall o l v p, calculate_order_line_unit manager o l v p = Raise TaxError)
  /\ (forall o l v p, calculate_order_line_total manager o l v p = Raise TaxError)
  /\ (forall o p v t, get_order_line_tax_rate manager o p v t = Raise TaxError)
  /\ (forall o, calculate_order_shipping manager o = Raise TaxError)
  /\ (forall o t, get_order_shipping_tax_rate manager o t = Raise TaxError).

Lemma taxed_add_zero_l : forall t, taxed_add zero_taxed_money t = t.
Proof.
  intros [a b]. unfold taxed_add; simpl. f_equal; ring.
Qed.

Lemma failing_provider_keeps_lines : forall manager order lines s,
  (forall o l v p, calculate_order_line_unit manager o l v p = Raise TaxError) ->
  _apply_tax_data_from_plugins_lines manager order lines s = Ok (lines, s).
Proof.
  intros manager order lines s Hunit.
  induction lines as [|l lines IH]; simpl; [reflexivity|].
  unfold _apply_tax_data_from_plugins_line.
  destruct (variant l) as [v|]; [rewrite Hunit|]; simpl; rewrite IH; reflexivity.
Qed.

(** A provider failing inside the [try] blocks only: under the tax-app
    strategy with chargeable taxes, when every per-line call and every
    shipping call of the tax provider raises [TaxError], while
    [calculate_order_total] returns and the tax app has no tax data,
    [fetch_order_prices_and_update_if_expired] returns; the lines and the
    order's shipping price and shipping tax rate are as they were after the
    discounts were applied, [order.total] is the total the manager returned
    and [order.undiscounted_total] is the base shipping price, net and
    gross. *)
Lemma failing_provider_keeps_line_and_shipping_prices :
  forall order manager lines force_update info w order1 lines1 w2 t,
    In (status order) ORDER_EDITABLE_STATUS ->
    force_update = true \/ should_refresh_prices order = true ->
    discount_step order lines w = Ok (order1, lines1, w2) ->
    get_tax_calculation_strategy_for_order order1 = TAX_APP ->
    get_charge_taxes_for_order order1 && negb (tax_exemption order1) = true ->
    provider_fails_on_lines_and_shipping manager ->
    (forall o, get_taxes_for_order manager o = Ok None) ->
    calculate_order_total manager
      (set_undiscounted_total order1
         (mkTaxedMoney (base_shipping_price order1) (base_shipping_price order1)))
      lines1 = Ok t ->
    let order' :=
      set_total
        (set_undiscounted_total order1
           (mkTaxedMoney (base_shipping_price order1) (base_shipping_price order1))) t in
    fetch_order_prices_and_update_if_expired order manager lines force_update info w =
    Ok (order', Some lines1, persist_step order' lines1 info w2)
    /\ shipping_price order' = shipping_price order1
    /\ shipping_tax_rate order' = shipping_tax_rate order1.
Proof.
  intros order manager lines force_update info w order1 lines1 w2 t
         Hed Hstale Hdisc Hstrat Hcharge Hfail Hnone Htotal order'.
  destruct Hfail as [Hunit [_ [_ [Hship _]]]].
  split; [|split; reflexivity].
  rewrite (fetch_recalculates _ _ _ _ _ Hed Hstale), Hdisc. simpl.
  assert (E : _calculate_and_add_tax TAX_APP order1 lines1 manager
                (prices_entered_with_tax (tax_configuration (channel order1))) =
              Ok (order', lines1)).
  { simpl. unfold _apply_tax_data_from_plugins.
    rewrite failing_provider_keeps_lines by exact Hunit. simpl.
    unfold _apply_tax_data_from_plugins_shipping. rewrite Hship. simpl.
    rewrite taxed_add_zero_l, Htotal. simpl.
    rewrite Hnone. reflexivity. }
  unfold _calculate_taxes. rewrite Hstrat, Hcharge.
  destruct (prices_entered_with_tax (tax_configuration (channel order1)));
    rewrite E; reflexivity.
Qed.

(** A tax provider that raises [TaxError] on every call. *)
Definition provider_fails_on_every_call (manager : PluginsManager) : Prop :=
  provider_fails_on_lines_and_shipping manager
  /\ (forall o ls, calculate_order_total manager o ls = Raise TaxError)
  /\ (forall o, get_taxes_for_order manager o = Raise TaxError).

(** C4 (what the code does): when the tax provider raises [TaxError] on
    every call, the errors of the per-line and shipping calls are caught, but
    the one [calculate_order_total] raises in the last statement of
    [_apply_tax_data_from_plugins] is not: it leaves that function and, under
    the tax-app strategy whenever taxes are calculated, it leaves
    [fetch_order_prices_and_update_if_expired]; nothing is returned. *)
Theorem failing_provider_tax_error_leaves_the_recalculation :
  forall order manager lines force_update info w order1 lines1 w2,
    In (status order) ORDER_EDITABLE_STATUS ->
    force_update = true \/ should_refresh_prices order = true ->
    discount_step order lines w = Ok (order1, lines1, w2) ->
    get_tax_calculation_strategy_for_order order1 = TAX_APP ->
    prices_entered_with_tax (tax_configuration (channel order1)) = true \/
    get_charge_taxes_for_order order1 && negb (tax_exemption order1) = true ->
    provider_fails_on_every_call manager ->
    _apply_tax_data_from_plugins manager order1 lines1 = Raise TaxError
    /\ fetch_order_prices_and_update_if_expired order manager lines force_update info w =
       Raise TaxError.
Proof.
  intros order manager lines force_update info w order1 lines1 w2
         Hed Hstale Hdisc Hstrat Hcalc [[Hunit [_ [_ [Hship _]]]] [Htotal _]].
  assert (E : _apply_tax_data_from_plugins manager order1 lines1 = Raise TaxError).
  { unfold _apply_tax_data_from_plugins.
    rewrite failing_provider_keeps_lines by exact Hunit. simpl.
    unfold _apply_tax_data_from_plugins_shipping. rewrite Hship. simpl.
    rewrite Htotal. reflexivity. }
  split; [exact E|].
  rewrite (fetch_recalculates _ _ _ _ _ Hed Hstale), Hdisc. simpl.
  unfold _calculate_taxes. rewrite Hstrat. simpl. rewrite E. simpl.
  destruct (prices_entered_with_tax (tax_configuration (channel order1))).
  - reflexivity.
  - destruct Hcalc as [Hcalc | Hcalc]; [discriminate|].
    rewrite Hcalc. reflexivity.
Qed.

End Calculations.

(** ** A sample shop

    One channel, one order with one line (5 units at 20.00 net / 24.60
    gross), shipping at 10.00 net / 12.30 gross. *)

(** As [ORDER_EDITABLE_STATUS] in [graphql/order/mutations/orders.py]. *)
Definition sample_editable_status : list OrderStatus := [DRAFT; UNCONFIRMED].

Definition tax_app_strategy (_ : Order) : TaxCalculationStrategy := TAX_APP.

Definition charge_taxes_always (_ : Order) : bool := true.

Definition charge_taxes_never (_ : Order) : bool := false.

Definition percent_to_fraction (r : Decimal) : Decimal := (r / dec 100 1)%Qc.

Definition no_order_discounts (o : Order) (ls : list OrderLine) (w : World)
    : result (Order * list OrderLine * World) := Ok (o, ls, w).

Definition flat_rates_untouched (o : Order) (ls : list OrderLine) (_ : bool)
    : result (Order * list OrderLine) := Ok (o, ls).

Definition sample_channel (entered_with_tax : bool) : Channel :=
  mkChannel 1 (mkTaxConfiguration entered_with_tax).

Definition sample_line : OrderLine :=
  mkOrderLine 1 (Some (mkProductVariant 10 100)) 5
              (mkTaxedMoney (dec 2000 100) (dec 2460 100))
              (mkTaxedMoney (dec 2000 100) (dec 2460 100))
              (mkTaxedMoney (dec 10000 100) (dec 12300 100))
              (mkTaxedMoney (dec 10000 100) (dec 12300 100))
              (Some (dec 23 100)) 0%Qc.

Definition sample_order (s : OrderStatus) (entered_with_tax : bool)
    (v : option Voucher) (code : option string) : Order :=
  mkOrder 1 s true "USD" (sample_channel entered_with_tax) false v code
          (mkTaxedMoney (dec 11000 100) (dec 13530 100))
          (mkTaxedMoney (dec 11000 100) (dec 13530 100))
          (mkTaxedMoney (dec 1000 100) (dec 1230 100))
          (dec 1000 100) (Some (dec 23 100)).

Definition sample_world (o : Order) (ds : list OrderDiscount) : World :=
  mkWorld o [sample_line] ds None None.

(** A provider that raises [TaxError] on every call. *)
Definition failing_manager : PluginsManager :=
  mkPluginsManager
    (fun _ _ _ _ => Raise TaxError) (fun _ _ _ _ => Raise TaxError)
    (fun _ _ _ _ => Raise TaxError) (fun _ => Raise TaxError)
    (fun _ _ => Raise TaxError) (fun _ _ => Raise TaxError)
    (fun _ => Raise TaxError).

(** A provider whose per-line and shipping calls raise [TaxError], while the
    order total is computed (110.00 / 135.30) and the tax app has no data. *)
Definition degraded_manager : PluginsManager :=
  mkPluginsManager
    (fun _ _ _ _ => Raise TaxError) (fun _ _ _ _ => Raise TaxError)
    (fun _ _ _ _ => Raise TaxError) (fun _ => Raise TaxError)
    (fun _ _ => Raise TaxError)
    (fun _ _ => Ok (mkTaxedMoney (dec 11000 100) (dec 13530 100)))
    (fun _ => Ok None).

(** Plugins that price the line at 33.335 net / 41.002 gross in total and
    return the order total rounded to cents; no tax app data. *)
Definition rounding_manager : PluginsManager :=
  mkPluginsManager
    (fun _ _ _ _ =>
       Ok (mkOrderTaxedPricesData (mkTaxedMoney (dec 6667 1000) (dec 82004 10000))
                                  (mkTaxedMoney (dec 6667 1000) (dec 82004 10000))))
    (fun _ _ _ _ =>
       Ok (mkOrderTaxedPricesData (mkTaxedMoney (dec 33335 1000) (dec 41002 1000))
                                  (mkTaxedMoney (dec 33335 1000) (dec 41002 1000))))
    (fun _ _ _ _ => Ok (dec 23 100))
    (fun _ => Ok (mkTaxedMoney (dec 1000 100) (dec 1230 100)))
    (fun _ _ => Ok (dec 23 100))
    (fun _ _ => Ok (mkTaxedMoney (dec 4334 100) (dec 5330 100)))
    (fun _ => Ok None).

Definition sample_tax_data (tax_lines : list TaxLineData) : TaxData :=
  mkTaxData (dec 1230 100) (dec 1000 100) (dec 23 1) tax_lines.

Definition sample_tax_line : TaxLineData :=
  mkTaxLineData (dec 23 1) (dec 12300 100) (dec 10000 100).

(** Plugins that add no tax, and a tax app answering with [td]. *)
Definition tax_app_manager (td : TaxData) : PluginsManager :=
  mkPluginsManager
    (fun _ l _ _ => Ok (mkOrderTaxedPricesData (undiscounted_unit_price l) (unit_price l)))
    (fun _ l _ _ => Ok (mkOrderTaxedPricesData (undiscounted_total_price l) (total_price l)))
    (fun _ _ _ _ => Ok 0%Qc)
    (fun o => Ok (mkTaxedMoney (base_shipping_price o) (base_shipping_price o)))
    (fun _ _ => Ok 0%Qc)
    (fun o ls => Ok (taxed_add (shipping_price o) (get_subtotal ls)))
    (fun _ => Ok (Some td)).

Definition sample_voucher (listings : list VoucherChannelListing) : Voucher :=
  mkVoucher 7 "Spring" PERCENTAGE listings.

Definition discount_for_code (code : string) : OrderDiscount :=
  mkOrderDiscount VOUCHER PERCENTAGE (dec 10 1) (Some "Voucher: Spring"%string)
                  (Some 7%Z) (Some code).

(** The sample configuration of [fetch_order_prices_and_update_if_expired]. *)
Definition sample_fetch (charge : Order -> bool) :=
  fetch_order_prices_and_update_if_expired
    sample_editable_status tax_app_strategy charge percent_to_fraction
    no_order_discounts flat_rates_untouched.


Lemma no_order_discounts_keep_refresh_flag :
  discounts_keep_refresh_flag no_order_discounts.
Proof.
  intros o ls w o' ls' w' H. inversion H; reflexivity.
Defined.

Lemma flat_rates_untouched_keep_refresh_flag :
  flat_rates_keep_refresh_flag flat_rates_untouched.
Proof.
  intros o ls b o' ls' H. inversion H; reflexivity.
Defined.

Lemma draft_is_editable : forall b v c,
  In (status (sample_order DRAFT b v c)) sample_editable_status.
Proof.
  intros; simpl; left; reflexivity.
Defined.

(** *** Voucher resolution on the sample order *)

Definition channel_one_listing : VoucherChannelListing :=
  mkVoucherChannelListing 1 (dec 10 1).

Definition channel_two_listing : VoucherChannelListing :=
  mkVoucherChannelListing 2 (dec 10 1).

(** The order after its voucher code went from ["OLD"] to ["NEW"]: the
    record of the old code is still among its discounts. *)
Definition recoded_order : Order :=
  sample_order DRAFT false (Some (sample_voucher [channel_one_listing])) (Some "NEW"%string).

Definition recoded_world : World :=
  sample_world recoded_order [discount_for_code "OLD"].

(** C2, as stated, fails: with the code changed from ["OLD"] to ["NEW"], the
    record of the old code is not deleted, and two voucher-type records
    exist afterwards. *)
Lemma voucher_code_change_keeps_old_record :
  db_discounts (_update_order_discount_for_voucher recoded_order recoded_world) =
  [discount_for_code "OLD"; discount_for_code "NEW"]
  /\ List.length
       (voucher_records
          (db_discounts (_update_order_discount_for_voucher recoded_order recoded_world))) =
     2%nat.
Proof.
  split; reflexivity.
Qed.

Lemma voucher_resolution_idempotent_and_additive_witness :
  _update_order_discount_for_voucher recoded_order
    (_update_order_discount_for_voucher recoded_order recoded_world) =
  _update_order_discount_for_voucher recoded_order recoded_world
  /\ db_discounts (_update_order_discount_for_voucher recoded_order recoded_world) =
     db_discounts recoded_world ++
     [created_discount recoded_order (sample_voucher [channel_one_listing])
                       channel_one_listing].
Proof.
  destruct (voucher_resolution_idempotent_and_additive recoded_order recoded_world)
    as [Hidem [_ [Hnew _]]].
  split; [exact Hidem|].
  apply Hnew; reflexivity.
Defined.

Definition unlisted_order : Order :=
  sample_order DRAFT false (Some (sample_voucher [channel_two_listing]))
               (Some "SPRING10"%string).

Lemma voucher_without_channel_listing_creates_nothing_witness :
  db_discounts
    (_update_order_discount_for_voucher unlisted_order (sample_world unlisted_order [])) = [].
Proof.
  apply (@voucher_without_channel_listing_creates_nothing
           unlisted_order (sample_world unlisted_order [])
           (sample_voucher [channel_two_listing])).
  - reflexivity.
  - intros l [<- | []]. simpl. discriminate.
Defined.

(** *** The gate on the sample order *)

Lemma fetch_noneditable_order_is_noop_witness :
  ~ In FULFILLED sample_editable_status
  /\ sample_fetch charge_taxes_always (sample_order FULFILLED false None None)
       failing_manager None true false
       (sample_world (sample_order FULFILLED false None None) []) =
     Ok (sample_order FULFILLED false None None, None,
         sample_world (sample_order FULFILLED false None None) []).
Proof.
  assert (H : ~ In (status (sample_order FULFILLED false None None))
                   sample_editable_status).
  { simpl. intros [H | [H | []]]; discriminate H. }
  split; [exact H|].
  exact (@fetch_noneditable_order_is_noop
           sample_editable_status tax_app_strategy charge_taxes_always
           percent_to_fraction no_order_discounts flat_rates_untouched
           _ failing_manager None true false _ H).
Defined.

Lemma recalculation_clears_refresh_flag_witness :
  exists order' lines' w',
    sample_fetch charge_taxes_always (sample_order DRAFT false None None)
      degraded_manager None false true
      (sample_world (sample_order DRAFT false None None) []) = Ok (order', lines', w')
    /\ should_refresh_prices order' = false
    /\ should_refresh_prices (db_order w') = false
    /\ sample_fetch charge_taxes_always order' failing_manager lines' false false w' =
       Ok (order', lines', w').
Proof.
  returns_value
    (sample_fetch charge_taxes_always (sample_order DRAFT false None None)
       degraded_manager None false true
       (sample_world (sample_order DRAFT false None None) [])).
  match goal with
  | |- ?call = Ok (?o, ?ls, ?w) /\ _ =>
      assert (E : call = Ok (o, ls, w)) by (vm_compute; reflexivity);
      destruct (@recalculation_clears_refresh_flag
                  sample_editable_status tax_app_strategy charge_taxes_always
                  percent_to_fraction no_order_discounts flat_rates_untouched
                  (sample_order DRAFT false None None) _ _ _ _ _ _ _ _
                  no_order_discounts_keep_refresh_flag
                  flat_rates_untouched_keep_refresh_flag
                  (draft_is_editable false None None)
                  (or_intror eq_refl) E)
        as [H1 [_ [H2 [H3 _]]]]
  end.
  split; [exact E|]. split; [exact H1|]. split; [exact H2|].
  apply H3.
Defined.

(** *** Taxes on the sample order *)

Lemma calculate_taxes_strips_tax_when_not_chargeable_witness :
  exists order' lines',
    _calculate_taxes tax_app_strategy charge_taxes_never percent_to_fraction
      flat_rates_untouched (sample_order DRAFT true None None)
      (tax_app_manager (sample_tax_data [sample_tax_line])) [sample_line] =
    Ok (order', lines')
    /\ order_tax_free order'
    /\ Forall line_tax_free lines'.
Proof.
  returns_value
    (_calculate_taxes tax_app_strategy charge_taxes_never percent_to_fraction
       flat_rates_untouched (sample_order DRAFT true None None)
       (tax_app_manager (sample_tax_data [sample_tax_line])) [sample_line]).
  match goal with
  | |- ?call = Ok (?o, ?ls) /\ _ =>
      assert (E : call = Ok (o, ls)) by (vm_compute; reflexivity)
  end.
  split; [exact E|].
  exact (@calculate_taxes_strips_tax_when_not_chargeable
           tax_app_strategy charge_taxes_never percent_to_fraction flat_rates_untouched
           (sample_order DRAFT true None None) _ _ _ _ eq_refl (or_introl eq_refl) E).
Defined.

(** Three pieces for 100.00 net / 123.00 gross: the net unit price is
    33.33333333333333333333333333, three of which make
    99.99999999999999999999999999. *)
Definition three_piece_line : OrderLine :=
  mkOrderLine 2 (Some (mkProductVariant 10 100)) 3
              (mkTaxedMoney (dec 3000 100) (dec 3690 100))
              (mkTaxedMoney (dec 3000 100) (dec 3690 100))
              (mkTaxedMoney (dec 9000 100) (dec 11070 100))
              (mkTaxedMoney (dec 9000 100) (dec 11070 100))
              (Some (dec 23 100)) 0%Qc.

Lemma apply_tax_data_unit_price_is_total_over_quantity_witness :
  exists order' l',
    _apply_tax_data percent_to_fraction (sample_order DRAFT false None None)
      [three_piece_line] (Some (sample_tax_data [sample_tax_line])) = Ok (order', [l'])
    /\ unit_price l' =
       mkTaxedMoney (dec 3333333333333333333333333333 100000000000000000000000000)
                    (dec 41 1)
    /\ line_priced_from percent_to_fraction sample_tax_line three_piece_line l'.
Proof.
  destruct (apply_tax_data_unit_price_is_total_over_quantity
              percent_to_fraction (sample_order DRAFT false None None)
              [three_piece_line] (sample_tax_data [sample_tax_line]))
    as [order' [lines' [E [Hlen Hl]]]].
  { intros [|i] l Hl Hi.
    - inversion Hl; subst. simpl. discriminate.
    - destruct i; discriminate Hl. }
  destruct lines' as [|l' [|l2 rest]]; try discriminate Hlen.
  exists order', l'. split; [exact E|].
  destruct (Hl 0%nat l' sample_tax_line eq_refl eq_refl) as [l [El Hp]].
  inversion El; subst l. split; [|exact Hp].
  destruct Hp as [_ [Hq [Ht [Hu _]]]].
  rewrite Ht, Hq in Hu. unfold taxed_div_int, bind in Hu. simpl in Hu.
  inversion Hu as [Hv].
  f_equal; apply Qc_is_canon; vm_compute; reflexivity.
Defined.

Definition taxed_sample_fetch (m : PluginsManager) :=
  sample_fetch charge_taxes_always (sample_order DRAFT false None None) m None false false
               (sample_world (sample_order DRAFT false None None) []).

Lemma sample_discount_step :
  discount_step no_order_discounts (sample_order DRAFT false None None) None
                (sample_world (sample_order DRAFT false None None) []) =
  Ok (set_should_refresh_prices (sample_order DRAFT false None None) false,
      [sample_line],
      _update_order_discount_for_voucher
        (set_should_refresh_prices (sample_order DRAFT false None None) false)
        (sample_world (sample_order DRAFT false None None) [])).
Proof.
  reflexivity.
Defined.



(** The same on the tax-app path when the tax data has no entry for the
    order's line: the total is the shipping price alone. *)
Lemma short_tax_data_total_misses_lines :
  exists order' ls w',
    taxed_sample_fetch (tax_app_manager (sample_tax_data [])) = Ok (order', Some ls, w')
    /\ total order' = shipping_price order'
    /\ ~ total_is_shipping_plus_subtotal order' ls.
Proof.
  returns_some_lines (taxed_sample_fetch (tax_app_manager (sample_tax_data []))).
  split; [vm_compute; reflexivity|].
  split; [qc_closed|].
  unfold total_is_shipping_plus_subtotal. intros H.
  apply (f_equal net) in H. decimals_differ H.
Qed.

Lemma degraded_manager_fails_on_lines_and_shipping :
  provider_fails_on_lines_and_shipping degraded_manager.
Proof.
  repeat split.
Defined.

Lemma failing_provider_keeps_line_and_shipping_prices_witness :
  exists order' w',
    taxed_sample_fetch degraded_manager = Ok (order', Some [sample_line], w')
    /\ shipping_price order' = shipping_price (sample_order DRAFT false None None)
    /\ shipping_tax_rate order' = shipping_tax_rate (sample_order DRAFT false None None)
    /\ total order' = mkTaxedMoney (dec 11000 100) (dec 13530 100)
    /\ undiscounted_total order' = mkTaxedMoney (dec 1000 100) (dec 1000 100).
Proof.
  destruct (@failing_provider_keeps_line_and_shipping_prices
              sample_editable_status tax_app_strategy charge_taxes_always
              percent_to_fraction no_order_discounts flat_rates_untouched
              (sample_order DRAFT false None None) degraded_manager None false false
              (sample_world (sample_order DRAFT false None None) [])
              _ _ _ (mkTaxedMoney (dec 11000 100) (dec 13530 100))
              (draft_is_editable false None None) (or_intror eq_refl)
              sample_discount_step eq_refl eq_refl
              degraded_manager_fails_on_lines_and_shipping
              (fun _ => eq_refl) eq_refl)
    as [E [Hs Hr]].
  eexists; eexists. split; [exact E|].
  split; [exact Hs|]. split; [exact Hr|]. split; reflexivity.
Defined.

Lemma failing_manager_fails_on_every_call :
  provider_fails_on_every_call failing_manager.
Proof.
  repeat split.
Defined.

(** The sample order with a provider that fails on every call. *)
Lemma failing_provider_tax_error_leaves_the_recalculation_witness :
  _apply_tax_data_from_plugins failing_manager
    (set_should_refresh_prices (sample_order DRAFT false None None) false)
    [sample_line] = Raise TaxError
  /\ taxed_sample_fetch failing_manager = Raise TaxError.
Proof.
  exact (@failing_provider_tax_error_leaves_the_recalculation
           sample_editable_status tax_app_strategy charge_taxes_always
           percent_to_fraction no_order_discounts flat_rates_untouched
           (sample_order DRAFT false None None) failing_manager None false false
           (sample_world (sample_order DRAFT false None None) [])
           _ _ _
           (draft_is_editable false None None) (or_intror eq_refl)
           sample_discount_step eq_refl (or_intror eq_refl)
           failing_manager_fails_on_every_call).
Defined.

(** With every call failing the error of [calculate_order_total] leaves
    [fetch_order_prices_and_update_if_expired]; and when only the per-line
    and shipping calls raise, the call returns but the order's undiscounted
    total, 110.00 / 135.30 before, is 10.00 / 10.00 afterwards. *)
Lemma failing_provider_error_escapes_and_totals_change :
  taxed_sample_fetch failing_manager = Raise TaxError
  /\ exists order' lines' w',
       taxed_sample_fetch degraded_manager = Ok (order', lines', w')
       /\ undiscounted_total (sample_order DRAFT false None None) =
          mkTaxedMoney (dec 11000 100) (dec 13530 100)
       /\ undiscounted_total order' = mkTaxedMoney (dec 1000 100) (dec 1000 100)
       /\ undiscounted_total order' <> undiscounted_total (sample_order DRAFT false None None).
Proof.
  split; [reflexivity|].
  returns_value (taxed_sample_fetch degraded_manager).
  split; [vm_compute; reflexivity|].
  split; [reflexivity|]. split; [qc_closed|].
  intros H. apply (f_equal net) in H. decimals_differ H.
Qed.

End OrderCalculations.

(** * Checkouts: [saleor/checkout/calculations.py] *)

Module CheckoutCalculations.

(** ** Data model *)

Record CheckoutLine : Type := mkCheckoutLine {
  id : Z;
  quantity : Z;
  unit_price : TaxedMoney;
  total_price : TaxedMoney
}.

(** [price_expiration] and the clock are in seconds. *)
Record Checkout : Type := mkCheckout {
  currency : string;
  price_expiration : Z;
  total : TaxedMoney;
  subtotal : TaxedMoney;
  shipping_price : TaxedMoney
}.

Record CheckoutLineInfo : Type := mkCheckoutLineInfo {
  line : CheckoutLine
}.

Record CheckoutInfo : Type := mkCheckoutInfo {
  checkout : Checkout
}.

Definition set_line_unit_price (li : CheckoutLineInfo) (t : TaxedMoney) : CheckoutLineInfo :=
  mkCheckoutLineInfo
    (mkCheckoutLine (id (line li)) (quantity (line li)) t (total_price (line li))).

Definition set_line_total_price (li : CheckoutLineInfo) (t : TaxedMoney) : CheckoutLineInfo :=
  mkCheckoutLineInfo
    (mkCheckoutLine (id (line li)) (quantity (line li)) (unit_price (line li)) t).

Definition set_total (c : Checkout) (t : TaxedMoney) : Checkout :=
  mkCheckout (currency c) (price_expiration c) t (subtotal c) (shipping_price c).

Definition set_subtotal (c : Checkout) (t : TaxedMoney) : Checkout :=
  mkCheckout (currency c) (price_expiration c) (total c) t (shipping_price c).

Definition set_shipping_price (c : Checkout) (t : TaxedMoney) : Checkout :=
  mkCheckout (currency c) (price_expiration c) (total c) (subtotal c) t.

Definition set_price_expiration (c : Checkout) (e : Z) : Checkout :=
  mkCheckout (currency c) e (total c) (subtotal c) (shipping_price c).

Record TaxLineData : Type := mkTaxLineData {
  tl_id : Z;
  tl_unit_net_amount : Decimal;
  tl_unit_gross_amount : Decimal;
  tl_total_net_amount : Decimal;
  tl_total_gross_amount : Decimal
}.

Record TaxData : Type := mkTaxData {
  td_total_net_amount : Decimal;
  td_total_gross_amount : Decimal;
  td_subtotal_net_amount : Decimal;
  td_subtotal_gross_amount : Decimal;
  td_shipping_price_net_amount : Decimal;
  td_shipping_price_gross_amount : Decimal;
  td_lines : list TaxLineData
}.

(** The checkout's row and the rows of [checkout.lines]. *)
Record Database : Type := mkDatabase {
  db_checkout : Checkout;
  db_lines : list CheckoutLine
}.

(** [checkout.save(update_fields=...)]: the net and gross columns of total,
    subtotal and shipping price and [price_expiration] are written; the row
    keeps its other columns. *)
Definition save (c : Checkout) (db : Database) : Database :=
  mkDatabase
    (mkCheckout (currency (db_checkout db)) (price_expiration c) (total c) (subtotal c)
                (shipping_price c))
    (db_lines db).

(** [checkout.lines.bulk_update(...)]: the net and gross columns of unit and
    total price are written to the rows with the instances' primary keys. *)
Definition bulk_update (lines : list CheckoutLine) (db : Database) : Database :=
  mkDatabase (db_checkout db)
    (map (fun row =>
            match find (fun l => (id l =? id row)%Z) lines with
            | Some l => mkCheckoutLine (id row) (quantity row) (unit_price l) (total_price l)
            | None => row
            end)
         (db_lines db)).

(** ** Quantization *)

(** [Decimal.quantize] to [places] decimal places with [ROUND_HALF_UP], the
    rounding [Money.quantize] asks for: halves go away from zero. *)
Definition round_half_up (q : Q) : Z :=
  if Qle_bool 0 q then Qfloor (q + (1 # 2)) else (- Qfloor ((- q) + (1 # 2)))%Z.

Definition decimal_quantize (a : Decimal) (places : nat) : Decimal :=
  let scale := inject_Z (10 ^ Z.of_nat places) in
  Q2Qc (inject_Z (round_half_up (this a * scale)) / scale).

Section Calculations.

(** Collaborators from other modules: the address and discount types handed
    through to the manager, babel's currency precision table, the price
    time-to-live of the settings and the checkout's gift card balance. *)
Variable Address : Type.
Variable DiscountInfo : Type.
Variable get_currency_precision : string -> nat.
Variable CHECKOUT_PRICES_TTL : Z.
Variable get_total_gift_cards_balance : Checkout -> Decimal.

Record PluginsManager : Type := mkPluginsManager {
  calculate_checkout_line_total :
    CheckoutInfo -> list CheckoutLineInfo -> CheckoutLineInfo -> option Address ->
    list DiscountInfo -> result TaxedMoney;
  calculate_checkout_line_unit_price :
    TaxedMoney -> Z -> CheckoutInfo -> list CheckoutLineInfo -> CheckoutLineInfo ->
    option Address -> list DiscountInfo -> result TaxedMoney;
  calculate_checkout_shipping :
    CheckoutInfo -> list CheckoutLineInfo -> option Address -> list DiscountInfo ->
    result TaxedMoney;
  calculate_checkout_subtotal :
    CheckoutInfo -> list CheckoutLineInfo -> option Address -> list DiscountInfo ->
    result TaxedMoney;
  calculate_checkout_total :
    CheckoutInfo -> list CheckoutLineInfo -> option Address -> list DiscountInfo ->
    result TaxedMoney;
  get_taxes_for_checkout : Checkout -> result (option TaxData)
}.

(** [quantize_price] on a [TaxedMoney]. *)
Definition quantize_price (price : TaxedMoney) (currency : string) : TaxedMoney :=
  let precision := get_currency_precision currency in
  mkTaxedMoney (decimal_quantize (net price) precision)
               (decimal_quantize (gross price) precision).

Definition create_quantized_taxed_money (c : Checkout) (net gross : Decimal) : TaxedMoney :=
  quantize_price (mkTaxedMoney net gross) (currency c).

(** [discounts or []]. *)
Definition discounts_or_empty (discounts : option (list DiscountInfo)) : list DiscountInfo :=
  match discounts with
  | Some ds => ds
  | None => []
  end.

(** [tax_lines_data[key]] for the dict built from [tax_data.lines]: of several
    entries with one id the last one stays. *)
Definition tax_lines_data_get (tax_lines : list TaxLineData) (key : Z) : result TaxLineData :=
  match find (fun t => (tl_id t =? key)%Z) (rev tax_lines) with
  | Some t => Ok t
  | None => Raise KeyError
  end.

Fixpoint _apply_tax_data_lines
    (c : Checkout) (lines : list CheckoutLineInfo) (tax_lines : list TaxLineData)
    : result (list CheckoutLineInfo) :=
  match lines with
  | [] => Ok []
  | line_info :: rest =>
      (tax_line_data <- tax_lines_data_get tax_lines (id (line line_info)) ;;
       let l1 :=
         set_line_unit_price line_info
           (create_quantized_taxed_money c (tl_unit_net_amount tax_line_data)
                                         (tl_unit_gross_amount tax_line_data)) in
       let l2 :=
         set_line_total_price l1
           (create_quantized_taxed_money c (tl_total_net_amount tax_line_data)
                                         (tl_total_gross_amount tax_line_data)) in
       rest' <- _apply_tax_data_lines c rest tax_lines ;;
       Ok (l2 :: rest'))%result
  end.

Definition _apply_tax_data
    (c : Checkout) (lines : list CheckoutLineInfo) (tax_data : TaxData)
    : result (Checkout * list CheckoutLineInfo) :=
  let c1 :=
    set_total c (create_quantized_taxed_money c (td_total_net_amount tax_data)
                                              (td_total_gross_amount tax_data)) in
  let c2 :=
    set_subtotal c1 (create_quantized_taxed_money c1 (td_subtotal_net_amount tax_data)
                                                  (td_subtotal_gross_amount tax_data)) in
  let c3 :=
    set_shipping_price c2
      (create_quantized_taxed_money c2 (td_shipping_price_net_amount tax_data)
                                    (td_shipping_price_gross_amount tax_data)) in
  (lines' <- _apply_tax_data_lines c3 lines (td_lines tax_data) ;;
   Ok (c3, lines'))%result.

(** The loop of [_apply_tax_data_from_plugins]: [done] are the lines already
    priced, [todo] the ones to come; the manager is given the whole list as
    it is at the time of each call. *)
Fixpoint _apply_tax_data_from_plugins_lines
    (manager : PluginsManager) (checkout_info : CheckoutInfo)
    (done todo : list CheckoutLineInfo) (address : option Address)
    (discounts : option (list DiscountInfo)) : result (list CheckoutLineInfo) :=
  match todo with
  | [] => Ok done
  | line_info :: rest =>
      (t <- calculate_checkout_line_total manager checkout_info
              (done ++ line_info :: rest) line_info address (discounts_or_empty discounts) ;;
       let l1 := set_line_total_price line_info t in
       u <- calculate_checkout_line_unit_price manager
              (total_price (line l1)) (quantity (line l1)) checkout_info
              (done ++ l1 :: rest) l1 address (discounts_or_empty discounts) ;;
       let l2 := set_line_unit_price l1 u in
       _apply_tax_data_from_plugins_lines manager checkout_info (done ++ [l2]) rest
                                          address discounts)%result
  end.

Definition _apply_tax_data_from_plugins
    (c : Checkout) (manager : PluginsManager) (lines : list CheckoutLineInfo)
    (address : option Address) (discounts : option (list DiscountInfo))
    : result (Checkout * list CheckoutLineInfo) :=
  (lines1 <- _apply_tax_data_from_plugins_lines manager (mkCheckoutInfo c) [] lines
                                                address discounts ;;
   s <- calculate_checkout_shipping manager (mkCheckoutInfo c) lines1 address
          (discounts_or_empty discounts) ;;
   let c1 := set_shipping_price c s in
   st <- calculate_checkout_subtotal manager (mkCheckoutInfo c1) lines1 address
           (discounts_or_empty discounts) ;;
   let c2 := set_subtotal c1 st in
   t <- calculate_checkout_total manager (mkCheckoutInfo c2) lines1 address
          (discounts_or_empty discounts) ;;
   Ok (set_total c2 t, lines1))%result.

(** What [fetch_checkout_prices_if_expired] does past its gate; [now] is the
    clock at the time the new expiration is set. *)
Definition recalculate_checkout_prices
    (c : Checkout) (manager : PluginsManager) (lines : list CheckoutLineInfo)
    (address : option Address) (discounts : option (list DiscountInfo))
    (now : Z) (db : Database) : result (Checkout * list CheckoutLineInfo * Database) :=
  ('(c1, lines1) <- _apply_tax_data_from_plugins c manager lines address discounts ;;
   tax_data <- get_taxes_for_checkout manager c1 ;;
   '(c2, lines2) <-
     match tax_data with
     | Some td => _apply_tax_data c1 lines1 td
     | None => Ok (c1, lines1)
     end ;;
   let c3 := set_price_expiration c2 (now + CHECKOUT_PRICES_TTL) in
   let db1 := save c3 db in
   let db2 := bulk_update (map line lines2) db1 in
   Ok (c3, lines2, db2))%result.

(** [fetch_checkout_prices_if_expired]; [now] is the clock read by the gate,
    [now_at_save] the one read when the expiration is renewed. *)
Definition fetch_checkout_prices_if_expired
    (checkout_info : CheckoutInfo) (manager : PluginsManager)
    (lines : list CheckoutLineInfo) (address : option Address)
    (discounts : option (list DiscountInfo)) (force_update : bool)
    (now now_at_save : Z) (db : Database)
    : result (Checkout * list CheckoutLineInfo * Database) :=
  let c := checkout checkout_info in
  if negb force_update && (price_expiration c <? now)%Z then Ok (c, lines, db)
  else recalculate_checkout_prices c manager lines address discounts now_at_save db.

(** [checkout_total]. *)
Definition checkout_total
    (manager : PluginsManager) (checkout_info : CheckoutInfo)
    (lines : list CheckoutLineInfo) (address : option Address)
    (discounts : option (list DiscountInfo)) (now now_at_save : Z) (db : Database)
    : result (TaxedMoney * (Checkout * list CheckoutLineInfo * Database)) :=
  (st <- fetch_checkout_prices_if_expired checkout_info manager lines address discounts
           false now now_at_save db ;;
   let '(c, _, _) := st in Ok (total c, st))%result.

(** [calculate_checkout_total_with_gift_cards]; the balance is read from the
    checkout as [checkout_total] left it. *)
Definition calculate_checkout_total_with_gift_cards
    (manager : PluginsManager) (checkout_info : CheckoutInfo)
    (lines : list CheckoutLineInfo) (address : option Address)
    (discounts : option (list DiscountInfo)) (now now_at_save : Z) (db : Database)
    : result (TaxedMoney * (Checkout * list CheckoutLineInfo * Database)) :=
  ('(t, st) <- checkout_total manager checkout_info lines address discounts
                 now now_at_save db ;;
   let '(c, _, _) := st in
   let total := taxed_sub_money t (get_total_gift_cards_balance c) in
   Ok (taxed_max total zero_taxed_money, st))%result.

(** ** The gate of [fetch_checkout_prices_if_expired] *)

(** C1 (what the code does): without [force_update], a checkout whose
    [price_expiration] has passed is returned as it is; nothing is
    recalculated and nothing is written. *)
Theorem expired_checkout_is_returned_unchanged :
  forall checkout_info manager lines address discounts now now_at_save db,
    (price_expiration (checkout checkout_info) < now)%Z ->
    fetch_checkout_prices_if_expired checkout_info manager lines address discounts
                                     false now now_at_save db =
    Ok (checkout checkout_info, lines, db).
Proof.
  intros checkout_info manager lines address discounts now now_at_save db Hexp.
  unfold fetch_checkout_prices_if_expired.
  apply Z.ltb_lt in Hexp. rewrite Hexp. reflexivity.
Qed.

(** The other side of the gate: forced, or with an expiration that has not
    passed yet, the prices are recalculated. *)
Lemma unexpired_or_forced_checkout_is_recalculated :
  forall checkout_info manager lines address discounts force_update now now_at_save db,
    force_update = true \/ (now <= price_expiration (checkout checkout_info))%Z ->
    fetch_checkout_prices_if_expired checkout_info manager lines address discounts
                                     force_update now now_at_save db =
    recalculate_checkout_prices (checkout checkout_info) manager lines address discounts
                                now_at_save db.
Proof.
  intros checkout_info manager lines address discounts force_update now now_at_save db H.
  unfold fetch_checkout_prices_if_expired.
  destruct H as [-> | H]; [reflexivity|].
  apply Z.ltb_ge in H. rewrite H, andb_false_r. reflexivity.
Qed.

(** ** The total with gift cards *)

Definition amount_due (c : Checkout) : TaxedMoney :=
  taxed_sub_money (total c) (get_total_gift_cards_balance c).

Lemma decimal_ltb_lt : forall a b, decimal_ltb a b = true <-> (a < b)%Qc.
Proof.
  intros a b. unfold decimal_ltb, Qclt, Qlt, Qccompare, Qcompare.
  rewrite <- Z.compare_lt_iff.
  destruct (_ ?= _)%Z; split; intros H; congruence.
Qed.

Lemma taxed_max_zero_spec : forall t,
  (gross t < 0 -> taxed_max t zero_taxed_money = zero_taxed_money)%Qc
  /\ (0 <= gross t -> taxed_max t zero_taxed_money = t)%Qc
  /\ (0 <= gross (taxed_max t zero_taxed_money))%Qc
  /\ taxed_ltb (taxed_max t zero_taxed_money) zero_taxed_money = false.
Proof.
  intros t. unfold taxed_max, taxed_ltb.
  destruct (decimal_ltb (gross t) (gross zero_taxed_money)) eqn:E.
  - apply decimal_ltb_lt in E. simpl in E.
    repeat split.
    + intros H. exfalso. apply (Qclt_not_le _ _ E H).
    + simpl. apply Qcle_refl.
  - assert (Hge : (0 <= gross t)%Qc).
    { apply Qcnot_lt_le. intros H. apply decimal_ltb_lt in H. simpl in E.
      rewrite H in E. discriminate. }
    repeat split.
    + intros H. exfalso. apply (Qclt_not_le _ _ H Hge).
    + exact Hge.
    + exact E.
Qed.

Lemma difference_below_zero : forall a b : Decimal, (a - b < 0)%Qc <-> (a < b)%Qc.
Proof.
  intros a b. split; intros H.
  - apply (proj2 (Qclt_minus_iff a b)).
    pose proof (proj1 (Qclt_minus_iff (a - b) 0) H) as H'.
    replace (b + - a)%Qc with (0 + - (a - b))%Qc by ring. exact H'.
  - apply (proj2 (Qclt_minus_iff (a - b) 0)).
    replace (0 + - (a - b))%Qc with (b + - a)%Qc by ring.
    exact (proj1 (Qclt_minus_iff a b) H).
Qed.

(** C10 (amended): when [checkout_total] returns, so does
    [calculate_checkout_total_with_gift_cards].  The clamp compares gross
    amounts: when the gift card balance is at most the gross total, the
    balance is taken off the net and off the gross total; when it exceeds
    the gross total, the result is zero.  The gross amount returned is never
    negative; the net amount returned is negative exactly when the balance
    lies above the net total and not above the gross total. *)
Theorem total_with_gift_cards_is_clamped_on_the_gross_amount :
  forall manager checkout_info lines address discounts now now_at_save db c lines' db',
    fetch_checkout_prices_if_expired checkout_info manager lines address discounts
                                     false now now_at_save db = Ok (c, lines', db') ->
    let balance := get_total_gift_cards_balance c in
    exists r,
      calculate_checkout_total_with_gift_cards manager checkout_info lines address discounts
                                               now now_at_save db =
      Ok (r, (c, lines', db'))
      /\ ((balance <= gross (total c))%Qc ->
          net r = (net (total c) - balance)%Qc
          /\ gross r = (gross (total c) - balance)%Qc)
      /\ ((gross (total c) < balance)%Qc -> net r = 0%Qc /\ gross r = 0%Qc)
      /\ (0 <= gross r)%Qc
      /\ ((net r < 0)%Qc <->
          (net (total c) < balance)%Qc /\ (balance <= gross (total c))%Qc).
Proof.
  intros manager checkout_info lines address discounts now now_at_save db c lines' db' H
         balance.
  exists (taxed_max (amount_due c) zero_taxed_money).
  split.
  { unfold calculate_checkout_total_with_gift_cards, checkout_total.
    rewrite H. reflexivity. }
  destruct (taxed_max_zero_spec (amount_due c)) as [Hneg [Hpos [Hge _]]].
  assert (Hdue : amount_due c =
                 mkTaxedMoney (net (total c) - balance)%Qc (gross (total c) - balance)%Qc)
    by reflexivity.
  assert (Hover : (gross (total c) < balance)%Qc ->
                  taxed_max (amount_due c) zero_taxed_money = zero_taxed_money).
  { intros Hlt. apply Hneg. rewrite Hdue. simpl.
    exact (proj2 (difference_below_zero _ _) Hlt). }
  assert (Hunder : (balance <= gross (total c))%Qc ->
                   taxed_max (amount_due c) zero_taxed_money = amount_due c).
  { intros Hle. apply Hpos. rewrite Hdue. simpl.
    apply Qcnot_lt_le. intros Hlt.
    exact (Qclt_not_le _ _ (proj1 (difference_below_zero _ _) Hlt) Hle). }
  split; [|split; [|split; [exact Hge|]]].
  - intros Hle. rewrite (Hunder Hle), Hdue. split; reflexivity.
  - intros Hlt. rewrite (Hover Hlt). split; reflexivity.
  - split.
    + intros Hn.
      destruct (Qclt_le_dec (gross (total c)) balance) as [Hlt | Hle].
      * rewrite (Hover Hlt) in Hn. simpl in Hn. exfalso.
        exact (Qclt_not_le _ _ Hn (Qcle_refl 0)).
      * rewrite (Hunder Hle), Hdue in Hn. simpl in Hn.
        split; [exact (proj1 (difference_below_zero _ _) Hn) | exact Hle].
    + intros [Hn Hle]. rewrite (Hunder Hle), Hdue. simpl.
      exact (proj2 (difference_below_zero _ _) Hn).
Qed.

End Calculations.

(** ** A sample checkout *)

Definition sample_line_info : CheckoutLineInfo :=
  mkCheckoutLineInfo (mkCheckoutLine 1 5 zero_taxed_money zero_taxed_money).

(** Prices computed before the catalogue changed; they expire at 1000. *)
Definition sample_checkout : Checkout :=
  mkCheckout "USD" 1000
             (mkTaxedMoney (dec 9000 100) (dec 11070 100))
             (mkTaxedMoney (dec 8000 100) (dec 9840 100))
             (mkTaxedMoney (dec 1000 100) (dec 1230 100)).

Definition sample_database : Database :=
  mkDatabase sample_checkout [line sample_line_info].

(** Plugins pricing the line at 100.00 / 123.00, shipping at 10.00 / 12.30. *)
Definition sample_manager : PluginsManager unit unit :=
  mkPluginsManager
    (fun _ _ _ _ _ => Ok (mkTaxedMoney (dec 10000 100) (dec 12300 100)))
    (fun t q _ _ _ _ _ => taxed_div_int t q)
    (fun _ _ _ _ => Ok (mkTaxedMoney (dec 1000 100) (dec 1230 100)))
    (fun _ _ _ _ => Ok (mkTaxedMoney (dec 10000 100) (dec 12300 100)))
    (fun _ _ _ _ => Ok (mkTaxedMoney (dec 11000 100) (dec 13530 100)))
    (fun _ => Ok None).

Definition two_decimal_places (_ : string) : nat := 2.

Definition one_hour : Z := 3600.

Definition sample_checkout_fetch (force_update : bool) (now : Z) :=
  fetch_checkout_prices_if_expired two_decimal_places one_hour
    (mkCheckoutInfo sample_checkout) sample_manager [sample_line_info] None None
    force_update now now sample_database.

(** At time 2000 the prices of the sample checkout have been expired for
    1000 seconds; the call without [force_update] returns them as they are. *)
Lemma expired_checkout_is_returned_unchanged_witness :
  (price_expiration sample_checkout < 2000)%Z
  /\ sample_checkout_fetch false 2000 = Ok (sample_checkout, [sample_line_info], sample_database).
Proof.
  assert (H : (price_expiration (checkout (mkCheckoutInfo sample_checkout)) < 2000)%Z)
    by (simpl; lia).
  split; [exact H|].
  exact (@expired_checkout_is_returned_unchanged
           unit unit two_decimal_places one_hour
           (mkCheckoutInfo sample_checkout) sample_manager [sample_line_info] None None
           2000%Z 2000%Z sample_database H).
Defined.

(** At time 500 they are still valid for 500 seconds, and the same call
    recalculates and saves them. *)
Lemma valid_checkout_is_recalculated :
  exists c ls db,
    sample_checkout_fetch false 500 = Ok (c, ls, db)
    /\ total c = mkTaxedMoney (dec 11000 100) (dec 13530 100)
    /\ price_expiration c = 4100%Z
    /\ db_checkout db = c.
Proof.
  returns_value (sample_checkout_fetch false 500).
  split; [vm_compute; reflexivity|].
  repeat split.
Qed.

Definition fixed_balance (b : Decimal) (_ : Checkout) : Decimal := b.

Definition sample_total_with_gift_cards (balance : Decimal) :=
  calculate_checkout_total_with_gift_cards two_decimal_places one_hour
    (fixed_balance balance) sample_manager (mkCheckoutInfo sample_checkout)
    [sample_line_info] None None 500 500 sample_database.

(** Gift cards worth 150.00 against a total of 110.00 / 135.30: nothing is
    left to pay. *)
Lemma total_with_gift_cards_is_clamped_on_the_gross_amount_witness :
  exists r st,
    sample_total_with_gift_cards (dec 15000 100) = Ok (r, st)
    /\ net r = 0%Qc /\ gross r = 0%Qc.
Proof.
  assert (E : exists c ls db, sample_checkout_fetch false 500 = Ok (c, ls, db)
                              /\ total c = mkTaxedMoney (dec 11000 100) (dec 13530 100)).
  { returns_value (sample_checkout_fetch false 500).
    split; [vm_compute; reflexivity | reflexivity]. }
  destruct E as [c [ls [db [E Ht]]]].
  destruct (@total_with_gift_cards_is_clamped_on_the_gross_amount
              unit unit two_decimal_places one_hour (fixed_balance (dec 15000 100))
              sample_manager (mkCheckoutInfo sample_checkout) [sample_line_info]
              None None 500%Z 500%Z sample_database c ls db E)
    as [r [Hr [_ [Hover _]]]].
  exists r, (c, ls, db).
  split; [exact Hr|].
  apply Hover. unfold fixed_balance. rewrite Ht. simpl.
  vm_compute. reflexivity.
Defined.

(** C10, as stated, fails: with gift cards worth 115.00, between the net and
    the gross total, the gross amount left is 20.30 and the result is the
    plain difference, whose net amount is -5.00: the returned [TaxedMoney]
    has a negative component. *)
Lemma gift_cards_between_net_and_gross_total :
  exists r st,
    sample_total_with_gift_cards (dec 11500 100) = Ok (r, st)
    /\ r = mkTaxedMoney (dec (-500) 100) (dec 2030 100)
    /\ (net r < 0)%Qc.
Proof.
  let v := eval vm_compute in (sample_total_with_gift_cards (dec 11500 100)) in
  lazymatch v with
  | Ok (?r, ?st) => exists r, st
  end.
  split; [vm_compute; reflexivity|]. split; [qc_closed|].
  vm_compute. reflexivity.
Qed.

End CheckoutCalculations.

(** * Quantization to the currency's precision *)

Module Quantization.

Import CheckoutCalculations.
Local Open Scope Q_scope.

(** The power of ten [decimal_quantize] scales by. *)
Definition scale (places : nat) : Q := inject_Z (10 ^ Z.of_nat places).

Lemma scale_pos : forall p, 0 < scale p.
Proof.
  intros p. unfold scale. change 0 with (inject_Z 0). rewrite <- Zlt_Qlt.
  apply Z.pow_pos_nonneg; lia.
Qed.

Lemma scale_nonzero : forall p, ~ scale p == 0.
Proof.
  intros p E. pose proof (scale_pos p) as H. rewrite E in H. apply (Qlt_irrefl 0 H).
Qed.

Lemma round_half_up_comp : forall p q, p == q -> round_half_up p = round_half_up q.
Proof.
  intros p q H. unfold round_half_up.
  assert (E : Qle_bool 0 p = Qle_bool 0 q).
  { apply eq_true_iff_eq. rewrite !Qle_bool_iff, H. reflexivity. }
  rewrite E. destruct (Qle_bool 0 q).
  - apply Qfloor_comp. rewrite H. reflexivity.
  - f_equal. apply Qfloor_comp. rewrite H. reflexivity.
Qed.

Lemma Qfloor_half : forall k : Z, Qfloor (inject_Z k + (1 # 2)) = k.
Proof.
  intros k. apply Z.le_antisymm.
  - apply Z.lt_succ_r. rewrite Zlt_Qlt.
    apply Qle_lt_trans with (inject_Z k + (1 # 2)); [apply Qfloor_le|].
    unfold Z.succ. rewrite inject_Z_plus. change (inject_Z 1) with 1. lra.
  - rewrite <- (Qfloor_Z k) at 1. apply Qfloor_resp_le. lra.
Qed.

Lemma round_half_up_Z : forall k : Z, round_half_up (inject_Z k) = k.
Proof.
  intros k. unfold round_half_up.
  destruct (Qle_bool 0 (inject_Z k)).
  - apply Qfloor_half.
  - assert (E : - inject_Z k + (1 # 2) == inject_Z (- k) + (1 # 2))
      by (rewrite inject_Z_opp; reflexivity).
    rewrite (Qfloor_comp _ _ E), Qfloor_half. lia.
Qed.

Lemma round_half_up_close : forall q,
  inject_Z (round_half_up q) - (1 # 2) <= q /\ q <= inject_Z (round_half_up q) + (1 # 2).
Proof.
  intros q. unfold round_half_up.
  destruct (Qle_bool 0 q).
  - pose proof (Qfloor_le (q + (1 # 2))) as Hl.
    pose proof (Qlt_floor (q + (1 # 2))) as Hu.
    rewrite inject_Z_plus in Hu. change (inject_Z 1) with 1 in Hu. split; lra.
  - pose proof (Qfloor_le (- q + (1 # 2))) as Hl.
    pose proof (Qlt_floor (- q + (1 # 2))) as Hu.
    rewrite inject_Z_plus in Hu. change (inject_Z 1) with 1 in Hu.
    rewrite inject_Z_opp. split; lra.
Qed.

Lemma decimal_quantize_value : forall a p,
  this (decimal_quantize a p) == inject_Z (round_half_up (this a * scale p)) / scale p.
Proof.
  intros a p. unfold decimal_quantize. fold (scale p).
  cbn [this Q2Qc]. apply Qred_correct.
Qed.

Lemma decimal_quantize_scaled : forall a p,
  this (decimal_quantize a p) * scale p == inject_Z (round_half_up (this a * scale p)).
Proof.
  intros a p. rewrite decimal_quantize_value. field. apply scale_nonzero.
Qed.

(** Quantizing twice is quantizing once. *)
Lemma decimal_quantize_idempotent : forall a p,
  decimal_quantize (decimal_quantize a p) p = decimal_quantize a p.
Proof.
  intros a p. unfold decimal_quantize at 1. fold (scale p).
  rewrite (round_half_up_comp (decimal_quantize_scaled a p)), round_half_up_Z.
  reflexivity.
Qed.

(** Half of the smallest amount representable with [places] decimals. *)
Definition half_unit (places : nat) : Q := (1 # 2) / scale places.

Lemma decimal_quantize_within_half_unit : forall a p,
  this a - half_unit p <= this (decimal_quantize a p)
  /\ this (decimal_quantize a p) <= this a + half_unit p.
Proof.
  intros a p. rewrite decimal_quantize_value. unfold half_unit.
  pose proof (scale_pos p) as Hs. pose proof (@scale_nonzero p) as Hn.
  destruct (round_half_up_close (this a * scale p)) as [Hl Hu].
  split.
  - apply Qle_shift_div_l; [exact Hs|].
    assert (E : (this a - (1 # 2) / scale p) * scale p == this a * scale p - (1 # 2))
      by (field; exact Hn).
    rewrite E. lra.
  - apply Qle_shift_div_r; [exact Hs|].
    assert (E : (this a + (1 # 2) / scale p) * scale p == this a * scale p + (1 # 2))
      by (field; exact Hn).
    rewrite E. lra.
Qed.

End Quantization.

(** * Checkouts: the remaining functions and their properties *)

Unset Implicit Arguments.

Module CheckoutProperties.

Import CheckoutCalculations.

(** What a query on [checkout.lines] can raise besides what the
    recalculation raises. *)
Inductive query_exn : Type :=
| Propagated (e : exn)
| DoesNotExist
| MultipleObjectsReturned.

(** [checkout.lines.get(pk=...)] on the rows of the checkout's lines. *)
Definition lines_get (db : Database) (pk : Z) : CheckoutLine + query_exn :=
  match filter (fun row => (id row =? pk)%Z) (db_lines db) with
  | [] => inr DoesNotExist
  | [row] => inl row
  | _ => inr MultipleObjectsReturned
  end.

Section Properties.

Variable Address : Type.
Variable DiscountInfo : Type.
Variable get_currency_precision : string -> nat.
Variable CHECKOUT_PRICES_TTL : Z.

(** The two address fields of [CheckoutInfo] that the line accessors read. *)
Variable shipping_address : CheckoutInfo -> option Address.
Variable billing_address : CheckoutInfo -> option Address.

Local Notation "'Manager'" := (PluginsManager Address DiscountInfo).

Local Notation "'fetch'" := (fetch_checkout_prices_if_expired get_currency_precision
                                                     CHECKOUT_PRICES_TTL).

Local Notation "'recalculate'" := (recalculate_checkout_prices get_currency_precision
                                                      CHECKOUT_PRICES_TTL).

(** [checkout_shipping_price] and [checkout_subtotal]. *)
Definition checkout_shipping_price
    (manager : Manager) (checkout_info : CheckoutInfo) (lines : list CheckoutLineInfo)
    (address : option Address) (discounts : option (list DiscountInfo))
    (now now_at_save : Z) (db : Database)
    : result (TaxedMoney * (Checkout * list CheckoutLineInfo * Database)) :=
  (st <- fetch checkout_info manager lines address discounts false now now_at_save db ;;
   let '(c, _, _) := st in Ok (shipping_price c, st))%result.

Definition checkout_subtotal
    (manager : Manager) (checkout_info : CheckoutInfo) (lines : list CheckoutLineInfo)
    (address : option Address) (discounts : option (list DiscountInfo))
    (now now_at_save : Z) (db : Database)
    : result (TaxedMoney * (Checkout * list CheckoutLineInfo * Database)) :=
  (st <- fetch checkout_info manager lines address discounts false now now_at_save db ;;
   let '(c, _, _) := st in Ok (subtotal c, st))%result.

(** [force_taxes_recalculation]: the forced call, whose value is dropped;
    the function returns [None], the model returns the rows it leaves. *)
Definition force_taxes_recalculation
    (checkout_info : CheckoutInfo) (manager : Manager) (lines : list CheckoutLineInfo)
    (address : option Address) (discounts : option (list DiscountInfo))
    (now now_at_save : Z) (db : Database)
    : result Database :=
  ('(_, _, db') <- fetch checkout_info manager lines address discounts true
                     now now_at_save db ;;
   Ok db')%result.

(** [checkout_info.shipping_address or checkout_info.billing_address]. *)
Definition address_of (checkout_info : CheckoutInfo) : option Address :=
  match shipping_address checkout_info with
  | Some a => Some a
  | None => billing_address checkout_info
  end.

(** [checkout_line_total] and [checkout_line_unit_price]: the line is read
    back from the rows of the returned checkout. *)
Definition checkout_line_total
    (manager : Manager) (checkout_info : CheckoutInfo) (lines : list CheckoutLineInfo)
    (checkout_line_info : CheckoutLineInfo)
    (discounts : list DiscountInfo) (now now_at_save : Z) (db : Database)
    : TaxedMoney + query_exn :=
  let address := address_of checkout_info in
  match fetch checkout_info manager lines address (Some discounts) false
              now now_at_save db with
  | Raise e => inr (Propagated e)
  | Ok (_, _, db') =>
      match lines_get db' (id (line checkout_line_info)) with
      | inl row => inl (total_price row)
      | inr e => inr e
      end
  end.

Definition checkout_line_unit_price
    (manager : Manager) (checkout_info : CheckoutInfo) (lines : list CheckoutLineInfo)
    (checkout_line_info : CheckoutLineInfo)
    (discounts : list DiscountInfo) (now now_at_save : Z) (db : Database)
    : TaxedMoney + query_exn :=
  let address := address_of checkout_info in
  match fetch checkout_info manager lines address (Some discounts) false
              now now_at_save db with
  | Raise e => inr (Propagated e)
  | Ok (_, _, db') =>
      match lines_get db' (id (line checkout_line_info)) with
      | inl row => inl (unit_price row)
      | inr e => inr e
      end
  end.

(** ** Quantized prices *)

Definition quantized (t : TaxedMoney) (currency : string) : Prop :=
  quantize_price get_currency_precision t currency = t.

Lemma quantize_price_idempotent : forall t currency,
  quantized (quantize_price get_currency_precision t currency) currency.
Proof.
  intros t currency. unfold quantized, quantize_price; simpl.
  rewrite !Quantization.decimal_quantize_idempotent. reflexivity.
Qed.

Lemma apply_tax_data_keeps_currency : forall c td,
  currency
    (set_shipping_price
       (set_subtotal
          (set_total c (create_quantized_taxed_money get_currency_precision c
                          (td_total_net_amount td) (td_total_gross_amount td)))
          (create_quantized_taxed_money get_currency_precision c
             (td_subtotal_net_amount td) (td_subtotal_gross_amount td)))
       (create_quantized_taxed_money get_currency_precision c
          (td_shipping_price_net_amount td) (td_shipping_price_gross_amount td))) =
  currency c.
Proof.
  reflexivity.
Qed.

(** The tax line the dict built from [tax_lines] holds for [key]. *)
Definition last_tax_line (tax_lines : list TaxLineData) (key : Z) : option TaxLineData :=
  find (fun t => (tl_id t =? key)%Z) (rev tax_lines).

Lemma last_tax_line_none : forall tax_lines key,
  last_tax_line tax_lines key = None <-> ~ In key (map tl_id tax_lines).
Proof.
  intros tax_lines key. unfold last_tax_line. split.
  - intros H Hin. apply in_map_iff in Hin. destruct Hin as [t [Ht Hin]].
    apply in_rev in Hin.
    apply (find_none _ _ H) in Hin. rewrite Ht, Z.eqb_refl in Hin. discriminate.
  - intros H. destruct (find _ (rev tax_lines)) as [t|] eqn:E; [|reflexivity].
    exfalso. apply H. apply find_some in E. destruct E as [Hin Heq].
    apply Z.eqb_eq in Heq. apply in_map_iff. exists t. split; [exact Heq|].
    apply in_rev. exact Hin.
Qed.



Lemma apply_tax_data_lines_missing : forall c lines tax_lines li,
  In li lines ->
  ~ In (id (line li)) (map tl_id tax_lines) ->
  _apply_tax_data_lines get_currency_precision c lines tax_lines = Raise KeyError.
Proof.
  intros c lines tax_lines li. induction lines as [|l lines IH]; intros Hin Hmiss.
  - destruct Hin.
  - simpl. unfold tax_lines_data_get. fold (last_tax_line tax_lines (id (line l))).
    destruct (last_tax_line tax_lines (id (line l))) as [t|] eqn:Et; simpl.
    + destruct Hin as [-> | Hin].
      * apply last_tax_line_none in Hmiss. congruence.
      * rewrite (IH Hin Hmiss). reflexivity.
    + reflexivity.
Qed.

(** Re-quantizing a quantized price changes nothing. *)
Theorem quantize_price_twice_is_once : forall t currency,
  quantize_price get_currency_precision
    (quantize_price get_currency_precision t currency) currency =
  quantize_price get_currency_precision t currency.
Proof.
  intros t currency. apply quantize_price_idempotent.
Qed.

(** Quantization moves the net and the gross amount by at most half of the
    currency's smallest unit. *)
Theorem quantize_price_within_half_unit : forall t currency,
  let q := quantize_price get_currency_precision t currency in
  let h := Quantization.half_unit (get_currency_precision currency) in
  (this (net t) - h <= this (net q) /\ this (net q) <= this (net t) + h)%Q
  /\ (this (gross t) - h <= this (gross q) /\ this (gross q) <= this (gross t) + h)%Q.
Proof.
  intros t currency. simpl. split; apply Quantization.decimal_quantize_within_half_unit.
Qed.

(** [_apply_tax_data] raises [KeyError] as soon as one line's id is missing
    from the tax data. *)
Theorem checkout_tax_data_without_line_raises_key_error : forall c lines td li,
  In li lines ->
  ~ In (id (line li)) (map tl_id (td_lines td)) ->
  _apply_tax_data get_currency_precision c lines td = Raise KeyError.
Proof.
  intros c lines td li Hin Hmiss. unfold _apply_tax_data.
  rewrite (apply_tax_data_lines_missing _ _ _ _ Hin Hmiss). reflexivity.
Qed.


(** ** The plugin phase *)

Definition same_line_identity (a b : CheckoutLineInfo) : Prop :=
  id (line b) = id (line a) /\ quantity (line b) = quantity (line a).

Lemma plugins_lines_identity : forall (manager : Manager) ci todo done address discounts lines',
  _apply_tax_data_from_plugins_lines manager ci done todo address discounts = Ok lines' ->
  exists priced, lines' = done ++ priced /\ Forall2 same_line_identity todo priced.
Proof.
  intros manager ci todo. induction todo as [|li todo IH];
    intros done address discounts lines' H; simpl in H.
  - inversion H; subst. exists []. rewrite app_nil_r. split; [reflexivity | constructor].
  - unfold bind in H.
    destruct (calculate_checkout_line_total _ _ _ _ _ _) as [t|]; [|discriminate].
    destruct (calculate_checkout_line_unit_price _ _ _ _ _ _ _ _) as [u|]; [|discriminate].
    destruct (IH _ _ _ _ H) as [priced [E Hf]].
    exists (set_line_unit_price (set_line_total_price li t) u :: priced).
    split.
    + rewrite E, <- app_assoc. reflexivity.
    + constructor; [split; reflexivity | exact Hf].
Qed.

Lemma plugins_identity : forall c (manager : Manager) lines address discounts c' lines',
  _apply_tax_data_from_plugins c manager lines address discounts = Ok (c', lines') ->
  Forall2 same_line_identity lines lines'
  /\ currency c' = currency c /\ price_expiration c' = price_expiration c.
Proof.
  intros c manager lines address discounts c' lines'.
  unfold _apply_tax_data_from_plugins, bind.
  destruct (_apply_tax_data_from_plugins_lines _ _ _ _ _ _) as [ls|] eqn:E; [|discriminate].
  destruct (calculate_checkout_shipping _ _ _ _ _) as [s|]; [|discriminate].
  destruct (calculate_checkout_subtotal _ _ _ _ _) as [st|]; [|discriminate].
  destruct (calculate_checkout_total _ _ _ _ _) as [t|]; [|discriminate].
  intros H; inversion H; subst; clear H.
  destruct (plugins_lines_identity _ _ _ _ _ _ _ E) as [priced [Ep Hf]].
  simpl in Ep. subst. repeat split. exact Hf.
Qed.

Lemma same_identity_ids : forall ls ls',
  Forall2 same_line_identity ls ls' ->
  map (fun li => id (line li)) ls' = map (fun li => id (line li)) ls.
Proof.
  intros ls ls' H. induction H as [|a b ls ls' [Hid _] _ IH]; simpl;
    [reflexivity | rewrite Hid, IH; reflexivity].
Qed.

(** The plugin phase catches nothing: when the manager raises on the first
    line's total, [_apply_tax_data_from_plugins] raises the same exception,
    and so does [fetch_checkout_prices_if_expired] (forced, or with prices
    that have not expired): the exception leaves the call from its first
    statement past the gate, ahead of [checkout.save] and [bulk_update]. *)
Theorem checkout_manager_error_is_not_caught :
  forall (manager : Manager) checkout_info li lines address discounts force_update
         now now_at_save db e,
    force_update = true \/ (now <= price_expiration (checkout checkout_info))%Z ->
    calculate_checkout_line_total manager (mkCheckoutInfo (checkout checkout_info))
      (li :: lines) li address (discounts_or_empty discounts) = Raise e ->
    _apply_tax_data_from_plugins (checkout checkout_info) manager (li :: lines)
                                 address discounts = Raise e
    /\ fetch_checkout_prices_if_expired get_currency_precision CHECKOUT_PRICES_TTL
         checkout_info manager (li :: lines) address discounts force_update
         now now_at_save db = Raise e.
Proof.
  intros manager checkout_info li lines address discounts force_update now now_at_save db e
         Hrun Hraise.
  assert (E : _apply_tax_data_from_plugins (checkout checkout_info) manager (li :: lines)
                                           address discounts = Raise e).
  { unfold _apply_tax_data_from_plugins. simpl. rewrite Hraise. reflexivity. }
  split; [exact E|].
  rewrite unexpired_or_forced_checkout_is_recalculated by exact Hrun.
  unfold recalculate_checkout_prices. rewrite E. reflexivity.
Qed.

(** ** Recalculation and the rows *)

Lemma apply_tax_data_lines_identity : forall c lines tax_lines lines',
  _apply_tax_data_lines get_currency_precision c lines tax_lines = Ok lines' ->
  Forall2 same_line_identity lines lines'.
Proof.
  intros c lines tax_lines. induction lines as [|li lines IH]; intros lines' H; simpl in H.
  - inversion H; constructor.
  - unfold bind in H.
    destruct (tax_lines_data_get tax_lines (id (line li))) as [t|]; [|discriminate].
    destruct (_apply_tax_data_lines _ c lines tax_lines) as [rest|]; [|discriminate].
    inversion H; subst. constructor; [split; reflexivity | apply IH; reflexivity].
Qed.

Lemma same_identity_trans : forall a b c,
  Forall2 same_line_identity a b -> Forall2 same_line_identity b c ->
  Forall2 same_line_identity a c.
Proof.
  intros a b c H. revert c. induction H as [|x y a b [Hi Hq] _ IH]; intros c Hc.
  - inversion Hc; constructor.
  - inversion Hc as [|y' z b' c' [Hi' Hq'] Hrest]; subst.
    constructor; [split; congruence | apply IH; exact Hrest].
Qed.

Lemma same_identity_refl : forall a, Forall2 same_line_identity a a.
Proof.
  induction a; constructor; [split; reflexivity | assumption].
Qed.

(** The shape of a successful recalculation. *)
Lemma recalculate_shape :
  forall c (manager : Manager) lines address discounts now db c' lines' db',
    recalculate c manager lines address discounts now db = Ok (c', lines', db') ->
    exists c2,
      c' = set_price_expiration c2 (now + CHECKOUT_PRICES_TTL)
      /\ currency c2 = currency c
      /\ db' = bulk_update (map line lines') (save c' db)
      /\ Forall2 same_line_identity lines lines'
      /\ exists c1 lines1 tax_data,
           _apply_tax_data_from_plugins c manager lines address discounts = Ok (c1, lines1)
           /\ get_taxes_for_checkout manager c1 = Ok tax_data
           /\ currency c1 = currency c
           /\ match tax_data with
              | Some td =>
                  _apply_tax_data get_currency_precision c1 lines1 td = Ok (c2, lines')
              | None => c2 = c1 /\ lines' = lines1
              end.
Proof.
  intros c manager lines address discounts now db c' lines' db'.
  unfold recalculate_checkout_prices, bind.
  destruct (_apply_tax_data_from_plugins c manager lines address discounts)
    as [[c1 lines1]|] eqn:Ep; [|discriminate].
  destruct (plugins_identity _ _ _ _ _ _ _ Ep) as [Hid1 [Hc1 _]].
  destruct (get_taxes_for_checkout manager c1) as [tax_data|] eqn:Et; [|discriminate].
  destruct tax_data as [td|].
  - destruct (_apply_tax_data get_currency_precision c1 lines1 td) as [[c2 lines2]|] eqn:Ea;
      [|discriminate].
    intros H; inversion H; subst; clear H.
    exists c2.
    assert (Hshape : currency c2 = currency c1 /\ Forall2 same_line_identity lines1 lines').
    { unfold _apply_tax_data, bind in Ea.
      destruct (_apply_tax_data_lines _ _ lines1 (td_lines td)) as [ls|] eqn:El;
        [|discriminate].
      inversion Ea; subst. split; [reflexivity|].
      exact (apply_tax_data_lines_identity _ _ _ _ El). }
    destruct Hshape as [Hc2 Hid2].
    repeat split; try reflexivity; try congruence.
    + exact (same_identity_trans _ _ _ Hid1 Hid2).
    + exists c1, lines1, (Some td).
      split; [reflexivity|]. split; [exact Et|]. split; [exact Hc1 | exact Ea].
  - intros H; inversion H; subst; clear H.
    exists c1. repeat split; try reflexivity; try assumption.
    exists c1, lines', None.
    split; [reflexivity|]. split; [exact Et|]. split; [exact Hc1|].
    split; reflexivity.
Qed.

(** After a recalculation the checkout expires [CHECKOUT_PRICES_TTL] after
    the time of saving; the checkout's row carries the returned total,
    subtotal, shipping price and expiration and keeps its currency; the rows
    of the lines are the same in number, ids and quantities, and so are the
    returned lines. *)
Theorem checkout_recalculation_is_saved :
  forall (manager : Manager) checkout_info lines address discounts force_update
         now now_at_save db c' lines' db',
    force_update = true \/ (now <= price_expiration (checkout checkout_info))%Z ->
    fetch checkout_info manager lines address discounts force_update now now_at_save db =
    Ok (c', lines', db') ->
    price_expiration c' = (now_at_save + CHECKOUT_PRICES_TTL)%Z
    /\ currency c' = currency (checkout checkout_info)
    /\ total (db_checkout db') = total c'
    /\ subtotal (db_checkout db') = subtotal c'
    /\ shipping_price (db_checkout db') = shipping_price c'
    /\ price_expiration (db_checkout db') = price_expiration c'
    /\ currency (db_checkout db') = currency (db_checkout db)
    /\ map id (db_lines db') = map id (db_lines db)
    /\ map quantity (db_lines db') = map quantity (db_lines db)
    /\ Forall2 same_line_identity lines lines'.
Proof.
  intros manager checkout_info lines address discounts force_update now now_at_save db
         c' lines' db' Hrun H.
  rewrite unexpired_or_forced_checkout_is_recalculated in H by exact Hrun.
  destruct (recalculate_shape _ _ _ _ _ _ _ _ _ _ H) as [c2 [Hc [Hcur [Hdb [Hid _]]]]].
  subst c' db'. simpl.
  repeat split; try reflexivity; try assumption.
  - rewrite map_map. apply map_ext. intros row.
    destruct (find _ (map line lines')); reflexivity.
  - rewrite map_map. apply map_ext. intros row.
    destruct (find _ (map line lines')); reflexivity.
Qed.

(** The tax app is asked once, about the checkout as the plugins left it.
    When that call answers with tax data, the recalculated checkout carries
    the tax data's total, subtotal and shipping price, quantized to the
    checkout's currency, whatever the plugins had computed. *)
Theorem checkout_tax_app_prices_replace_plugin_prices :
  forall (manager : Manager) checkout_info lines address discounts force_update
         now now_at_save db c_p lines_p td c' lines' db',
    force_update = true \/ (now <= price_expiration (checkout checkout_info))%Z ->
    _apply_tax_data_from_plugins (checkout checkout_info) manager lines address discounts =
    Ok (c_p, lines_p) ->
    get_taxes_for_checkout manager c_p = Ok (Some td) ->
    fetch checkout_info manager lines address discounts force_update now now_at_save db =
    Ok (c', lines', db') ->
    let cur := currency (checkout checkout_info) in
    total c' = quantize_price get_currency_precision
                 (mkTaxedMoney (td_total_net_amount td) (td_total_gross_amount td)) cur
    /\ subtotal c' = quantize_price get_currency_precision
                       (mkTaxedMoney (td_subtotal_net_amount td)
                                     (td_subtotal_gross_amount td)) cur
    /\ shipping_price c' =
       quantize_price get_currency_precision
         (mkTaxedMoney (td_shipping_price_net_amount td)
                       (td_shipping_price_gross_amount td)) cur
    /\ Forall (fun li => quantized (unit_price (line li)) cur
                         /\ quantized (total_price (line li)) cur) lines'.
Proof.
  intros manager checkout_info lines address discounts force_update now now_at_save db
         c_p lines_p td c' lines' db' Hrun Hp Htd H cur.
  rewrite unexpired_or_forced_checkout_is_recalculated in H by exact Hrun.
  destruct (recalculate_shape _ _ _ _ _ _ _ _ _ _ H)
    as [c2 [Hc [_ [_ [_ [c1 [lines1 [tax_data [Ep [Et [Hc1 Ea]]]]]]]]]]].
  rewrite Hp in Ep. inversion Ep; subst c1 lines1. clear Ep.
  rewrite Htd in Et. inversion Et; subst tax_data. clear Et.
  rename lines_p into lines1.
  subst c'. unfold cur. rewrite <- Hc1. clear H Hp Htd.
  unfold _apply_tax_data, bind in Ea.
  destruct (_apply_tax_data_lines _ _ lines1 (td_lines td)) as [ls|] eqn:El; [|discriminate].
  inversion Ea; subst; clear Ea. simpl.
  repeat split.
  clear - El. revert lines' El.
  induction lines1 as [|li lines1 IH]; intros ls El; simpl in El.
  - inversion El; constructor.
  - unfold bind in El.
    destruct (tax_lines_data_get (td_lines td) (id (line li))) as [t|]; [|discriminate].
    destruct (_apply_tax_data_lines _ _ lines1 (td_lines td)) as [rest|] eqn:Er;
      [|discriminate].
    inversion El; subst; clear El.
    constructor; [|apply IH; reflexivity].
    simpl. split; apply quantize_price_idempotent.
Qed.

(** ** Reading a line back *)

Lemma find_unique_id : forall (ls : list CheckoutLine) x,
  NoDup (map id ls) -> In x ls ->
  find (fun l => (id l =? id x)%Z) ls = Some x.
Proof.
  induction ls as [|l ls IH]; intros x Hnd Hin; [destruct Hin|].
  simpl in *. inversion Hnd as [|? ? Hnotin Hnd']; subst.
  destruct Hin as [-> | Hin].
  - rewrite Z.eqb_refl. reflexivity.
  - destruct (Z.eqb_spec (id l) (id x)) as [E|_].
    + exfalso. apply Hnotin. rewrite E. apply in_map. exact Hin.
    + apply IH; assumption.
Qed.

Lemma filter_bulk_update : forall lines rows pk,
  filter (fun row => (id row =? pk)%Z)
         (map (fun row =>
                 match find (fun l => (id l =? id row)%Z) lines with
                 | Some l => mkCheckoutLine (id row) (quantity row) (unit_price l)
                                            (total_price l)
                 | None => row
                 end) rows) =
  map (fun row =>
         match find (fun l => (id l =? id row)%Z) lines with
         | Some l => mkCheckoutLine (id row) (quantity row) (unit_price l) (total_price l)
         | None => row
         end)
      (filter (fun row => (id row =? pk)%Z) rows).
Proof.
  intros lines rows pk. induction rows as [|r rows IH]; simpl; [reflexivity|].
  assert (E : id (match find (fun l => (id l =? id r)%Z) lines with
                  | Some l => mkCheckoutLine (id r) (quantity r) (unit_price l)
                                             (total_price l)
                  | None => r
                  end) = id r)
    by (destruct (find _ lines); reflexivity).
  rewrite E. destruct (id r =? pk)%Z; simpl; rewrite IH; reflexivity.
Qed.

(** [checkout_line_total] after a recalculation: when the line ids are
    distinct and the line has exactly one row, the price read back from the
    rows is the total price of the returned line with that id. *)
Theorem checkout_line_total_is_the_recalculated_total :
  forall (manager : Manager) checkout_info lines li discounts now now_at_save db
         c' lines' db' li',
    (now <= price_expiration (checkout checkout_info))%Z ->
    fetch checkout_info manager lines (address_of checkout_info) (Some discounts) false
          now now_at_save db =
    Ok (c', lines', db') ->
    NoDup (map (fun l => id (line l)) lines) ->
    In li' lines' ->
    id (line li') = id (line li) ->
    (exists row, filter (fun r => (id r =? id (line li))%Z) (db_lines db) = [row]) ->
    checkout_line_total manager checkout_info lines li discounts now now_at_save db =
    inl (total_price (line li')).
Proof.
  intros manager checkout_info lines li discounts now now_at_save db
         c' lines' db' li' Hnow H Hnd Hin Hid [row Hrow].
  unfold checkout_line_total. cbv zeta. rewrite H.
  rewrite unexpired_or_forced_checkout_is_recalculated in H by (right; exact Hnow).
  destruct (recalculate_shape _ _ _ _ _ _ _ _ _ _ H) as [c2 [_ [_ [Hdb [Hids _]]]]].
  subst db'. unfold lines_get, bulk_update. cbn [db_lines save].
  rewrite filter_bulk_update, Hrow. cbn [map].
  assert (Hrid : id row = id (line li)).
  { assert (Hr : In row (filter (fun r => (id r =? id (line li))%Z) (db_lines db)))
      by (rewrite Hrow; left; reflexivity).
    apply filter_In in Hr. destruct Hr as [_ Hr]. apply Z.eqb_eq. exact Hr. }
  assert (Hnd' : NoDup (map id (map line lines'))).
  { rewrite map_map, (same_identity_ids _ _ Hids). exact Hnd. }
  assert (Hfind : find (fun l => (id l =? id row)%Z) (map line lines') = Some (line li')).
  { rewrite Hrid, <- Hid. apply find_unique_id; [exact Hnd' | apply in_map; exact Hin]. }
  rewrite Hfind. reflexivity.
Qed.

(** Without a row for the line, [checkout_line_total] raises [DoesNotExist],
    also when the line was priced. *)
Theorem checkout_line_total_without_row_does_not_exist :
  forall (manager : Manager) checkout_info lines li discounts now now_at_save db
         c' lines' db',
    fetch checkout_info manager lines (address_of checkout_info) (Some discounts) false
          now now_at_save db =
    Ok (c', lines', db') ->
    ~ In (id (line li)) (map id (db_lines db)) ->
    checkout_line_total manager checkout_info lines li discounts now now_at_save db =
    inr DoesNotExist.
Proof.
  intros manager checkout_info lines li discounts now now_at_save db c' lines' db'
         H Hmiss.
  unfold checkout_line_total. cbv zeta. rewrite H.
  assert (Hrows : map id (db_lines db') = map id (db_lines db)).
  { unfold fetch_checkout_prices_if_expired in H.
    destruct (negb false && _) eqn:Eg.
    - inversion H; reflexivity.
    - destruct (recalculate_shape _ _ _ _ _ _ _ _ _ _ H) as [c2 [_ [_ [Hdb _]]]].
      subst db'. simpl. rewrite map_map. apply map_ext. intros r.
      destruct (find _ (map line lines')); reflexivity. }
  unfold lines_get.
  assert (E : filter (fun row => (id row =? id (line li))%Z) (db_lines db') = []).
  { rewrite <- Hrows in Hmiss. clear - Hmiss.
    induction (db_lines db') as [|r rows IH]; simpl in *; [reflexivity|].
    destruct (Z.eqb_spec (id r) (id (line li))) as [E|_].
    - exfalso. apply Hmiss. left. exact E.
    - apply IH. intros Hin. apply Hmiss. right. exact Hin. }
  rewrite E. reflexivity.
Qed.

(** [force_taxes_recalculation] takes no account of the expiration: its
    outcome is the same whatever the clock reads at the gate, and whenever it
    returns, the prices were recalculated and the checkout's row carries the
    recalculated total, subtotal and shipping price and an expiration
    [CHECKOUT_PRICES_TTL] after the time of saving, while the rows of the
    lines keep their ids and quantities. *)
Theorem force_taxes_recalculation_ignores_the_expiration :
  forall (manager : Manager) checkout_info lines address discounts now now_at_save db,
    (forall now',
       force_taxes_recalculation checkout_info manager lines address discounts
         now' now_at_save db =
       force_taxes_recalculation checkout_info manager lines address discounts
         now now_at_save db)
    /\ (forall db',
          force_taxes_recalculation checkout_info manager lines address discounts
            now now_at_save db = Ok db' ->
          exists c' lines',
            recalculate (checkout checkout_info) manager lines address discounts
                        now_at_save db = Ok (c', lines', db')
            /\ price_expiration (db_checkout db') = (now_at_save + CHECKOUT_PRICES_TTL)%Z
            /\ total (db_checkout db') = total c'
            /\ subtotal (db_checkout db') = subtotal c'
            /\ shipping_price (db_checkout db') = shipping_price c'
            /\ map id (db_lines db') = map id (db_lines db)
            /\ map quantity (db_lines db') = map quantity (db_lines db)).
Proof.
  intros manager checkout_info lines address discounts now now_at_save db.
  unfold force_taxes_recalculation.
  split.
  - intros now'.
    rewrite !unexpired_or_forced_checkout_is_recalculated by (left; reflexivity).
    reflexivity.
  - intros db' H.
    rewrite unexpired_or_forced_checkout_is_recalculated in H by (left; reflexivity).
    unfold bind in H.
    destruct (recalculate (checkout checkout_info) manager lines address discounts
                          now_at_save db) as [[[c' lines'] db1]|] eqn:E; [|discriminate].
    inversion H; subst db1; clear H.
    exists c', lines'. split; [reflexivity|].
    destruct (recalculate_shape _ _ _ _ _ _ _ _ _ _ E) as [c2 [Hc [_ [Hdb _]]]].
    subst c' db'. simpl.
    repeat split; try reflexivity.
    + rewrite map_map. apply map_ext. intros row.
      destruct (find _ (map line lines')); reflexivity.
    + rewrite map_map. apply map_ext. intros row.
      destruct (find _ (map line lines')); reflexivity.
Qed.

(** With prices that have expired, the accessors call no plugin and write
    nothing: [checkout_shipping_price] and [checkout_subtotal] return the
    prices the instance holds, and [checkout_line_unit_price] the unit price
    on the line's row. *)
Theorem expired_checkout_accessors_return_stored_prices :
  forall (manager : Manager) checkout_info lines li discounts' discounts
         address now now_at_save db row,
    (price_expiration (checkout checkout_info) < now)%Z ->
    filter (fun r => (id r =? id (line li))%Z) (db_lines db) = [row] ->
    checkout_shipping_price manager checkout_info lines address discounts' now now_at_save db =
    Ok (shipping_price (checkout checkout_info), (checkout checkout_info, lines, db))
    /\ checkout_subtotal manager checkout_info lines address discounts' now now_at_save db =
       Ok (subtotal (checkout checkout_info), (checkout checkout_info, lines, db))
    /\ checkout_line_unit_price manager checkout_info lines li discounts now now_at_save db =
       inl (unit_price row)
    /\ checkout_line_total manager checkout_info lines li discounts now now_at_save db =
       inl (total_price row).
Proof.
  intros manager checkout_info lines li discounts' discounts address now now_at_save db row
         Hexp Hrow.
  assert (Hgate : forall a ds,
             fetch checkout_info manager lines a ds false now now_at_save db =
             Ok (checkout checkout_info, lines, db)).
  { intros a ds. unfold fetch_checkout_prices_if_expired.
    apply Z.ltb_lt in Hexp. rewrite Hexp. reflexivity. }
  unfold checkout_shipping_price, checkout_subtotal, checkout_line_unit_price,
    checkout_line_total.
  cbv zeta. rewrite !Hgate. unfold lines_get. rewrite Hrow.
  repeat split; reflexivity.
Qed.

End Properties.

(** ** The sample checkout again *)

(** Tax data for the sample line, with amounts finer than a cent. *)
Definition sample_tax_line : TaxLineData :=
  mkTaxLineData 1 (dec 20001 1000) (dec 24605 1000) (dec 100004 1000) (dec 123005 1000).

Definition sample_tax_data (tax_lines : list TaxLineData) : TaxData :=
  mkTaxData (dec 110004 1000) (dec 135305 1000) (dec 100004 1000) (dec 123005 1000)
            (dec 10000 1000) (dec 12300 1000) tax_lines.

(** The sample plugins with a tax app answering [td]. *)
Definition tax_app_manager (td : TaxData) : PluginsManager unit unit :=
  mkPluginsManager
    (calculate_checkout_line_total sample_manager)
    (calculate_checkout_line_unit_price sample_manager)
    (calculate_checkout_shipping sample_manager)
    (calculate_checkout_subtotal sample_manager)
    (calculate_checkout_total sample_manager)
    (fun _ => Ok (Some td)).

(** Plugins whose line pricing raises [TaxError]. *)
Definition raising_manager : PluginsManager unit unit :=
  mkPluginsManager
    (fun _ _ _ _ _ => Raise TaxError)
    (calculate_checkout_line_unit_price sample_manager)
    (calculate_checkout_shipping sample_manager)
    (calculate_checkout_subtotal sample_manager)
    (calculate_checkout_total sample_manager)
    (fun _ => Ok None).

Definition sample_fetch_with (m : PluginsManager unit unit) (force_update : bool) :=
  fetch_checkout_prices_if_expired two_decimal_places one_hour
    (mkCheckoutInfo sample_checkout) m [sample_line_info] None (Some [])
    force_update 500 500 sample_database.

Lemma sample_prices_are_valid :
  (500 <= price_expiration (checkout (mkCheckoutInfo sample_checkout)))%Z.
Proof.
  simpl. lia.
Defined.

Lemma checkout_tax_data_without_line_raises_key_error_witness :
  _apply_tax_data two_decimal_places sample_checkout [sample_line_info]
                  (sample_tax_data []) = Raise KeyError.
Proof.
  apply (checkout_tax_data_without_line_raises_key_error
           two_decimal_places sample_checkout [sample_line_info] (sample_tax_data [])
           sample_line_info).
  - left. reflexivity.
  - simpl. intros [].
Defined.


Lemma checkout_manager_error_is_not_caught_witness :
  sample_fetch_with raising_manager true = Raise TaxError.
Proof.
  apply (checkout_manager_error_is_not_caught
           unit unit two_decimal_places one_hour raising_manager
           (mkCheckoutInfo sample_checkout) sample_line_info [] None (Some []) true
           500%Z 500%Z sample_database TaxError).
  - left. reflexivity.
  - reflexivity.
Defined.

Lemma checkout_recalculation_is_saved_witness :
  exists c' lines' db',
    sample_fetch_with sample_manager false = Ok (c', lines', db')
    /\ price_expiration c' = 4100%Z
    /\ total (db_checkout db') = total c'
    /\ price_expiration (db_checkout db') = price_expiration c'.
Proof.
  returns_value (sample_fetch_with sample_manager false).
  match goal with
  | |- ?call = Ok (?c, ?ls, ?db) /\ _ =>
      assert (E : call = Ok (c, ls, db)) by (vm_compute; reflexivity);
      destruct (checkout_recalculation_is_saved
                  unit unit two_decimal_places one_hour sample_manager
                  (mkCheckoutInfo sample_checkout) [sample_line_info] None (Some [])
                  false 500%Z 500%Z sample_database c ls db
                  (or_intror sample_prices_are_valid) E)
        as [He [_ [Ht [_ [_ [Hpe _]]]]]]
  end.
  split; [exact E|]. split; [exact He|]. split; [exact Ht | exact Hpe].
Defined.

Lemma checkout_tax_app_prices_replace_plugin_prices_witness :
  exists c' lines' db',
    sample_fetch_with (tax_app_manager (sample_tax_data [sample_tax_line])) false =
    Ok (c', lines', db')
    /\ total c' = quantize_price two_decimal_places
                    (mkTaxedMoney (dec 110004 1000) (dec 135305 1000)) "USD"
    /\ total c' = mkTaxedMoney (dec 11000 100) (dec 13531 100).
Proof.
  assert (Hp : exists c_p lines_p,
             _apply_tax_data_from_plugins sample_checkout
               (tax_app_manager (sample_tax_data [sample_tax_line]))
               [sample_line_info] None (Some []) = Ok (c_p, lines_p)).
  { eexists. eexists. vm_compute. reflexivity. }
  destruct Hp as [c_p [lines_p Hp]].
  returns_value
    (sample_fetch_with (tax_app_manager (sample_tax_data [sample_tax_line])) false).
  match goal with
  | |- ?call = Ok (?c, ?ls, ?db) /\ _ =>
      assert (E : call = Ok (c, ls, db)) by (vm_compute; reflexivity);
      destruct (checkout_tax_app_prices_replace_plugin_prices
                  unit unit two_decimal_places one_hour
                  (tax_app_manager (sample_tax_data [sample_tax_line]))
                  (mkCheckoutInfo sample_checkout) [sample_line_info] None (Some [])
                  false 500%Z 500%Z sample_database c_p lines_p
                  (sample_tax_data [sample_tax_line]) c ls db
                  (or_intror sample_prices_are_valid) Hp eq_refl E)
        as [Ht _]
  end.
  split; [exact E|]. split; [exact Ht|]. qc_closed.
Defined.

Definition no_address (_ : CheckoutInfo) : option unit := None.

Lemma checkout_line_total_is_the_recalculated_total_witness :
  checkout_line_total unit unit two_decimal_places one_hour no_address no_address
    sample_manager (mkCheckoutInfo sample_checkout) [sample_line_info] sample_line_info []
    500 500 sample_database =
  inl (mkTaxedMoney (dec 10000 100) (dec 12300 100)).
Proof.
  assert (E : exists c' li' db',
             sample_fetch_with sample_manager false = Ok (c', [li'], db')
             /\ id (line li') = id (line sample_line_info)
             /\ total_price (line li') = mkTaxedMoney (dec 10000 100) (dec 12300 100)).
  { let r := eval vm_compute in (sample_fetch_with sample_manager false) in
    lazymatch r with
    | Ok (?c, [?l], ?db) => exists c, l, db
    end.
    split; [vm_compute; reflexivity|]. split; reflexivity. }
  destruct E as [c' [li' [db' [E [Hid Ht]]]]].
  rewrite <- Ht.
  apply (checkout_line_total_is_the_recalculated_total
           unit unit two_decimal_places one_hour no_address no_address sample_manager
           (mkCheckoutInfo sample_checkout) [sample_line_info] sample_line_info []
           500%Z 500%Z sample_database c' [li'] db' li'
           sample_prices_are_valid E).
  - simpl. constructor; [intros [] | constructor].
  - left. reflexivity.
  - exact Hid.
  - exists (line sample_line_info). reflexivity.
Defined.

Definition unsaved_line_info : CheckoutLineInfo :=
  mkCheckoutLineInfo (mkCheckoutLine 9 1 zero_taxed_money zero_taxed_money).

Lemma checkout_line_total_without_row_does_not_exist_witness :
  checkout_line_total unit unit two_decimal_places one_hour no_address no_address
    sample_manager (mkCheckoutInfo sample_checkout) [sample_line_info; unsaved_line_info]
    unsaved_line_info [] 500 500 sample_database =
  inr DoesNotExist.
Proof.
  assert (E : exists st,
             fetch_checkout_prices_if_expired two_decimal_places one_hour
               (mkCheckoutInfo sample_checkout) sample_manager
               [sample_line_info; unsaved_line_info] None (Some []) false 500 500
               sample_database = Ok st).
  { eexists. vm_compute. reflexivity. }
  destruct E as [[[c' lines'] db'] E].
  apply (checkout_line_total_without_row_does_not_exist
           unit unit two_decimal_places one_hour no_address no_address sample_manager
           (mkCheckoutInfo sample_checkout) [sample_line_info; unsaved_line_info]
           unsaved_line_info [] 500%Z 500%Z sample_database c' lines' db' E).
  simpl. intros [H | []]. discriminate H.
Defined.

(** At time 2000 the prices of the sample checkout have expired; the forced
    recalculation renews them all the same. *)
Lemma force_taxes_recalculation_ignores_the_expiration_witness :
  exists db',
    force_taxes_recalculation unit unit two_decimal_places one_hour
      (mkCheckoutInfo sample_checkout) sample_manager [sample_line_info] None (Some [])
      2000 2000 sample_database = Ok db'
    /\ price_expiration (db_checkout db') = 5600%Z.
Proof.
  assert (E : exists db',
             force_taxes_recalculation unit unit two_decimal_places one_hour
               (mkCheckoutInfo sample_checkout) sample_manager [sample_line_info] None
               (Some []) 2000 2000 sample_database = Ok db').
  { eexists. vm_compute. reflexivity. }
  destruct E as [db' E].
  exists db'. split; [exact E|].
  destruct (force_taxes_recalculation_ignores_the_expiration
              unit unit two_decimal_places one_hour sample_manager
              (mkCheckoutInfo sample_checkout) [sample_line_info] None (Some [])
              2000%Z 2000%Z sample_database) as [_ Hok].
  destruct (Hok db' E) as [c' [lines' [_ [He _]]]].
  exact He.
Defined.

Lemma expired_checkout_accessors_return_stored_prices_witness :
  checkout_line_unit_price unit unit two_decimal_places one_hour no_address no_address
    sample_manager (mkCheckoutInfo sample_checkout) [sample_line_info] sample_line_info []
    2000 2000 sample_database =
  inl (unit_price (line sample_line_info)).
Proof.
  refine (proj1 (proj2 (proj2
            (expired_checkout_accessors_return_stored_prices
               unit unit two_decimal_places one_hour no_address no_address sample_manager
               (mkCheckoutInfo sample_checkout) [sample_line_info] sample_line_info
               (Some []) [] None 2000%Z 2000%Z sample_database (line sample_line_info)
               _ eq_refl)))).
  simpl. lia.
Defined.

End CheckoutProperties.

(** * Orders: the remaining functions and further properties *)

Module OrderProperties.

Import OrderCalculations.

Section Properties.

Variable ORDER_EDITABLE_STATUS : list OrderStatus.
Variable get_tax_calculation_strategy_for_order : Order -> TaxCalculationStrategy.
Variable get_charge_taxes_for_order : Order -> bool.
Variable normalize_tax_rate_for_db : Decimal -> Decimal.
Variable apply_order_discounts :
  Order -> list OrderLine -> World -> result (Order * list OrderLine * World).
Variable update_order_prices_with_flat_rates :
  Order -> list OrderLine -> bool -> result (Order * list OrderLine).
Variable get_currency_precision : string -> nat.

Local Notation "'fetch'" :=
  (fetch_order_prices_and_update_if_expired
     ORDER_EDITABLE_STATUS get_tax_calculation_strategy_for_order
     get_charge_taxes_for_order normalize_tax_rate_for_db
     apply_order_discounts update_order_prices_with_flat_rates).

Local Notation "'calculate_taxes'" :=
  (_calculate_taxes get_tax_calculation_strategy_for_order get_charge_taxes_for_order
                    normalize_tax_rate_for_db update_order_prices_with_flat_rates).

Local Notation "'quantize'" := (CheckoutCalculations.quantize_price get_currency_precision).

(** ** The accessors *)

(** [_find_order_line]: the first of [lines] with the primary key of
    [order_line], and [order_line] itself when there is none. *)
Definition _find_order_line (lines : option (list OrderLine)) (order_line : OrderLine)
    : OrderLine :=
  match find (fun l => (pk l =? pk order_line)%Z)
             (match lines with
              | Some ls => ls
              | None => []
              end) with
  | Some l => l
  | None => order_line
  end.

Definition order_line_unit
    (order : Order) (order_line : OrderLine) (manager : PluginsManager)
    (lines : option (list OrderLine)) (force_update : bool) (info : bool) (w : World)
    : result (OrderTaxedPricesData * World) :=
  let currency := currency order in
  ('(_, lines', w') <- fetch order manager lines force_update info w ;;
   let order_line' := _find_order_line lines' order_line in
   Ok (mkOrderTaxedPricesData
         (quantize (undiscounted_unit_price order_line') currency)
         (quantize (unit_price order_line') currency), w'))%result.

Definition order_line_total
    (order : Order) (order_line : OrderLine) (manager : PluginsManager)
    (lines : option (list OrderLine)) (force_update : bool) (info : bool) (w : World)
    : result (OrderTaxedPricesData * World) :=
  let currency := currency order in
  ('(_, lines', w') <- fetch order manager lines force_update info w ;;
   let order_line' := _find_order_line lines' order_line in
   Ok (mkOrderTaxedPricesData
         (quantize (undiscounted_total_price order_line') currency)
         (quantize (total_price order_line') currency), w'))%result.

Definition order_line_tax_rate
    (order : Order) (order_line : OrderLine) (manager : PluginsManager)
    (lines : option (list OrderLine)) (force_update : bool) (info : bool) (w : World)
    : result (option Decimal * World) :=
  ('(_, lines', w') <- fetch order manager lines force_update info w ;;
   Ok (tax_rate (_find_order_line lines' order_line), w'))%result.

Definition order_shipping
    (order : Order) (manager : PluginsManager) (lines : option (list OrderLine))
    (force_update : bool) (info : bool) (w : World) : result (TaxedMoney * World) :=
  let currency := currency order in
  ('(order', _, w') <- fetch order manager lines force_update info w ;;
   Ok (quantize (shipping_price order') currency, w'))%result.

Definition order_shipping_tax_rate
    (order : Order) (manager : PluginsManager) (lines : option (list OrderLine))
    (force_update : bool) (info : bool) (w : World) : result (option Decimal * World) :=
  ('(order', _, w') <- fetch order manager lines force_update info w ;;
   Ok (shipping_tax_rate order', w'))%result.

Definition order_total
    (order : Order) (manager : PluginsManager) (lines : option (list OrderLine))
    (force_update : bool) (info : bool) (w : World) : result (TaxedMoney * World) :=
  let currency := currency order in
  ('(order', _, w') <- fetch order manager lines force_update info w ;;
   Ok (quantize (total order') currency, w'))%result.

Definition order_undiscounted_total
    (order : Order) (manager : PluginsManager) (lines : option (list OrderLine))
    (force_update : bool) (info : bool) (w : World) : result (TaxedMoney * World) :=
  let currency := currency order in
  ('(order', _, w') <- fetch order manager lines force_update info w ;;
   Ok (quantize (undiscounted_total order') currency, w'))%result.

(** ** The voucher's discount record *)

Definition other_records (ds : list OrderDiscount) : list OrderDiscount :=
  filter (fun d => negb (DiscountType_eqb (discount_type d) VOUCHER)) ds.

Lemma other_records_app_voucher : forall ds d,
  discount_type d = VOUCHER -> other_records (ds ++ [d]) = other_records ds.
Proof.
  intros ds d Hd. unfold other_records. rewrite filter_app. simpl.
  rewrite Hd. simpl. apply app_nil_r.
Qed.

Lemma voucher_records_of_other_records : forall ds,
  voucher_records (other_records ds) = [].
Proof.
  induction ds as [|d ds IH]; simpl; [reflexivity|].
  destruct (DiscountType_eqb (discount_type d) VOUCHER) eqn:E; simpl; [exact IH|].
  rewrite E. exact IH.
Qed.

(** Without a voucher on the order, [_update_order_discount_for_voucher]
    leaves no voucher-type record and keeps every other record, in order. *)
Theorem order_without_voucher_loses_voucher_records : forall order w,
  voucher order = None ->
  voucher_records (db_discounts (_update_order_discount_for_voucher order w)) = []
  /\ db_discounts (_update_order_discount_for_voucher order w) =
     other_records (db_discounts w).
Proof.
  intros order w Hv. unfold _update_order_discount_for_voucher. rewrite Hv. simpl.
  split; [apply voucher_records_of_other_records | reflexivity].
Qed.

(** In every case [_update_order_discount_for_voucher] leaves the records
    that are not voucher-type as they were, makes the prefetched discounts the
    rows it leaves, and touches neither the order's row, nor the lines' rows,
    nor the lines loader. *)
Theorem voucher_resolution_keeps_other_records_and_refreshes_prefetch : forall order w,
  let w' := _update_order_discount_for_voucher order w in
  other_records (db_discounts w') = other_records (db_discounts w)
  /\ prefetched_discounts w' = Some (db_discounts w')
  /\ db_order w' = db_order w
  /\ db_lines w' = db_lines w
  /\ lines_loader_entry w' = lines_loader_entry w.
Proof.
  intros order w. unfold _update_order_discount_for_voucher. simpl.
  repeat split.
  destruct (voucher order) as [v|].
  - destruct (negb _); [|reflexivity].
    destruct (find _ (channel_listings v)); [|reflexivity].
    apply other_records_app_voucher. reflexivity.
  - unfold other_records. apply filter_idempotent.
Qed.

(** [_find_order_line] returns a line with the primary key asked for: one of
    [lines] when there is one, the first such, and the given line only when
    no line of [lines] has its key. *)
Theorem find_order_line_has_the_key : forall lines order_line,
  let found := _find_order_line lines order_line in
  pk found = pk order_line
  /\ ((exists ls before after,
         lines = Some ls /\ ls = before ++ found :: after
         /\ forall l, In l before -> pk l <> pk order_line)
      \/ (found = order_line
          /\ forall ls l, lines = Some ls -> In l ls -> pk l <> pk order_line)).
Proof.
  intros lines order_line. unfold _find_order_line. simpl.
  destruct lines as [ls|].
  - assert (H : forall ls,
               match find (fun l => (pk l =? pk order_line)%Z) ls with
               | Some l => pk l = pk order_line
                           /\ exists before after,
                                ls = before ++ l :: after
                                /\ forall x, In x before -> pk x <> pk order_line
               | None => forall l, In l ls -> pk l <> pk order_line
               end).
    { clear. induction ls as [|a ls IH]; simpl; [intros l []|].
      destruct (Z.eqb_spec (pk a) (pk order_line)) as [E|E].
      - split; [exact E|]. exists [], ls. split; [reflexivity | intros x []].
      - destruct (find _ ls) as [l|].
        + destruct IH as [Hpk [before [after [Els Hb]]]].
          split; [exact Hpk|]. exists (a :: before), after.
          split; [rewrite Els; reflexivity|].
          intros x [<- | Hx]; [exact E | apply Hb; exact Hx].
        + intros l [<- | Hl]; [exact E | apply IH; exact Hl]. }
    specialize (H ls). destruct (find _ ls) as [l|].
    + destruct H as [Hpk [before [after [Els Hb]]]].
      split; [exact Hpk|]. left. exists ls, before, after. repeat split; assumption.
    + split; [reflexivity|]. right. split; [reflexivity|].
      intros ls' l Hs Hin. inversion Hs; subst. apply H. exact Hin.
  - simpl. split; [reflexivity|]. right. split; [reflexivity|].
    intros ls l Hs. discriminate.
Qed.

(** ** The plugin phase *)

(** A call that returns or raises [TaxError], nothing else. *)
Definition at_worst_tax_error {A : Type} (r : result A) : Prop :=
  match r with
  | Ok _ => True
  | Raise TaxError => True
  | Raise _ => False
  end.

Definition guarded_calls_at_worst_tax_error (manager : PluginsManager) : Prop :=
  (forall o l v p, at_worst_tax_error (calculate_order_line_unit manager o l v p))
  /\ (forall o l v p, at_worst_tax_error (calculate_order_line_total manager o l v p))
  /\ (forall o p v t, at_worst_tax_error (get_order_line_tax_rate manager o p v t))
  /\ (forall o, at_worst_tax_error (calculate_order_shipping manager o))
  /\ (forall o t, at_worst_tax_error (get_order_shipping_tax_rate manager o t)).

Lemma except_TaxError_returns : forall (A B : Type) (c : result A) (k : A -> result B)
                                       (fallback : result B),
  at_worst_tax_error c ->
  (forall a, exists b, k a = Ok b) ->
  (exists b, fallback = Ok b) ->
  exists b, except_TaxError c k fallback = Ok b.
Proof.
  intros A B c k fallback Hc Hk Hf. destruct c as [a|[]]; simpl in *;
    try contradiction; auto.
Qed.

Lemma guarded_line_returns : forall manager order line s,
  guarded_calls_at_worst_tax_error manager ->
  exists r, _apply_tax_data_from_plugins_line manager order line s = Ok r.
Proof.
  intros manager order line s [Hu [Ht [Hr _]]].
  unfold _apply_tax_data_from_plugins_line.
  destruct (variant line) as [v|]; [|eexists; reflexivity].
  apply except_TaxError_returns; [apply Hu | | eexists; reflexivity].
  intros line_unit.
  apply except_TaxError_returns; [apply Ht | | eexists; reflexivity].
  intros line_total.
  apply except_TaxError_returns; [apply Hr | | eexists; reflexivity].
  intros r. eexists; reflexivity.
Qed.

Lemma guarded_lines_return : forall manager order lines s,
  guarded_calls_at_worst_tax_error manager ->
  exists r, _apply_tax_data_from_plugins_lines manager order lines s = Ok r.
Proof.
  intros manager order lines. induction lines as [|l lines IH]; intros s Hg; simpl.
  - eexists; reflexivity.
  - destruct (guarded_line_returns manager order l s Hg) as [[l1 s1] E1].
    rewrite E1. simpl.
    destruct (IH s1 Hg) as [[rest s2] E2]. rewrite E2. simpl.
    eexists; reflexivity.
Qed.

(** [_apply_tax_data_from_plugins] returns whenever the calls inside its
    [try] blocks raise nothing but [TaxError] and [calculate_order_total]
    returns: no [TaxError] of those calls leaves it. *)
Theorem plugins_tax_errors_are_caught : forall manager order lines,
  guarded_calls_at_worst_tax_error manager ->
  (forall o ls, exists t, calculate_order_total manager o ls = Ok t) ->
  exists order' lines',
    _apply_tax_data_from_plugins manager order lines = Ok (order', lines').
Proof.
  intros manager order lines Hg Htotal.
  unfold _apply_tax_data_from_plugins.
  destruct (guarded_lines_return manager order lines zero_taxed_money Hg) as [[ls s] El].
  rewrite El. simpl.
  assert (Es : exists o1, _apply_tax_data_from_plugins_shipping manager order = Ok o1).
  { destruct Hg as [_ [_ [_ [Hs Hr]]]].
    unfold _apply_tax_data_from_plugins_shipping.
    apply except_TaxError_returns; [apply Hs | | eexists; reflexivity].
    intros sp.
    apply except_TaxError_returns; [apply Hr | | eexists; reflexivity].
    intros r. eexists; reflexivity. }
  destruct Es as [o1 Es]. rewrite Es. simpl.
  match goal with
  | |- context [calculate_order_total manager ?o ?l] =>
      destruct (Htotal o l) as [t Et]
  end.
  rewrite Et. simpl. eexists; eexists; reflexivity.
Qed.

(** The sum of the undiscounted total prices of the lines that have a
    variant. *)
Definition undiscounted_subtotal_of (lines : list OrderLine) (start : TaxedMoney)
    : TaxedMoney :=
  fold_left (fun acc l =>
               match variant l with
               | Some _ => taxed_add acc (undiscounted_total_price l)
               | None => acc
               end) lines start.

Lemma plugins_lines_undiscounted_subtotal : forall manager order lines s lines' s',
  (forall o l v p, exists r, calculate_order_line_unit manager o l v p = Ok r) ->
  (forall o l v p, exists r, calculate_order_line_total manager o l v p = Ok r) ->
  _apply_tax_data_from_plugins_lines manager order lines s = Ok (lines', s') ->
  s' = undiscounted_subtotal_of lines' s
  /\ Forall2 (fun l l' => variant l' = variant l
                          /\ (variant l = None -> l' = l)) lines lines'.
Proof.
  intros manager order lines. induction lines as [|l lines IH];
    intros s lines' s' Hu Ht H; simpl in H.
  - inversion H; subst. split; [reflexivity | constructor].
  - unfold bind in H.
    destruct (_apply_tax_data_from_plugins_line manager order l s) as [[l1 s1]|] eqn:E1;
      [|discriminate].
    destruct (_apply_tax_data_from_plugins_lines manager order lines s1) as [[rest s2]|]
      eqn:E2; [|discriminate].
    inversion H; subst; clear H.
    destruct (IH _ _ _ Hu Ht E2) as [Hs Hf].
    assert (Hl : variant l1 = variant l
                 /\ (variant l = None -> l1 = l)
                 /\ s1 = match variant l1 with
                         | Some _ => taxed_add s (undiscounted_total_price l1)
                         | None => s
                         end).
    { unfold _apply_tax_data_from_plugins_line in E1.
      destruct (variant l) as [v|] eqn:Ev.
      - destruct (Hu order l v (product v)) as [lu Elu]. rewrite Elu in E1. simpl in E1.
        match type of E1 with
        | context [calculate_order_line_total manager ?o ?x ?y ?z] =>
            destruct (Ht o x y z) as [lt Elt]
        end.
        rewrite Elt in E1. simpl in E1.
        destruct (get_order_line_tax_rate _ _ _ _ _) as [r|[]]; simpl in E1;
          try discriminate; inversion E1; subst; simpl; rewrite Ev;
          (split; [reflexivity | split; [discriminate | reflexivity]]).
      - inversion E1; subst. rewrite Ev. repeat split; reflexivity. }
    destruct Hl as [Hv [Hnone Hs1]].
    split.
    + unfold undiscounted_subtotal_of. simpl. fold (undiscounted_subtotal_of rest).
      rewrite <- Hs1. exact Hs.
    + constructor; [split; assumption | exact Hf].
Qed.

(** When the per-line unit and total calls return, the undiscounted total
    [_apply_tax_data_from_plugins] leaves on the order is the sum of the
    undiscounted total prices of the returned lines that have a variant, plus
    the base shipping price as net and gross; lines without a variant are
    returned as they are and not counted. *)
Theorem plugins_undiscounted_total_counts_lines_with_variant :
  forall manager order lines order' lines',
    (forall o l v p, exists r, calculate_order_line_unit manager o l v p = Ok r) ->
    (forall o l v p, exists r, calculate_order_line_total manager o l v p = Ok r) ->
    _apply_tax_data_from_plugins manager order lines = Ok (order', lines') ->
    undiscounted_total order' =
    taxed_add (undiscounted_subtotal_of lines' zero_taxed_money)
              (mkTaxedMoney (base_shipping_price order) (base_shipping_price order))
    /\ Forall2 (fun l l' => variant l' = variant l /\ (variant l = None -> l' = l))
               lines lines'.
Proof.
  intros manager order lines order' lines' Hu Ht.
  unfold _apply_tax_data_from_plugins, bind.
  destruct (_apply_tax_data_from_plugins_lines manager order lines zero_taxed_money)
    as [[ls s]|] eqn:El; [|discriminate].
  destruct (_apply_tax_data_from_plugins_shipping manager order) as [o1|] eqn:Es;
    [|discriminate].
  destruct (calculate_order_total manager _ ls) as [t|]; [|discriminate].
  intros H; inversion H; subst; clear H.
  destruct (plugins_lines_undiscounted_subtotal _ _ _ _ _ _ Hu Ht El) as [Hs Hf].
  split; [|exact Hf]. simpl. rewrite Hs.
  assert (Hb : base_shipping_price o1 = base_shipping_price order).
  { unfold _apply_tax_data_from_plugins_shipping, except_TaxError in Es.
    destruct (calculate_order_shipping manager order) as [sp|[]]; try discriminate.
    - destruct (get_order_shipping_tax_rate _ _ _) as [r|[]]; try discriminate;
        inversion Es; reflexivity.
    - inversion Es; reflexivity. }
  rewrite Hb. reflexivity.
Qed.

(** ** Tax data with more or fewer lines than the order *)

Definition tax_line_total (t : TaxLineData) : TaxedMoney :=
  mkTaxedMoney (tl_total_net_amount t) (tl_total_gross_amount t).

Lemma apply_tax_data_lines_zip : forall lines tax_lines s lines' s',
  _apply_tax_data_lines normalize_tax_rate_for_db lines tax_lines s = Ok (lines', s') ->
  s' = fold_left taxed_add
                 (map tax_line_total (firstn (List.length lines) tax_lines)) s
  /\ forall i, (List.length tax_lines <= i)%nat -> nth_error lines' i = nth_error lines i.
Proof.
  induction lines as [|l lines IH]; intros tax_lines s lines' s' H.
  - simpl in H. inversion H; subst. split; [reflexivity | intros; reflexivity].
  - destruct tax_lines as [|t tax_lines].
    + simpl in H. inversion H; subst. split; [reflexivity | intros; reflexivity].
    + simpl in H. unfold bind in H.
      destruct (taxed_div_int _ (quantity l)) as [u|]; [|discriminate].
      destruct (_apply_tax_data_lines _ lines tax_lines _) as [[rest s2]|] eqn:Er;
        [|discriminate].
      inversion H; subst; clear H.
      destruct (IH _ _ _ _ Er) as [Hs Hn].
      split; [exact Hs|].
      intros [|i] Hi; simpl in Hi; [lia|]. simpl. apply Hn. lia.
Qed.

(** [_apply_tax_data] pairs lines and tax lines by position: the order's
    shipping price is the tax data's, its total is that shipping price plus
    the totals of the tax lines that have a partner, and lines beyond the last
    tax line are returned as they are. *)
Theorem apply_tax_data_pairs_by_position : forall order lines td order' lines',
  _apply_tax_data normalize_tax_rate_for_db order lines (Some td) = Ok (order', lines') ->
  let shipping := mkTaxedMoney (td_shipping_price_net_amount td)
                               (td_shipping_price_gross_amount td) in
  shipping_price order' = shipping
  /\ shipping_tax_rate order' = Some (normalize_tax_rate_for_db (td_shipping_tax_rate td))
  /\ total order' =
     taxed_add shipping
       (fold_left taxed_add
          (map tax_line_total (firstn (List.length lines) (td_lines td)))
          zero_taxed_money)
  /\ List.length lines' = List.length lines
  /\ forall i, (List.length (td_lines td) <= i)%nat ->
               nth_error lines' i = nth_error lines i.
Proof.
  intros order lines td order' lines'. unfold _apply_tax_data, bind.
  destruct (_apply_tax_data_lines _ lines (td_lines td) zero_taxed_money)
    as [[ls s]|] eqn:E; [|discriminate].
  intros H; inversion H; subst; clear H. simpl.
  destruct (apply_tax_data_lines_zip _ _ _ _ _ E) as [Hs Hn].
  repeat split.
  - rewrite Hs. reflexivity.
  - exact (proj1 (@apply_tax_data_lines_paired _ _ _ _ _ _ E)).
  - exact Hn.
Qed.

Lemma taxed_div_int_by_zero : forall t,
  taxed_div_int t 0 = Raise DivisionByZero \/ taxed_div_int t 0 = Raise InvalidOperation.
Proof.
  intros t. unfold taxed_div_int, decimal_div_int, bind. simpl.
  destruct (decimal_eqb (net t) 0%Qc); [right | left]; reflexivity.
Qed.

(** A line of quantity 0 that has a tax line makes [_apply_tax_data] raise
    the division's exception. *)
Theorem apply_tax_data_raises_on_zero_quantity : forall order lines td i l t,
  nth_error lines i = Some l ->
  nth_error (td_lines td) i = Some t ->
  quantity l = 0%Z ->
  _apply_tax_data normalize_tax_rate_for_db order lines (Some td) = Raise DivisionByZero
  \/ _apply_tax_data normalize_tax_rate_for_db order lines (Some td) =
     Raise InvalidOperation.
Proof.
  intros order lines td i l t Hl Ht Hq. unfold _apply_tax_data.
  assert (H : forall s,
             _apply_tax_data_lines normalize_tax_rate_for_db lines (td_lines td) s =
             Raise DivisionByZero
             \/ _apply_tax_data_lines normalize_tax_rate_for_db lines (td_lines td) s =
                Raise InvalidOperation).
  { revert i Hl Ht. generalize (td_lines td) as tax_lines.
    induction lines as [|a lines IH]; intros tax_lines i Hl Ht s.
    - destruct i; discriminate.
    - destruct tax_lines as [|b tax_lines]; [destruct i; discriminate|].
      simpl. destruct i as [|i]; simpl in Hl, Ht.
      + inversion Hl; subst. rewrite Hq.
        destruct (taxed_div_int_by_zero
                    (mkTaxedMoney (tl_total_net_amount b) (tl_total_gross_amount b)))
          as [E | E]; rewrite E; simpl; auto.
      + destruct (taxed_div_int _ (quantity a)) as [u|e] eqn:Eu; simpl.
        * destruct (IH tax_lines i Hl Ht
                       (taxed_add s (mkTaxedMoney (tl_total_net_amount b)
                                                  (tl_total_gross_amount b))))
            as [E | E]; rewrite E; simpl; auto.
        * unfold taxed_div_int, decimal_div_int, bind in Eu.
          destruct (quantity a =? 0)%Z.
          -- destruct (decimal_eqb _ 0%Qc); inversion Eu; auto.
          -- discriminate. }
  destruct (H zero_taxed_money) as [E | E]; rewrite E; simpl; auto.
Qed.

(** ** Removing the tax *)

(** [_remove_tax] changes no net amount, no primary key, variant, quantity or
    unit discount, and applying it again changes nothing. *)
Theorem remove_tax_keeps_net_amounts_and_is_idempotent : forall order lines,
  let r := _remove_tax order lines in
  _remove_tax (fst r) (snd r) = r
  /\ total_net_amount (fst r) = total_net_amount order
  /\ undiscounted_total_net_amount (fst r) = undiscounted_total_net_amount order
  /\ shipping_price_net_amount (fst r) = shipping_price_net_amount order
  /\ Forall2 (fun l l' =>
                pk l' = pk l /\ variant l' = variant l /\ quantity l' = quantity l
                /\ unit_discount_amount l' = unit_discount_amount l
                /\ unit_price_net_amount l' = unit_price_net_amount l
                /\ total_price_net_amount l' = total_price_net_amount l
                /\ undiscounted_unit_price_net_amount l' =
                   undiscounted_unit_price_net_amount l
                /\ undiscounted_total_price_net_amount l' =
                   undiscounted_total_price_net_amount l)
             lines (snd r).
Proof.
  intros order lines. simpl. split; [|repeat split].
  - unfold _remove_tax. simpl. f_equal.
    rewrite map_map. apply map_ext. intros l. reflexivity.
  - induction lines as [|l lines IH]; simpl; constructor.
    + repeat split.
    + exact IH.
Qed.

(** ** What the tax-app calculation leaves alone *)

Definition same_order_identity (o o' : Order) : Prop :=
  id o' = id o /\ status o' = status o
  /\ should_refresh_prices o' = should_refresh_prices o
  /\ currency o' = currency o /\ channel o' = channel o
  /\ tax_exemption o' = tax_exemption o
  /\ voucher o' = voucher o /\ voucher_code o' = voucher_code o
  /\ base_shipping_price o' = base_shipping_price o.

Definition same_line_keys (l l' : OrderLine) : Prop :=
  pk l' = pk l /\ variant l' = variant l /\ quantity l' = quantity l
  /\ unit_discount_amount l' = unit_discount_amount l.

Lemma same_order_identity_refl : forall o, same_order_identity o o.
Proof.
  intros o. repeat split.
Qed.

Lemma same_order_identity_trans : forall a b c,
  same_order_identity a b -> same_order_identity b c -> same_order_identity a c.
Proof.
  unfold same_order_identity. intros a b c H1 H2.
  repeat match goal with H : _ /\ _ |- _ => destruct H end.
  repeat split; congruence.
Qed.

Lemma same_line_keys_trans : forall a b c,
  Forall2 same_line_keys a b -> Forall2 same_line_keys b c -> Forall2 same_line_keys a c.
Proof.
  intros a b c H. revert c. induction H as [|x y a b Hxy _ IH]; intros c Hc.
  - inversion Hc; constructor.
  - inversion Hc as [|y' z b' c' Hyz Hrest]; subst.
    constructor; [|apply IH; exact Hrest].
    unfold same_line_keys in *.
    repeat match goal with H : _ /\ _ |- _ => destruct H end.
    repeat split; congruence.
Qed.

Lemma plugins_keep_keys : forall manager order lines order' lines',
  _apply_tax_data_from_plugins manager order lines = Ok (order', lines') ->
  same_order_identity order order' /\ Forall2 same_line_keys lines lines'.
Proof.
  intros manager order lines order' lines'. unfold _apply_tax_data_from_plugins, bind.
  destruct (_apply_tax_data_from_plugins_lines manager order lines zero_taxed_money)
    as [[ls s]|] eqn:El; [|discriminate].
  destruct (_apply_tax_data_from_plugins_shipping manager order) as [o1|] eqn:Es;
    [|discriminate].
  destruct (calculate_order_total manager _ ls) as [t|]; [|discriminate].
  intros H; inversion H; subst; clear H. split.
  - unfold _apply_tax_data_from_plugins_shipping, except_TaxError in Es.
    destruct (calculate_order_shipping manager order) as [sp|[]]; try discriminate.
    + destruct (get_order_shipping_tax_rate _ _ _) as [r|[]]; try discriminate;
        inversion Es; subst; repeat split.
    + inversion Es; subst. repeat split.
  - clear Es. revert lines' El. generalize zero_taxed_money as s0.
    induction lines as [|l lines IH]; intros s0 lines' El; simpl in El.
    + inversion El; constructor.
    + unfold bind in El.
      destruct (_apply_tax_data_from_plugins_line manager order l s0) as [[l1 s1]|] eqn:E1;
        [|discriminate].
      destruct (_apply_tax_data_from_plugins_lines manager order lines s1) as [[rest s2]|]
        eqn:E2; [|discriminate].
      inversion El; subst; clear El.
      constructor; [|exact (IH _ _ E2)].
      unfold _apply_tax_data_from_plugins_line, except_TaxError in E1.
      destruct (variant l) as [v|] eqn:Ev.
      * destruct (calculate_order_line_unit manager order l v (product v)) as [lu|[]];
          try discriminate.
        -- destruct (calculate_order_line_total _ _ _ _ _) as [lt|[]]; try discriminate.
           ++ destruct (get_order_line_tax_rate _ _ _ _ _) as [r|[]]; try discriminate;
                inversion E1; subst; repeat split; simpl; auto.
           ++ inversion E1; subst; repeat split; simpl; auto.
        -- inversion E1; subst. repeat split; auto.
      * inversion E1; subst. repeat split; auto.
Qed.

Lemma apply_tax_data_keeps_keys : forall order lines tax_data order' lines',
  _apply_tax_data normalize_tax_rate_for_db order lines tax_data = Ok (order', lines') ->
  same_order_identity order order' /\ Forall2 same_line_keys lines lines'.
Proof.
  intros order lines [td|] order' lines'; unfold _apply_tax_data, bind.
  - destruct (_apply_tax_data_lines _ lines (td_lines td) zero_taxed_money)
      as [[ls s]|] eqn:E; [|discriminate].
    intros H; inversion H; subst; clear H. split; [repeat split|].
    revert E. generalize (td_lines td) as tls. generalize zero_taxed_money as s0.
    revert lines'. induction lines as [|l lines IH]; intros lines' s0 tls E.
    + simpl in E. inversion E; constructor.
    + destruct tls as [|t tls].
      * simpl in E. inversion E; subst.
        clear. induction (l :: lines); constructor; [repeat split | assumption].
      * simpl in E. unfold bind in E.
        destruct (taxed_div_int _ (quantity l)) as [u|]; [|discriminate].
        destruct (_apply_tax_data_lines _ lines tls _) as [[rest s2]|] eqn:Er;
          [|discriminate].
        inversion E; subst; clear E.
        constructor; [repeat split | exact (IH _ _ _ Er)].
  - intros H; inversion H; subst. split; [repeat split|].
    clear. induction lines'; constructor; [repeat split | assumption].
Qed.

Lemma remove_tax_keeps_keys : forall order lines,
  same_order_identity order (fst (_remove_tax order lines))
  /\ Forall2 same_line_keys lines (snd (_remove_tax order lines)).
Proof.
  intros order lines. split; [repeat split|]. simpl.
  induction lines; constructor; [repeat split | assumption].
Qed.

(** Under the tax-app strategy [_calculate_taxes] changes prices and tax
    rates only: the order keeps id, status, refresh flag, currency, channel,
    tax exemption, voucher, voucher code and base shipping price, and the
    lines stay the same in number and order with their primary key, variant,
    quantity and unit discount. *)
Theorem tax_app_calculation_changes_prices_only : forall order manager lines order' lines',
  get_tax_calculation_strategy_for_order order = TAX_APP ->
  calculate_taxes order manager lines = Ok (order', lines') ->
  same_order_identity order order' /\ Forall2 same_line_keys lines lines'.
Proof.
  intros order manager lines order' lines' Hstrat.
  assert (Hadd : forall b o l,
             _calculate_and_add_tax normalize_tax_rate_for_db
               update_order_prices_with_flat_rates TAX_APP order lines manager b =
             Ok (o, l) ->
             same_order_identity order o /\ Forall2 same_line_keys lines l).
  { intros b o l. simpl. unfold bind.
    destruct (_apply_tax_data_from_plugins manager order lines) as [[o1 l1]|] eqn:E1;
      [|discriminate].
    destruct (get_taxes_for_order manager o1) as [tax_data|]; [|discriminate].
    intros E2.
    destruct (plugins_keep_keys _ _ _ _ _ E1) as [Ho1 Hl1].
    destruct (apply_tax_data_keeps_keys _ _ _ _ _ E2) as [Ho2 Hl2].
    split; [exact (same_order_identity_trans _ _ _ Ho1 Ho2)
           | exact (same_line_keys_trans _ _ _ Hl1 Hl2)]. }
  unfold _calculate_taxes. rewrite Hstrat. unfold bind.
  destruct (prices_entered_with_tax (tax_configuration (channel order))).
  - destruct (_calculate_and_add_tax _ _ TAX_APP order lines manager true)
      as [[o1 l1]|] eqn:E; [|discriminate].
    destruct (Hadd _ _ _ E) as [Ho Hl].
    destruct (negb _); intros H; inversion H; subst; clear H.
    + destruct (remove_tax_keeps_keys o1 l1) as [Ho' Hl'].
      split; [exact (same_order_identity_trans _ _ _ Ho Ho')
             | exact (same_line_keys_trans _ _ _ Hl Hl')].
    + split; assumption.
  - destruct (_ && _).
    + apply Hadd.
    + intros H; inversion H; subst. split; [apply same_order_identity_refl|].
      clear. induction lines'; constructor; [repeat split | assumption].
Qed.

(** ** Prices entered without tax and not chargeable *)

(** When prices are entered without tax and taxes are not chargeable, a
    recalculation calculates no tax: whatever the manager and the strategy,
    it returns the order and lines as the discounts left them and saves
    those. *)
Theorem untaxed_order_is_saved_as_discounted :
  forall order manager lines force_update info w order1 lines1 w2,
    In (status order) ORDER_EDITABLE_STATUS ->
    force_update = true \/ should_refresh_prices order = true ->
    discount_step apply_order_discounts order lines w = Ok (order1, lines1, w2) ->
    prices_entered_with_tax (tax_configuration (channel order1)) = false ->
    get_charge_taxes_for_order order1 = false \/ tax_exemption order1 = true ->
    fetch order manager lines force_update info w =
    Ok (order1, Some lines1, persist_step order1 lines1 info w2).
Proof.
  intros order manager lines force_update info w order1 lines1 w2
         Hed Hstale Hdisc Hentered Hnocharge.
  rewrite (@fetch_recalculates ORDER_EDITABLE_STATUS get_tax_calculation_strategy_for_order
             get_charge_taxes_for_order normalize_tax_rate_for_db apply_order_discounts
             update_order_prices_with_flat_rates order manager lines force_update info w
             Hed Hstale).
  rewrite Hdisc. simpl. unfold _calculate_taxes. rewrite Hentered.
  assert (Hc : get_charge_taxes_for_order order1 && negb (tax_exemption order1) = false).
  { destruct Hnocharge as [-> | ->]; [reflexivity | apply andb_false_r]. }
  rewrite Hc. reflexivity.
Qed.

(** ** What a recalculation writes *)

Lemma recalculation_shape :
  forall order manager lines force_update info w order1 lines1 w2 order' lines' w',
    In (status order) ORDER_EDITABLE_STATUS ->
    force_update = true \/ should_refresh_prices order = true ->
    discount_step apply_order_discounts order lines w = Ok (order1, lines1, w2) ->
    fetch order manager lines force_update info w = Ok (order', lines', w') ->
    exists ls,
      calculate_taxes order1 manager lines1 = Ok (order', ls)
      /\ lines' = Some ls
      /\ w' = persist_step order' ls info w2.
Proof.
  intros order manager lines force_update info w order1 lines1 w2 order' lines' w'
         Hed Hstale Hdisc H.
  rewrite (@fetch_recalculates ORDER_EDITABLE_STATUS get_tax_calculation_strategy_for_order
             get_charge_taxes_for_order normalize_tax_rate_for_db apply_order_discounts
             update_order_prices_with_flat_rates order manager lines force_update info w
             Hed Hstale) in H.
  rewrite Hdisc in H. simpl in H. unfold bind in H.
  destruct (calculate_taxes order1 manager lines1) as [[o2 l2]|]; [|discriminate].
  inversion H; subst. exists l2. repeat split.
Qed.

(** The columns of the order's row after a recalculation: total,
    undiscounted total, shipping price, shipping tax rate and the refresh
    flag are the returned order's; every other column, the discounts and
    their prefetch are as they were before the save. *)
Theorem recalculation_saves_the_price_columns_only :
  forall order manager lines force_update info w order1 lines1 w2 order' lines' w',
    In (status order) ORDER_EDITABLE_STATUS ->
    force_update = true \/ should_refresh_prices order = true ->
    discount_step apply_order_discounts order lines w = Ok (order1, lines1, w2) ->
    fetch order manager lines force_update info w = Ok (order', lines', w') ->
    (total (db_order w') = total order'
     /\ undiscounted_total (db_order w') = undiscounted_total order'
     /\ shipping_price (db_order w') = shipping_price order'
     /\ shipping_tax_rate (db_order w') = shipping_tax_rate order'
     /\ should_refresh_prices (db_order w') = should_refresh_prices order')
    /\ (id (db_order w') = id (db_order w2)
        /\ status (db_order w') = status (db_order w2)
        /\ currency (db_order w') = currency (db_order w2)
        /\ channel (db_order w') = channel (db_order w2)
        /\ tax_exemption (db_order w') = tax_exemption (db_order w2)
        /\ voucher (db_order w') = voucher (db_order w2)
        /\ voucher_code (db_order w') = voucher_code (db_order w2)
        /\ base_shipping_price (db_order w') = base_shipping_price (db_order w2))
    /\ db_discounts w' = db_discounts w2
    /\ prefetched_discounts w' = prefetched_discounts w2.
Proof.
  intros order manager lines force_update info w order1 lines1 w2 order' lines' w'
         Hed Hstale Hdisc H.
  destruct (recalculation_shape _ _ _ _ _ _ _ _ _ _ _ _ Hed Hstale Hdisc H)
    as [ls [_ [_ Hw]]].
  subst w'. unfold persist_step.
  destruct info; simpl; unfold total_net_amount, total_gross_amount,
    undiscounted_total_net_amount, undiscounted_total_gross_amount,
    shipping_price_net_amount, shipping_price_gross_amount, set_net, set_gross; simpl;
    destruct (total order'), (undiscounted_total order'), (shipping_price order');
    repeat split.
Qed.

(** How [bulk_update] leaves a row, given the instances. *)
Definition row_updated_from (lines : list OrderLine) (row row' : OrderLine) : Prop :=
  pk row' = pk row /\ variant row' = variant row /\ quantity row' = quantity row
  /\ match find (fun l => (pk l =? pk row)%Z) lines with
     | Some l =>
         unit_price row' = unit_price l
         /\ undiscounted_unit_price row' = undiscounted_unit_price l
         /\ total_price row' = total_price l
         /\ undiscounted_total_price row' = undiscounted_total_price l
         /\ tax_rate row' = tax_rate l
         /\ unit_discount_amount row' = unit_discount_amount l
     | None => row' = row
     end.

(** The rows of the lines after a recalculation: every row keeps primary key,
    variant and quantity; a row whose key is the key of a returned line takes
    the prices, tax rate and unit discount of the first such line; every
    other row is untouched. *)
Theorem recalculation_updates_rows_by_primary_key :
  forall order manager lines force_update info w order1 lines1 w2 order' lines' w',
    In (status order) ORDER_EDITABLE_STATUS ->
    force_update = true \/ should_refresh_prices order = true ->
    discount_step apply_order_discounts order lines w = Ok (order1, lines1, w2) ->
    fetch order manager lines force_update info w = Ok (order', lines', w') ->
    exists ls,
      lines' = Some ls
      /\ Forall2 (row_updated_from ls) (db_lines w2) (db_lines w').
Proof.
  intros order manager lines force_update info w order1 lines1 w2 order' lines' w'
         Hed Hstale Hdisc H.
  destruct (recalculation_shape _ _ _ _ _ _ _ _ _ _ _ _ Hed Hstale Hdisc H)
    as [ls [_ [Hl Hw]]].
  exists ls. split; [exact Hl|]. subst w'.
  assert (Hrows : db_lines (persist_step order' ls info w2) =
                  map (fun row =>
                         match find (fun l => (pk l =? pk row)%Z) ls with
                         | Some l => fold_left (write_line_field l) line_update_fields row
                         | None => row
                         end) (db_lines w2)).
  { unfold persist_step. destruct info; reflexivity. }
  rewrite Hrows. clear.
  induction (db_lines w2) as [|row rows IH]; simpl; constructor; [|exact IH].
  unfold row_updated_from.
  destruct (find (fun l => (pk l =? pk row)%Z) ls) as [l|]; simpl.
  - unfold unit_price_net_amount, unit_price_gross_amount,
      undiscounted_unit_price_net_amount, undiscounted_unit_price_gross_amount,
      total_price_net_amount, total_price_gross_amount,
      undiscounted_total_price_net_amount, undiscounted_total_price_gross_amount,
      set_net, set_gross; simpl.
    destruct (unit_price l), (undiscounted_unit_price l), (total_price l),
      (undiscounted_total_price l).
    repeat split.
  - repeat split.
Qed.

(** ** What the accessors return *)

Lemma quantize_fixed : forall t cur, quantize (quantize t cur) cur = quantize t cur.
Proof.
  intros t cur. apply CheckoutProperties.quantize_price_idempotent.
Qed.

(** Whatever [order_total], [order_shipping] and [order_undiscounted_total]
    return is quantized to the precision of the order's currency. *)
Theorem order_level_prices_are_returned_quantized :
  forall order manager lines force_update info w,
    (forall r w', order_total order manager lines force_update info w = Ok (r, w') ->
                  quantize r (currency order) = r)
    /\ (forall r w', order_shipping order manager lines force_update info w = Ok (r, w') ->
                     quantize r (currency order) = r)
    /\ (forall r w',
          order_undiscounted_total order manager lines force_update info w = Ok (r, w') ->
          quantize r (currency order) = r).
Proof.
  intros order manager lines force_update info w.
  unfold order_total, order_shipping, order_undiscounted_total, bind.
  destruct (fetch order manager lines force_update info w) as [[[o ls] w1]|].
  - repeat split; intros r w' H; inversion H; subst; apply quantize_fixed.
  - repeat split; intros r w' H; discriminate H.
Qed.

(** Both prices [order_line_unit] and [order_line_total] return are quantized
    to the precision of the order's currency. *)
Theorem order_line_prices_are_returned_quantized :
  forall order order_line manager lines force_update info w,
    (forall r w',
       order_line_unit order order_line manager lines force_update info w = Ok (r, w') ->
       quantize (undiscounted_price r) (currency order) = undiscounted_price r
       /\ quantize (price_with_discounts r) (currency order) = price_with_discounts r)
    /\ (forall r w',
          order_line_total order order_line manager lines force_update info w =
          Ok (r, w') ->
          quantize (undiscounted_price r) (currency order) = undiscounted_price r
          /\ quantize (price_with_discounts r) (currency order) = price_with_discounts r).
Proof.
  intros order order_line manager lines force_update info w.
  unfold order_line_unit, order_line_total, bind.
  destruct (fetch order manager lines force_update info w) as [[[o ls] w1]|].
  - split; intros r w' H; inversion H; subst; simpl; split; apply quantize_fixed.
  - split; intros r w' H; discriminate H.
Qed.

Lemma find_in : forall (ls : list OrderLine) key,
  (exists l, In l ls /\ pk l = key) ->
  exists l, find (fun x => (pk x =? key)%Z) ls = Some l /\ In l ls.
Proof.
  induction ls as [|a ls IH]; intros key [l [Hin Hpk]]; [destruct Hin|].
  simpl. destruct (Z.eqb_spec (pk a) key) as [E|E].
  - exists a. split; [reflexivity | left; reflexivity].
  - destruct Hin as [-> | Hin]; [contradiction|].
    destruct (IH key (ex_intro _ l (conj Hin Hpk))) as [l' [Hf Hl']].
    exists l'. split; [exact Hf | right; exact Hl'].
Qed.

(** After a recalculation with prices entered with tax and taxes not
    chargeable, [order_line_tax_rate] is 0 for every line whose primary key
    is among the returned lines, and [order_shipping_tax_rate] is 0. *)
Theorem tax_rates_read_zero_after_tax_removal :
  forall order order_line manager lines force_update info w order1 lines1 w2
         order' ls w',
    In (status order) ORDER_EDITABLE_STATUS ->
    force_update = true \/ should_refresh_prices order = true ->
    discount_step apply_order_discounts order lines w = Ok (order1, lines1, w2) ->
    prices_entered_with_tax (tax_configuration (channel order1)) = true ->
    get_charge_taxes_for_order order1 = false \/ tax_exemption order1 = true ->
    fetch order manager lines force_update info w = Ok (order', Some ls, w') ->
    (exists l, In l ls /\ pk l = pk order_line) ->
    order_line_tax_rate order order_line manager lines force_update info w =
    Ok (Some 0%Qc, w')
    /\ order_shipping_tax_rate order manager lines force_update info w =
       Ok (Some 0%Qc, w').
Proof.
  intros order order_line manager lines force_update info w order1 lines1 w2
         order' ls w' Hed Hstale Hdisc Hentered Hnocharge H Hpk.
  unfold order_line_tax_rate, order_shipping_tax_rate. rewrite H. simpl.
  destruct (recalculation_shape _ _ _ _ _ _ _ _ _ _ _ _ Hed Hstale Hdisc H)
    as [ls' [Ht [Hls _]]].
  inversion Hls; subst ls'. clear Hls.
  unfold _calculate_taxes, bind in Ht. rewrite Hentered in Ht.
  assert (Hc : get_charge_taxes_for_order order1 && negb (tax_exemption order1) = false).
  { destruct Hnocharge as [-> | ->]; [reflexivity | apply andb_false_r]. }
  rewrite Hc in Ht. simpl in Ht.
  destruct (_calculate_and_add_tax _ _ _ order1 lines1 manager true) as [[o1 l1]|];
    [|discriminate].
  inversion Ht; subst; clear Ht.
  destruct (remove_tax_strips o1 l1) as [_ Hlines].
  split.
  - unfold _find_order_line.
    destruct (find_in _ _ Hpk) as [l [Hf Hin]]. rewrite Hf.
    rewrite Forall_forall in Hlines.
    destruct (Hlines l Hin) as [_ [_ [_ [_ Hrate]]]]. rewrite Hrate. reflexivity.
  - reflexivity.
Qed.

End Properties.

(** ** The sample order again *)

Definition manual_discount : OrderDiscount :=
  mkOrderDiscount MANUAL FIXED (dec 5 1) None None None.

Lemma order_without_voucher_loses_voucher_records_witness :
  db_discounts
    (_update_order_discount_for_voucher
       (sample_order DRAFT false None None)
       (sample_world (sample_order DRAFT false None None)
                     [discount_for_code "OLD"; manual_discount])) =
  [manual_discount].
Proof.
  destruct (order_without_voucher_loses_voucher_records
              (sample_order DRAFT false None None)
              (sample_world (sample_order DRAFT false None None)
                            [discount_for_code "OLD"; manual_discount])
              eq_refl) as [_ H].
  rewrite H. reflexivity.
Defined.

Lemma degraded_manager_is_guarded : guarded_calls_at_worst_tax_error degraded_manager.
Proof.
  repeat split.
Defined.

Lemma plugins_tax_errors_are_caught_witness :
  exists order' lines',
    _apply_tax_data_from_plugins degraded_manager (sample_order DRAFT false None None)
                                 [sample_line] = Ok (order', lines').
Proof.
  apply (plugins_tax_errors_are_caught degraded_manager
           (sample_order DRAFT false None None) [sample_line]
           degraded_manager_is_guarded).
  intros o ls. eexists. reflexivity.
Defined.

(** A line whose variant is gone. *)
Definition orphan_line : OrderLine :=
  mkOrderLine 2 None 1
              (mkTaxedMoney (dec 3333 100) (dec 4444 100))
              (mkTaxedMoney (dec 3333 100) (dec 4444 100))
              (mkTaxedMoney (dec 3333 100) (dec 4444 100))
              (mkTaxedMoney (dec 3333 100) (dec 4444 100))
              None 0%Qc.

Lemma plugins_undiscounted_total_counts_lines_with_variant_witness :
  exists order' lines',
    _apply_tax_data_from_plugins (tax_app_manager (sample_tax_data [sample_tax_line]))
      (sample_order DRAFT false None None) [sample_line; orphan_line] =
    Ok (order', lines')
    /\ undiscounted_total order' =
       taxed_add (undiscounted_subtotal_of lines' zero_taxed_money)
                 (mkTaxedMoney (dec 1000 100) (dec 1000 100))
    /\ undiscounted_total order' = mkTaxedMoney (dec 11000 100) (dec 13300 100).
Proof.
  returns_value
    (_apply_tax_data_from_plugins (tax_app_manager (sample_tax_data [sample_tax_line]))
       (sample_order DRAFT false None None) [sample_line; orphan_line]).
  match goal with
  | |- ?call = Ok (?o, ?ls) /\ _ =>
      assert (E : call = Ok (o, ls)) by (vm_compute; reflexivity);
      destruct (plugins_undiscounted_total_counts_lines_with_variant
                  (tax_app_manager (sample_tax_data [sample_tax_line]))
                  (sample_order DRAFT false None None) [sample_line; orphan_line] o ls
                  (fun _ _ _ _ => ex_intro _ _ eq_refl)
                  (fun _ _ _ _ => ex_intro _ _ eq_refl) E)
        as [Hu _]
  end.
  split; [exact E|]. split; [exact Hu | qc_closed].
Defined.

Lemma apply_tax_data_pairs_by_position_witness :
  exists order' lines',
    _apply_tax_data percent_to_fraction (sample_order DRAFT false None None)
                    [sample_line; orphan_line] (Some (sample_tax_data [sample_tax_line])) =
    Ok (order', lines')
    /\ total order' = mkTaxedMoney (dec 11000 100) (dec 13530 100)
    /\ nth_error lines' 1 = Some orphan_line.
Proof.
  returns_value
    (_apply_tax_data percent_to_fraction (sample_order DRAFT false None None)
       [sample_line; orphan_line] (Some (sample_tax_data [sample_tax_line]))).
  match goal with
  | |- ?call = Ok (?o, ?ls) /\ _ =>
      assert (E : call = Ok (o, ls)) by (vm_compute; reflexivity);
      destruct (apply_tax_data_pairs_by_position percent_to_fraction
                  (sample_order DRAFT false None None) [sample_line; orphan_line]
                  (sample_tax_data [sample_tax_line]) o ls E)
        as [_ [_ [_ [_ Hn]]]]
  end.
  split; [exact E|]. split; [qc_closed|].
  exact (Hn 1%nat (le_n 1)).
Defined.

Definition empty_line : OrderLine :=
  mkOrderLine 3 (Some (mkProductVariant 10 100)) 0
              zero_taxed_money zero_taxed_money zero_taxed_money zero_taxed_money
              None 0%Qc.

Lemma apply_tax_data_raises_on_zero_quantity_witness :
  _apply_tax_data percent_to_fraction (sample_order DRAFT false None None)
                  [empty_line] (Some (sample_tax_data [sample_tax_line])) =
  Raise DivisionByZero.
Proof.
  destruct (apply_tax_data_raises_on_zero_quantity percent_to_fraction
              (sample_order DRAFT false None None) [empty_line]
              (sample_tax_data [sample_tax_line]) 0%nat empty_line sample_tax_line
              eq_refl eq_refl eq_refl) as [E | E].
  - exact E.
  - exfalso. vm_compute in E. discriminate E.
Defined.

Lemma tax_app_calculation_changes_prices_only_witness :
  exists order' lines',
    _calculate_taxes tax_app_strategy charge_taxes_never percent_to_fraction
      flat_rates_untouched (sample_order DRAFT true None None)
      (tax_app_manager (sample_tax_data [sample_tax_line])) [sample_line] =
    Ok (order', lines')
    /\ same_order_identity (sample_order DRAFT true None None) order'
    /\ Forall2 same_line_keys [sample_line] lines'.
Proof.
  returns_value
    (_calculate_taxes tax_app_strategy charge_taxes_never percent_to_fraction
       flat_rates_untouched (sample_order DRAFT true None None)
       (tax_app_manager (sample_tax_data [sample_tax_line])) [sample_line]).
  match goal with
  | |- ?call = Ok (?o, ?ls) /\ _ =>
      assert (E : call = Ok (o, ls)) by (vm_compute; reflexivity);
      pose proof (tax_app_calculation_changes_prices_only
                    tax_app_strategy charge_taxes_never percent_to_fraction
                    flat_rates_untouched (sample_order DRAFT true None None)
                    (tax_app_manager (sample_tax_data [sample_tax_line])) [sample_line]
                    o ls eq_refl E) as H
  end.
  split; [exact E | exact H].
Defined.

Definition untaxed_sample_fetch (m : PluginsManager) :=
  sample_fetch charge_taxes_never (sample_order DRAFT false None None) m None false false
               (sample_world (sample_order DRAFT false None None) []).

Lemma untaxed_order_is_saved_as_discounted_witness :
  untaxed_sample_fetch failing_manager =
  Ok (set_should_refresh_prices (sample_order DRAFT false None None) false,
      Some [sample_line],
      persist_step (set_should_refresh_prices (sample_order DRAFT false None None) false)
                   [sample_line] false
                   (_update_order_discount_for_voucher
                      (set_should_refresh_prices (sample_order DRAFT false None None) false)
                      (sample_world (sample_order DRAFT false None None) []))).
Proof.
  exact (untaxed_order_is_saved_as_discounted
           sample_editable_status tax_app_strategy charge_taxes_never percent_to_fraction
           no_order_discounts flat_rates_untouched
           (sample_order DRAFT false None None) failing_manager None false false
           (sample_world (sample_order DRAFT false None None) [])
           _ _ _
           (draft_is_editable false None None) (or_intror eq_refl)
           sample_discount_step eq_refl (or_introl eq_refl)).
Defined.

Lemma recalculation_saves_the_price_columns_only_witness :
  exists order' lines' w',
    taxed_sample_fetch (tax_app_manager (sample_tax_data [sample_tax_line])) =
    Ok (order', lines', w')
    /\ total (db_order w') = total order'
    /\ status (db_order w') = DRAFT
    /\ should_refresh_prices (db_order w') = false.
Proof.
  returns_value (taxed_sample_fetch (tax_app_manager (sample_tax_data [sample_tax_line]))).
  match goal with
  | |- ?call = Ok (?o, ?ls, ?w) /\ _ =>
      assert (E : call = Ok (o, ls, w)) by (vm_compute; reflexivity);
      destruct (recalculation_saves_the_price_columns_only
                  sample_editable_status tax_app_strategy charge_taxes_always
                  percent_to_fraction no_order_discounts flat_rates_untouched
                  (sample_order DRAFT false None None)
                  (tax_app_manager (sample_tax_data [sample_tax_line])) None false false
                  (sample_world (sample_order DRAFT false None None) [])
                  _ _ _ o ls w
                  (draft_is_editable false None None) (or_intror eq_refl)
                  sample_discount_step E)
        as [[Ht [_ [_ [_ Hf]]]] [[_ [Hs _]] _]]
  end.
  split; [exact E|]. split; [exact Ht|]. split; [exact Hs | exact Hf].
Defined.

Lemma recalculation_updates_rows_by_primary_key_witness :
  exists order' ls w',
    taxed_sample_fetch (tax_app_manager (sample_tax_data [sample_tax_line])) =
    Ok (order', Some ls, w')
    /\ Forall2 (row_updated_from ls) [sample_line] (db_lines w').
Proof.
  returns_some_lines
    (taxed_sample_fetch (tax_app_manager (sample_tax_data [sample_tax_line]))).
  match goal with
  | |- ?call = Ok (?o, Some ?ls, ?w) /\ _ =>
      assert (E : call = Ok (o, Some ls, w)) by (vm_compute; reflexivity);
      destruct (recalculation_updates_rows_by_primary_key
                  sample_editable_status tax_app_strategy charge_taxes_always
                  percent_to_fraction no_order_discounts flat_rates_untouched
                  (sample_order DRAFT false None None)
                  (tax_app_manager (sample_tax_data [sample_tax_line])) None false false
                  (sample_world (sample_order DRAFT false None None) [])
                  _ _ _ o (Some ls) w
                  (draft_is_editable false None None) (or_intror eq_refl)
                  sample_discount_step E)
        as [ls' [Els Hrows]]
  end.
  split; [exact E|]. injection Els as <-. exact Hrows.
Defined.

Definition two_places (_ : string) : nat := 2.

Lemma order_level_prices_are_returned_quantized_witness :
  exists r w',
    order_total sample_editable_status tax_app_strategy charge_taxes_always
      percent_to_fraction no_order_discounts flat_rates_untouched two_places
      (sample_order DRAFT false None None) rounding_manager None false false
      (sample_world (sample_order DRAFT false None None) []) = Ok (r, w')
    /\ CheckoutCalculations.quantize_price two_places r "USD" = r.
Proof.
  let v := eval vm_compute in
             (order_total sample_editable_status tax_app_strategy charge_taxes_always
                percent_to_fraction no_order_discounts flat_rates_untouched two_places
                (sample_order DRAFT false None None) rounding_manager None false false
                (sample_world (sample_order DRAFT false None None) [])) in
  lazymatch v with
  | Ok (?r, ?w) => exists r, w
  end.
  match goal with
  | |- ?call = Ok (?r, ?w) /\ _ =>
      assert (E : call = Ok (r, w)) by (vm_compute; reflexivity);
      destruct (order_level_prices_are_returned_quantized
                  sample_editable_status tax_app_strategy charge_taxes_always
                  percent_to_fraction no_order_discounts flat_rates_untouched two_places
                  (sample_order DRAFT false None None) rounding_manager None false false
                  (sample_world (sample_order DRAFT false None None) []))
        as [Ht _];
      pose proof (Ht r w E) as Hq
  end.
  split; [exact E | exact Hq].
Defined.

Lemma order_line_prices_are_returned_quantized_witness :
  exists r w',
    order_line_total sample_editable_status tax_app_strategy charge_taxes_always
      percent_to_fraction no_order_discounts flat_rates_untouched two_places
      (sample_order DRAFT false None None) sample_line rounding_manager None false false
      (sample_world (sample_order DRAFT false None None) []) = Ok (r, w')
    /\ price_with_discounts r = mkTaxedMoney (dec 3334 100) (dec 4100 100)
    /\ CheckoutCalculations.quantize_price two_places (price_with_discounts r) "USD" =
       price_with_discounts r.
Proof.
  let v := eval vm_compute in
             (order_line_total sample_editable_status tax_app_strategy charge_taxes_always
                percent_to_fraction no_order_discounts flat_rates_untouched two_places
                (sample_order DRAFT false None None) sample_line rounding_manager None
                false false (sample_world (sample_order DRAFT false None None) [])) in
  lazymatch v with
  | Ok (?r, ?w) => exists r, w
  end.
  match goal with
  | |- ?call = Ok (?r, ?w) /\ _ =>
      assert (E : call = Ok (r, w)) by (vm_compute; reflexivity);
      destruct (order_line_prices_are_returned_quantized
                  sample_editable_status tax_app_strategy charge_taxes_always
                  percent_to_fraction no_order_discounts flat_rates_untouched two_places
                  (sample_order DRAFT false None None) sample_line rounding_manager None
                  false false (sample_world (sample_order DRAFT false None None) []))
        as [_ Ht];
      destruct (Ht r w E) as [_ Hq]
  end.
  split; [exact E|]. split; [qc_closed | exact Hq].
Defined.

Lemma tax_rates_read_zero_after_tax_removal_witness :
  exists w',
    order_line_tax_rate sample_editable_status tax_app_strategy charge_taxes_never
      percent_to_fraction no_order_discounts flat_rates_untouched
      (sample_order DRAFT true None None) sample_line
      (tax_app_manager (sample_tax_data [sample_tax_line])) None false false
      (sample_world (sample_order DRAFT true None None) []) = Ok (Some 0%Qc, w').
Proof.
  assert (E : exists o ls w',
             sample_fetch charge_taxes_never (sample_order DRAFT true None None)
               (tax_app_manager (sample_tax_data [sample_tax_line])) None false false
               (sample_world (sample_order DRAFT true None None) []) = Ok (o, Some ls, w')
             /\ exists l, In l ls /\ pk l = pk sample_line).
  { returns_some_lines
      (sample_fetch charge_taxes_never (sample_order DRAFT true None None)
         (tax_app_manager (sample_tax_data [sample_tax_line])) None false false
         (sample_world (sample_order DRAFT true None None) [])).
    split; [vm_compute; reflexivity|].
    eexists. split; [left; reflexivity | reflexivity]. }
  destruct E as [o [ls [w' [E Hpk]]]].
  exists w'.
  refine (proj1 (tax_rates_read_zero_after_tax_removal
                   sample_editable_status tax_app_strategy charge_taxes_never
                   percent_to_fraction no_order_discounts flat_rates_untouched
                   (sample_order DRAFT true None None) sample_line
                   (tax_app_manager (sample_tax_data [sample_tax_line])) None false false
                   (sample_world (sample_order DRAFT true None None) [])
                   _ _ _ o ls w'
                   (draft_is_editable true None None) (or_intror eq_refl)
                   eq_refl eq_refl (or_introl eq_refl) E Hpk)).
Defined.

End OrderProperties.
